(* ===== verification/_CoqProject ===== *)
-Q . S2P
Prelude.v
JsString.v
JsNumber.v
SessionGate.v
UrlParams.v
Schema.v
DataService.v
EmployeesApi.v
LeavesApi.v
EmployeeDirectory.v
LeaveRequests.v
ProfilePage.v
LoginPage.v
DashboardLayout.v
LoadContract.v
Backend.v
