(* ===== verification/Prelude.v ===== *)
(** * A verification library for the HRMS dashboard (hrms_dashboard)

    The repository is a Next.js application: a browser dashboard over a
    hosted database (Supabase) in which authenticated users browse an
    employee directory and leave requests.  Its parts, leaves first:

    - Remote Data Service (Supabase tables and auth): an external
      collaborator, modelled only through the query interface the routes
      use ([DataService.v]).
    - Resource Endpoints, [src/src/app/api/employees/route.ts] and
      [src/src/app/api/leaves/route.ts]: [GET] turns the query string into
      a filtered, ordered, paginated query and wraps the answer into a page
      envelope; [POST] inserts one row ([EmployeesApi.v], [LeavesApi.v]).
    - Session Gate, [src/src/middleware.ts] with its [config.matcher], and
      the sign-out route [src/src/app/api/auth/signout/route.ts]
      ([SessionGate.v]).
    - List View Controllers, the client pages
      [src/src/app/Dashboard/employee-directory/page.tsx] and
      [src/src/app/Dashboard/leave-requests/page.tsx]: React state, a
      300 ms debounce of the search box, a fetch per change of the
      effective filters, a local re-filter, and the create / edit / delete
      cycle ([EmployeeDirectory.v], [LeaveRequests.v]).
    - The profile and login pages and the dashboard layout
      ([ProfilePage.v], [LoginPage.v], [DashboardLayout.v]).

    The components interact by HTTP: a controller serialises its filters
    with [URLSearchParams], the endpoint reads them back with
    [searchParams.get], queries the data service and answers with a JSON
    envelope the controller stores as its snapshot.

    ** Library layout (dependency order, as in _CoqProject)

    - [Prelude.v] (this file): the notation scope [hrms_scope] (JS strict
      equality on strings), the hint databases [hrms] and [hrms_rw], the
      tactic [hrms_simpl], the type [reply] of a settled [fetch], and the
      generic lemmas on lists keyed by request number that every page
      shares ([list_find_last], [filter_length_delete], ...).
    - [JsString.v]: the JavaScript string operations the code calls
      ([toLowerCase], [toUpperCase], [includes], [startsWith], [join],
      [charAt], and the [a || b] defaulting of possibly empty strings).
    - [JsNumber.v]: JavaScript numbers as the code uses them: [NaN] or an
      integer; [parseInt] with its whitespace, sign, [0x] prefix and
      longest-digit-prefix rules, [Math.max], [Math.ceil] of a quotient,
      and comparison with [NaN].
    - [SessionGate.v], Modules [Middleware] and [Signout]: the middleware,
      its matcher, their composition [gate], and the sign-out route.
    - [UrlParams.v], Module [FormUrlEncoded]: the [URLSearchParams]
      serializer and parser and [get]; their round trip.
    - [Schema.v]: the [Employee] and [Leave] records and their columns.
    - [DataService.v]: the reference model of the data service
      (Section [OnRows]: filters, [ilike], order, range, exact count;
      Section [Insert] and the class [Insertable]: a single-row insert).
    - [EmployeesApi.v], [LeavesApi.v]: the two route files, Modules
      [EmployeesRoute] / [LeavesRoute] (GET and POST line by line), the
      spec's contract ([EmployeesSpec] / [LeavesSpec]) and the facts.
    - [EmployeeDirectory.v] (Module [Directory]), [LeaveRequests.v]
      ([LeavePage]), [ProfilePage.v] ([Profile]), [LoginPage.v]
      ([Login]), [DashboardLayout.v] ([Layout]): the client pages.
    - [LoadContract.v]: each list page's load against its endpoint.
    - [Backend.v]: the directory's four requests against the route files
      (which path has a route), with the table as shared state.

    ** Modelling conventions

    - A page's React state and the runtime beside it (timers, requests in
      flight numbered by a counter, clock, console) form a [State]
      record; each handler is one function; the part of an [async]
      handler after its [await] is a separate function run when the
      reply event of that request arrives.  A run is a [Fixpoint] over a
      list of (time-stamped) events, so every interleaving of inputs,
      timer expiries and replies is one list.
    - Strings are Stdlib [string] (lists of 8-bit [ascii]); case mapping
      is the ASCII one.  JavaScript maps every Unicode letter; on the
      ASCII range the two agree.
    - Numbers are exact integers in [Z] or [NaN].  JavaScript numbers are
      doubles: the model is exact for magnitudes below 2^53.  Page and
      limit come from the user: a value above 2^53 is rounded by
      [parseInt], and a digit string of about 309 digits or more gives
      [Infinity], neither of which the model has; the theorems on the
      endpoints speak of the exact model.  A [NaN] in a JSON answer is
      serialized as [null].
    - The JSON bodies are objects of strings ([json_object]); a body with
      a non-string value, which [request.json()] accepts, is folded into
      the unreadable body (a 500).
    - No definition uses fuel: every loop of the code is a structural
      recursion over a list (rows, events, parameters, characters), so all
      models are total and the witnesses evaluate them with [vm_compute].
    - The data service's order of rows with equal [created_at] is
      unspecified by PostgreSQL; the model keeps table order (a stable
      sort, proved a permutation of the matching rows).

    ** What the theorems show

    - Endpoints: [GET] refines the spec's page of rows for both tables
      (refinement); the bounds of its answers; an unreadable page is not
      clamped and returns every row with page [null]; a page past the end
      and a search with a comma answer 500, and a search can inject a
      condition of its own into the query (errors, safety); [POST] stores
      exactly the body's row or nothing (functional, error).
    - Session gate: dashboard paths are protected, entry pages redirect a
      session to the dashboard, redirects never loop, [/api] is not
      gated, and sign-out keeps the browser's session.
    - Pages: reachability invariants by rule induction (requests in
      flight, loading flag, timers; the profile's single save), the
      debounce issuing exactly one load, the races of replies applied in
      arrival order (stale snapshot, early cleared loading flag, the
      leave page's empty table, the profile's lost edit), the create,
      delete and save flows, and the login outcomes.
    - Compositions: the filters a page sends are read back unchanged by
      its endpoint (round trip), the page's local filter and the
      endpoint's query accept the same rows for searches without a space
      (equivalence), the rows an endpoint answers are all shown by its
      page (while rows an [_] wildcard selects are hidden), at most 20
      employees ever reach the directory, and against the route files an
      edit or delete of the directory never persists while a creation
      round-trips to the very row shown.

    ** Not modelled

    - The data service and the auth provider themselves: the service is a
      reference model from the spec and PostgREST's documentation
      (logic-tree parsing of [or], [ilike], ordering, [offset]/[limit]
      read with [readMaybe], the 416 of a range past the count), the
      auth calls are requests whose outcome is an event, and supabase-js's
      [signOut] is modelled as documented (a server call only when the
      client holds a session).  Quoted values in PostgREST logic trees
      are not modelled: no template of the endpoints starts a value with
      a quote.
    - Next.js's routing is modelled from the layout of [src/app/api]
      ([Backend.route_of_path]): no route file serves
      [/api/employees/<id>].
    - [formatDate] of the leave page: locale formatting for display,
      changing no state.
    - [ThemeContext] (imported from outside [src/]): its theme and toggle
      are modelled from the spec in [DashboardLayout.v].
    - Styling and markup that carry no state.
*)

From stdpp Require Import base list strings decidable.
From Stdlib Require Import ZArith Lia.

(** ** Notation: JavaScript strict equality on strings *)

Declare Scope hrms_scope.
Delimit Scope hrms_scope with hrms.

(** [a === b] is the boolean JavaScript computes for [a === b] on two
    strings: equality of their code units. *)
Notation "a === b" := (bool_decide (a = b :> string))
  (at level 70, no associativity) : hrms_scope.
Notation "a !== b" := (negb (bool_decide (a = b :> string)))
  (at level 70, no associativity) : hrms_scope.

Open Scope hrms_scope.

(** ** Automation *)

Create HintDb hrms discriminated.
Create Rewrite HintDb hrms_rw.

(** [hrms_simpl] unfolds the boolean tests of the models into
    propositions and closes what is left by conversion, congruence and
    arithmetic. *)
Ltac hrms_simpl :=
  repeat first
    [ progress simplify_eq/=
    | case_bool_decide
    | match goal with
      | H : _ && _ = true |- _ => apply andb_prop in H as [? ?]
      | H : negb _ = true |- _ => apply negb_true_iff in H
      end ];
  try done; try lia.

(** ** How a [fetch] settles

    Rejected (network failure), answered with [!response.ok], answered
    ok with a body that [response.json()] rejects, or answered ok with a
    parsed body.  Both list pages and their handlers read replies so. *)
Inductive reply (A : Type) :=
| NetworkError
| NotOk
| BadJson
| OkJson (body : A).
Arguments NetworkError {A}. Arguments NotOk {A}.
Arguments BadJson {A}. Arguments OkJson {A} _.

(** ** Generic list facts *)

Lemma list_filter_id {A} (P : A -> Prop) `{!forall x, Decision (P x)} (l : list A) :
  Forall P l -> filter P l = l.
Proof.
  induction 1 as [|x l Hx _ IH]; [done|].
  rewrite filter_cons_True by done. by f_equal.
Qed.

(** A boolean filter that keeps every element is the identity. *)
Lemma filter_bool_id {A} (f : A -> bool) (l : list A) :
  Forall (fun x => f x = true) l -> List.filter f l = l.
Proof. induction 1 as [|x l Hx _ IH]; [done|]. simpl. by rewrite Hx, IH. Qed.

(** [List.find] finds nothing when no element passes. *)
Lemma find_none_intro {A} (f : A -> bool) (l : list A) :
  (forall x, In x l -> f x = false) -> List.find f l = None.
Proof.
  induction l as [|x l IH]; intros Hf; [done|]. simpl.
  rewrite Hf by (by left). apply IH. intros y Hy. apply Hf. by right.
Qed.

(** The request numbered [n] that was issued last is found at the end. *)
Lemma list_find_last {A} (n : nat) (r : A) (l : list (nat * A)) :
  Forall (fun nr => nr.1 <> n) l ->
  list_find (fun nr => nr.1 = n) (l ++ [(n, r)]) = Some (length l, (n, r)).
Proof.
  intros Hl. rewrite list_find_app_r.
  - simpl. rewrite decide_True by done. done.
  - apply list_find_None. eapply Forall_impl; [|exact Hl]. done.
Qed.

(** A weaker test keeps at least as many elements. *)
Lemma filter_length_mono {A} (f g : A -> bool) (l : list A) :
  (forall x, f x = true -> g x = true) ->
  (List.length (List.filter f l) <= List.length (List.filter g l))%nat.
Proof.
  intros Hfg. induction l as [|x l IH]; [done|]. simpl.
  destruct (f x) eqn:Hf; [rewrite (Hfg x Hf); simpl; lia|]. destruct (g x); simpl; lia.
Qed.

(** Counting what passes a test after deleting a position. *)
Lemma filter_length_delete {A} (P : A -> bool) (l : list A) (i : nat) (x : A) :
  l !! i = Some x ->
  (List.length (List.filter P (delete i l)) + (if P x then 1 else 0) =
   List.length (List.filter P l))%nat.
Proof.
  revert i. induction l as [|y l IH]; intros [|i] Hi; simplify_eq/=.
  - destruct (P x); simpl; lia.
  - destruct (P y); simpl; rewrite <- (IH i Hi); lia.
Qed.

(** A window of a list holds elements of the list. *)
(** [mapM] over a list whose head succeeds. *)
Lemma mapM_cons_Some {A B} (f : A -> option B) (x : A) (y : B) (l : list A) :
  f x = Some y -> mapM f (x :: l) = (y ::.) <$> mapM f l.
Proof. intros H. simpl. rewrite H. simpl. by destruct (mapM f l). Qed.

(** [mapM] fails as soon as one element fails. *)
Lemma mapM_None_1 {A B} (f : A -> option B) (x : A) (l : list A) :
  f x = None -> mapM f (x :: l) = None.
Proof. intros H. simpl. by rewrite H. Qed.

Lemma mapM_None_2 {A B} (f : A -> option B) (x y : A) (l : list A) :
  f y = None -> mapM f (x :: y :: l) = None.
Proof. intros H. simpl. destruct (f x); simpl; [by rewrite H|done]. Qed.

Lemma elem_of_take_drop {A} (x : A) (n m : nat) (l : list A) :
  x ∈ take n (drop m l) -> x ∈ l.
Proof.
  intros H. eapply elem_of_sublist; [|apply sublist_drop].
  eapply elem_of_sublist; [exact H | apply sublist_take].
Qed.

(** stdpp's [NoDup_app], under a name the Stdlib's [List] does not hide. *)
Lemma NoDup_app_iff {A} (l k : list A) :
  NoDup (l ++ k) <-> NoDup l /\ (forall x, x ∈ l -> x ∉ k) /\ NoDup k.
Proof. apply list.NoDup_app. Qed.

(** Deleting another position keeps an element. *)
Lemma elem_of_delete_other {A} (l : list A) (i : nat) (x y : A) :
  l !! i = Some y -> x ∈ l -> x <> y -> x ∈ delete i l.
Proof.
  intros Hi [j Hj]%list_elem_of_lookup Hne. apply list_elem_of_lookup.
  destruct (decide (j < i)).
  - exists j. by rewrite list_lookup_delete_lt.
  - destruct (decide (j = i)) as [->|]; [congruence|].
    destruct j as [|j]; [lia|]. exists j. rewrite list_lookup_delete_ge by lia. done.
Qed.

Lemma NoDup_fmap_delete {A B} (f : A -> B) (l : list A) (i : nat) :
  NoDup (f <$> l) -> NoDup (f <$> delete i l).
Proof.
  intros H. rewrite list_fmap_delete. eapply sublist_NoDup; [exact H|]. apply sublist_delete.
Qed.

Lemma delete_snoc {A} (l : list A) (x : A) : delete (length l) (l ++ [x]) = l.
Proof. induction l as [|y l IH]; [done|]. simpl. by rewrite IH. Qed.

(** ** Lists updated by key

    The controllers keep their snapshot as an array of records and update
    it by identifier: [prev.filter((x) => x.id !== id)] removes and
    [prev.map((x) => x.id === id ? y : x)] replaces.  The section states
    them once for any record type with a string key. *)

Section ByKey.
Context {A : Type} (key : A -> string).

Definition remove_by (k : string) (l : list A) : list A :=
  filter (fun x => key x <> k) l.

Definition replace_by (k : string) (y : A) (l : list A) : list A :=
  map (fun x => if key x === k then y else x) l.

Lemma elem_of_remove_by x k l :
  x ∈ remove_by k l <-> x ∈ l /\ key x <> k.
Proof. unfold remove_by. rewrite list_elem_of_filter. tauto. Qed.

Lemma remove_by_not_in k l :
  Forall (fun x => key x <> k) l -> remove_by k l = l.
Proof.
  apply list_filter_id.
Qed.

Lemma remove_by_idemp k l : remove_by k (remove_by k l) = remove_by k l.
Proof. unfold remove_by. by apply list_filter_filter_r. Qed.

Lemma length_replace_by k y l : length (replace_by k y l) = length l.
Proof. apply length_map. Qed.

Lemma replace_by_lookup k y l i x :
  l !! i = Some x ->
  replace_by k y l !! i = Some (if key x === k then y else x).
Proof. intros H. unfold replace_by. by rewrite list_lookup_fmap, H. Qed.

Lemma replace_by_not_in k y l :
  Forall (fun x => key x <> k) l -> replace_by k y l = l.
Proof.
  induction 1 as [|x l Hx _ IH]; [done|].
  unfold replace_by in *; simpl. rewrite IH. by case_bool_decide.
Qed.
End ByKey.

#[export] Hint Rewrite @length_replace_by @remove_by_idemp : hrms_rw.
#[export] Hint Resolve remove_by_not_in replace_by_not_in : hrms.
