(* ===== verification/JsString.v ===== *)
(** * JavaScript string operations used by the dashboard

    The pages and routes call a handful of [String.prototype] methods:
    [toLowerCase] and [includes] in the employee directory's local filter,
    [join(" ")] to concatenate the searchable fields, [startsWith] in the
    middleware's path classification, [charAt(0).toUpperCase()] for the
    profile initials, and [x || d] to default an empty or missing value.
    This file gives each an executable definition on Stdlib strings and
    the lemmas the components use.  Case mapping is the ASCII one (see the
    root file's conventions). *)

From stdpp Require Import base list strings decidable.
From Stdlib Require Import Ascii String ZArith Lia.
From S2P Require Import Prelude.

(** ** Case mapping *)

Definition lower_char (c : ascii) : ascii :=
  let n := nat_of_ascii c in
  if (65 <=? n)%nat && (n <=? 90)%nat then ascii_of_nat (n + 32) else c.

Definition upper_char (c : ascii) : ascii :=
  let n := nat_of_ascii c in
  if (97 <=? n)%nat && (n <=? 122)%nat then ascii_of_nat (n - 32) else c.

(** [s.toLowerCase()] and [s.toUpperCase()]. *)
Fixpoint toLowerCase (s : string) : string :=
  match s with
  | EmptyString => EmptyString
  | String c s' => String (lower_char c) (toLowerCase s')
  end.

Fixpoint toUpperCase (s : string) : string :=
  match s with
  | EmptyString => EmptyString
  | String c s' => String (upper_char c) (toUpperCase s')
  end.

(** ** Searching *)

(** [s.startsWith(p)]. *)
Definition startsWith (s p : string) : bool := String.prefix p s.

(** [s.includes(t)]: [t] occurs in [s] at some position. *)
Fixpoint includes (s t : string) : bool :=
  String.prefix t s ||
  match s with
  | EmptyString => false
  | String _ s' => includes s' t
  end.

(** [[a, b, ...].join(sep)]. *)
Definition join (sep : string) (l : list string) : string := String.concat sep l.

(** [s.split(sep)] with a one-character separator: [""] splits into [[""]]. *)
Fixpoint split (sep : ascii) (s : string) : list string :=
  match s with
  | EmptyString => [EmptyString]
  | String c s' =>
      if ascii_dec c sep then EmptyString :: split sep s'
      else match split sep s' with
           | [] => [String c EmptyString]
           | w :: ws => String c w :: ws
           end
  end.

(** [s.charAt(0)]: the first character, or [""] for the empty string. *)
Definition charAt0 (s : string) : string :=
  match s with
  | EmptyString => EmptyString
  | String c _ => String c EmptyString
  end.

(** [v || d] on a string value that may be [null] (a missing query
    parameter): both [null] and [""] are falsy. *)
Definition or_default (v : option string) (d : string) : string :=
  match v with
  | Some x => if x === "" then d else x
  | None => d
  end.

(** ** Lemmas *)

(** stdpp makes [String.append] opaque to [simpl]; its two equations. *)
Lemma append_cons (c : ascii) (a b : string) :
  String.append (String c a) b = String c (String.append a b).
Proof. reflexivity. Qed.

Lemma append_empty_l (b : string) : String.append EmptyString b = b.
Proof. reflexivity. Qed.

Lemma append_empty_r (a : string) : String.append a EmptyString = a.
Proof. induction a as [|c a IH]; [done|]. by rewrite append_cons, IH. Qed.

Lemma prefix_spec (p s : string) :
  String.prefix p s = true <-> exists r, s = String.append p r.
Proof.
  revert s. induction p as [|c p IH]; intros s; simpl.
  - split; intros _; [by exists s | by destruct s].
  - destruct s as [|c' s].
    + split; [discriminate|]. by intros [r ?].
    + simpl. destruct (ascii_dec c c') as [->|Hne].
      * rewrite IH. split; intros [r Hr]; exists r; rewrite ?append_cons in *; congruence.
      * split; [discriminate|]. intros [r Hr]. rewrite append_cons in Hr. congruence.
Qed.

Lemma includes_spec (s t : string) :
  includes s t = true <->
  exists a b, s = String.append a (String.append t b).
Proof.
  induction s as [|c s IH].
  - change (includes "" t) with (String.prefix t "" || false).
    rewrite orb_false_r, prefix_spec. split.
    + intros [r Hr]. by exists EmptyString, r.
    + intros [[|??] [b Hb]]; [by exists b | discriminate].
  - change (includes (String c s) t) with (String.prefix t (String c s) || includes s t).
    rewrite orb_true_iff, prefix_spec, IH. split.
    + intros [[r Hr]|[a [b ->]]].
      * by exists EmptyString, r.
      * by exists (String c a), b.
    + intros [[|c' a] [b Hb]].
      * left. by exists b.
      * right. rewrite append_cons in Hb. injection Hb as -> ->. by exists a, b.
Qed.

Lemma includes_empty (s : string) : includes s "" = true.
Proof. apply includes_spec. by exists EmptyString, s. Qed.

Lemma includes_refl (s : string) : includes s s = true.
Proof. apply includes_spec. exists EmptyString, EmptyString. by rewrite append_empty_r. Qed.

Lemma append_assoc_str (a b c : string) :
  String.append a (String.append b c) = String.append (String.append a b) c.
Proof. induction a as [|x a IH]; [done|]. by rewrite !append_cons, IH. Qed.

Lemma includes_app_l (s1 s2 t : string) :
  includes s1 t = true -> includes (String.append s1 s2) t = true.
Proof.
  rewrite !includes_spec. intros [a [b ->]]. exists a, (String.append b s2).
  by rewrite <- !append_assoc_str.
Qed.

Lemma includes_app_r (s1 s2 t : string) :
  includes s2 t = true -> includes (String.append s1 s2) t = true.
Proof.
  rewrite !includes_spec. intros [a [b ->]]. exists (String.append s1 a), b.
  by rewrite <- !append_assoc_str.
Qed.

Lemma toLowerCase_app (a b : string) :
  toLowerCase (String.append a b) = String.append (toLowerCase a) (toLowerCase b).
Proof. induction a as [|c a IH]; [done|]. rewrite append_cons; simpl. by rewrite IH. Qed.

Lemma lower_char_idem (c : ascii) : lower_char (lower_char c) = lower_char c.
Proof. destruct c as [[] [] [] [] [] [] [] []]; reflexivity. Qed.

Lemma toLowerCase_idem (s : string) : toLowerCase (toLowerCase s) = toLowerCase s.
Proof. induction s as [|c s IH]; simpl; [done|]. by rewrite lower_char_idem, IH. Qed.

(** Case-insensitive containment survives lowering both sides. *)
Lemma includes_toLowerCase (s t : string) :
  includes s t = true -> includes (toLowerCase s) (toLowerCase t) = true.
Proof.
  rewrite !includes_spec. intros [a [b ->]].
  exists (toLowerCase a), (toLowerCase b). by rewrite !toLowerCase_app.
Qed.

Lemma includes_trans (s t u : string) :
  includes s t = true -> includes t u = true -> includes s u = true.
Proof.
  rewrite !includes_spec. intros [a [b ->]] [c [d ->]].
  exists (String.append a c), (String.append d b). by rewrite <- !append_assoc_str.
Qed.

(** Every element of a joined list occurs in the joined string. *)
Lemma join_includes (sep x : string) (l : list string) :
  In x l -> includes (join sep l) x = true.
Proof.
  unfold join. induction l as [|y l IH]; [done|].
  intros [->|Hin]; simpl; destruct l as [|z l].
  - apply includes_refl.
  - apply includes_app_l, includes_refl.
  - done.
  - apply includes_app_r, includes_app_r, IH, Hin.
Qed.

Lemma or_default_some (x d : string) : x <> "" -> or_default (Some x) d = x.
Proof. intros Hx. simpl. by case_bool_decide. Qed.

(** [x || ''] is [x]. *)
Lemma or_default_self (x : string) : or_default (Some x) "" = x.
Proof. simpl. case_bool_decide; congruence. Qed.

Lemma or_default_empty (v : option string) (d : string) :
  v = None \/ v = Some "" -> or_default v d = d.
Proof. by intros [-> | ->]. Qed.

(** [b] does not occur in [s]. *)
Fixpoint no_byte (b : ascii) (s : string) : bool :=
  match s with
  | EmptyString => true
  | String c s' => negb (bool_decide (c = b)) && no_byte b s'
  end.

Lemma no_byte_append (b : ascii) (s t : string) :
  no_byte b (String.append s t) = no_byte b s && no_byte b t.
Proof.
  induction s as [|c s IH]; [done|].
  rewrite ?append_cons; simpl. by rewrite IH, andb_assoc.
Qed.

Lemma split_no_sep (b : ascii) (s : string) :
  no_byte b s = true -> split b s = [s].
Proof.
  induction s as [|c s IH]; [done|]. simpl.
  intros [Hc Hs]%andb_prop. rewrite IH by done.
  destruct (ascii_dec c b); [|done]. by rewrite bool_decide_eq_true_2 in Hc.
Qed.

Lemma split_append (b : ascii) (s t : string) :
  no_byte b s = true -> split b (String.append s (String b t)) = s :: split b t.
Proof.
  induction s as [|c s IH]; simpl.
  - intros _. by destruct (ascii_dec b b).
  - intros [Hc Hs]%andb_prop. rewrite ?append_cons; simpl. rewrite IH by done.
    destruct (ascii_dec c b); [|done]. by rewrite bool_decide_eq_true_2 in Hc.
Qed.

Lemma concat_cons2 (sep x y : string) (l : list string) :
  String.concat sep (x :: y :: l) = String.append x (String.append sep (String.concat sep (y :: l))).
Proof. reflexivity. Qed.

Lemma split_concat (b : ascii) (l : list string) :
  l <> [] -> Forall (fun w => no_byte b w = true) l ->
  split b (String.concat (String b EmptyString) l) = l.
Proof.
  intros Hne Hl. induction Hl as [|w l Hw Hl IH]; [done|].
  destruct l as [|w' l].
  - by apply split_no_sep.
  - rewrite concat_cons2, append_cons, append_empty_l, split_append by done.
    by rewrite IH.
Qed.

#[export] Hint Resolve includes_empty includes_refl includes_app_l includes_app_r : hrms.
#[export] Hint Rewrite toLowerCase_app toLowerCase_idem : hrms_rw.

(** ** Breaking at the first separator *)

(** [s] split at its first [sep]: [None] when [sep] does not occur. *)
Fixpoint break_at (sep : ascii) (s : string) : option (string * string) :=
  match s with
  | EmptyString => None
  | String c s' =>
      if ascii_dec c sep then Some (EmptyString, s')
      else match break_at sep s' with
           | Some (a, b) => Some (String c a, b)
           | None => None
           end
  end.

Lemma break_at_append (sep : ascii) (a b : string) :
  no_byte sep a = true -> break_at sep (String.append a (String sep b)) = Some (a, b).
Proof.
  induction a as [|c a IH]; simpl.
  - intros _. by destruct (ascii_dec sep sep).
  - intros [Hc Ha]%andb_prop. rewrite ?append_cons; simpl. rewrite IH by done.
    destruct (ascii_dec c sep); [|done]. by rewrite bool_decide_eq_true_2 in Hc.
Qed.

Lemma break_at_none (sep : ascii) (s : string) :
  no_byte sep s = true -> break_at sep s = None.
Proof.
  induction s as [|c s IH]; [done|]. intros [Hc Hs]%andb_prop. simpl.
  destruct (ascii_dec c sep) as [->|_]; [by rewrite bool_decide_eq_true_2 in Hc|].
  by rewrite IH.
Qed.

(** ** Substrings of a joined string

    A text without the separator byte cannot straddle a separator: it
    occurs in [a ++ c :: b] exactly when it occurs in [a] or in [b]. *)
Lemma prefix_sep (c : ascii) (t a b : string) :
  no_byte c t = true -> String.prefix t (String.append a (String c b)) = String.prefix t a.
Proof.
  revert a. induction t as [|x t IH]; intros a Ht; [by destruct a|].
  apply andb_prop in Ht as [Hx Ht]. apply negb_true_iff, bool_decide_eq_false in Hx.
  destruct a as [|y a]; simpl.
  - by destruct (ascii_dec x c).
  - destruct (ascii_dec x y); [by apply IH | done].
Qed.

Lemma includes_sep (c : ascii) (t a b : string) :
  no_byte c t = true ->
  includes (String.append a (String c b)) t = includes a t || includes b t.
Proof.
  intros Ht. induction a as [|y a IH].
  - pose proof (prefix_sep c t "" b Ht) as Hp.
    change (String.append "" (String c b)) with (String c b) in Hp.
    change (includes (String.append "" (String c b)) t)
      with (String.prefix t (String c b) || includes b t).
    rewrite Hp. by destruct t.
  - change (includes (String.append (String y a) (String c b)) t)
      with (String.prefix t (String.append (String y a) (String c b)) ||
            includes (String.append a (String c b)) t).
    change (includes (String y a) t) with (String.prefix t (String y a) || includes a t).
    rewrite prefix_sep, IH by done. by rewrite orb_assoc.
Qed.

Lemma includes_join_sep (c : ascii) (t : string) (l : list string) :
  l <> [] -> no_byte c t = true ->
  includes (join (String c EmptyString) l) t = existsb (fun x => includes x t) l.
Proof.
  unfold join. intros Hl Ht. induction l as [|x [|y l] IH]; [done| |].
  - simpl. by rewrite orb_false_r.
  - change (String.concat (String c "") (x :: y :: l))
      with (String.append x (String c (String.concat (String c "") (y :: l)))).
    rewrite includes_sep, IH by done. reflexivity.
Qed.

Lemma toLowerCase_join_space (l : list string) :
  toLowerCase (join " " l) = join " " (map toLowerCase l).
Proof.
  unfold join. induction l as [|x [|y l] IH]; [done|done|].
  change (String.concat " " (x :: y :: l)) with (String.append x (String " " (String.concat " " (y :: l)))).
  rewrite toLowerCase_app.
  change (toLowerCase (String " " (String.concat " " (y :: l))))
    with (String (lower_char " ") (toLowerCase (String.concat " " (y :: l)))).
  by rewrite IH.
Qed.

(** Lowering neither creates nor removes a space. *)
Lemma no_byte_space_lower (q : string) : no_byte " " (toLowerCase q) = no_byte " " q.
Proof.
  induction q as [|c q IH]; [done|]. simpl. rewrite IH. f_equal. f_equal.
  destruct c as [[] [] [] [] [] [] [] []]; reflexivity.
Qed.
