(* ===== verification/JsNumber.v ===== *)
(** * JavaScript numbers as the endpoints use them

    [src/src/app/api/employees/route.ts] (lines 7-8) and
    [src/src/app/api/leaves/route.ts] (lines 7-8) compute
    [Math.max(1, parseInt(searchParams.get('page') || '1'))], an offset
    [(page - 1) * limit], [Math.ceil(total / limit)] and
    [page < totalPages].  A value here is [NaN] or an integer: [parseInt]
    only produces integers or [NaN], and arithmetic on them stays
    integral except for the quotient under [Math.ceil], modelled as one
    operation.  Integers are exact ([Z]); JavaScript doubles agree below
    2^53 (root file, conventions). *)

From stdpp Require Import base list strings decidable.
From Stdlib Require Import Ascii String ZArith Lia.
From S2P Require Import Prelude JsString.

Inductive number : Type :=
| NaN
| Int (z : Z).

#[export] Instance number_eq_dec : EqDecision number.
Proof. solve_decision. Defined.

(** ** [parseInt(s)] with no radix (ECMAScript 19.2.5) *)

(** WhiteSpace and LineTerminator code points of the 8-bit range: TAB,
    LF, VT, FF, CR, SPACE and NO-BREAK SPACE. *)
Definition is_js_space (c : ascii) : bool :=
  match nat_of_ascii c with
  | 9 | 10 | 11 | 12 | 13 | 32 | 160 => true
  | _ => false
  end%nat.

Fixpoint trim_start (s : string) : string :=
  match s with
  | EmptyString => EmptyString
  | String c s' => if is_js_space c then trim_start s' else s
  end.

(** The value of a digit in radices up to 36: [0-9], then [a-z] or
    [A-Z] from 10. *)
Definition digit_value (c : ascii) : option Z :=
  let n := nat_of_ascii c in
  if (48 <=? n)%nat && (n <=? 57)%nat then Some (Z.of_nat n - 48)%Z
  else if (97 <=? n)%nat && (n <=? 122)%nat then Some (Z.of_nat n - 87)%Z
  else if (65 <=? n)%nat && (n <=? 90)%nat then Some (Z.of_nat n - 55)%Z
  else None.

(** The longest prefix of radix-[R] digits, as their values. *)
Fixpoint digits_prefix (R : Z) (s : string) : list Z :=
  match s with
  | EmptyString => []
  | String c s' =>
      match digit_value c with
      | Some d => if (d <? R)%Z then d :: digits_prefix R s' else []
      | None => []
      end
  end.

(** Positional value, most significant digit first. *)
Definition digits_value (R : Z) (ds : list Z) : Z :=
  fold_left (fun acc d => acc * R + d)%Z ds 0%Z.

(** Steps 4-5: an optional sign. *)
Definition split_sign (s : string) : Z * string :=
  match s with
  | String "-"%char r => (-1, r)%Z
  | String "+"%char r => (1, r)%Z
  | _ => (1, s)%Z
  end.

(** Steps 6-11 with radix undefined: a leading [0x] or [0X] selects
    radix 16, anything else radix 10. *)
Definition split_radix (s : string) : Z * string :=
  match s with
  | String "0"%char (String "x"%char r) => (16, r)%Z
  | String "0"%char (String "X"%char r) => (16, r)%Z
  | _ => (10, s)%Z
  end.

Definition parseInt (s : string) : number :=
  let '(sign, s1) := split_sign (trim_start s) in
  let '(R, s2) := split_radix s1 in
  match digits_prefix R s2 with
  | [] => NaN
  | ds => Int (sign * digits_value R ds)
  end.

(** ** Arithmetic and comparison *)

(** [Math.max(a, b)]: [NaN] if either argument is [NaN]. *)
Definition math_max (a b : number) : number :=
  match a, b with
  | Int x, Int y => Int (Z.max x y)
  | _, _ => NaN
  end.

Definition num_add (a b : number) : number :=
  match a, b with Int x, Int y => Int (x + y) | _, _ => NaN end.
Definition num_sub (a b : number) : number :=
  match a, b with Int x, Int y => Int (x - y) | _, _ => NaN end.
Definition num_mul (a b : number) : number :=
  match a, b with Int x, Int y => Int (x * y) | _, _ => NaN end.

(** [Math.ceil(t / l)] for an integer [t]: [- floor(-t / l)], exact for
    every [l <> 0]; the endpoints only divide by a clamped limit, which is
    [NaN] or at least 1 ([clamp1_cases]). *)
Definition ceil_div (t : Z) (l : number) : number :=
  match l with
  | Int y => Int (- ((- t) / y))
  | NaN => NaN
  end.

(** [a < b]: [false] as soon as one side is [NaN]. *)
Definition num_lt (a b : number) : bool :=
  match a, b with Int x, Int y => (x <? y)%Z | _, _ => false end.

(** [Math.max(1, x)], the clamp the endpoints apply. *)
Definition clamp1 (x : number) : number := math_max (Int 1) x.

(** ** Lemmas *)

(** [Math.max(1, x)] is [NaN] exactly on [NaN], and at least 1 otherwise:
    the only two shapes a page or a limit can take. *)
Lemma clamp1_cases (x : number) :
  (x = NaN /\ clamp1 x = NaN) \/
  (exists z, x = Int z /\ clamp1 x = Int (Z.max 1 z)).
Proof. destruct x as [|z]; [left | right; exists z]; done. Qed.

Lemma clamp1_ge1 (x : number) (z : Z) : clamp1 x = Int z -> (1 <= z)%Z.
Proof. unfold clamp1, math_max. destruct x; intros; simplify_eq; lia. Qed.

(** A number whose integer values are all at least 1 is [NaN] or such
    an integer. *)
Lemma number_ge1_cases (x : number) :
  (forall z, x = Int z -> (1 <= z)%Z) -> x = NaN \/ exists z, x = Int z /\ (1 <= z)%Z.
Proof. destruct x as [|z]; [by left | right; exists z; auto]. Qed.

Lemma clamp1_NaN (x : number) : clamp1 x = NaN <-> x = NaN.
Proof. unfold clamp1, math_max. destruct x; split; congruence. Qed.

(** [Math.ceil(t / l)] for a positive integer [l] is the least [c] with
    [t <= c * l]. *)
Lemma ceil_div_spec (t l : Z) :
  (0 < l)%Z ->
  exists c, ceil_div t (Int l) = Int c /\ ((c - 1) * l < t <= c * l)%Z.
Proof.
  intros Hl. eexists; split; [reflexivity|].
  pose proof (Z.div_mod (- t) l ltac:(lia)).
  pose proof (Z.mod_pos_bound (- t) l Hl).
  remember ((- t) / l)%Z as q. remember ((- t) mod l)%Z as r. nia.
Qed.

(** [p < Math.ceil(t / l)] holds exactly when the first [p] pages of size
    [l] do not exhaust [t] items. *)
Lemma num_lt_ceil_div (p t l : Z) :
  (0 < l)%Z -> num_lt (Int p) (ceil_div t (Int l)) = bool_decide (p * l < t)%Z.
Proof.
  intros Hl. destruct (ceil_div_spec t l Hl) as [c [-> Hc]]. simpl.
  apply eq_bool_prop_intro. rewrite Is_true_true, Z.ltb_lt, bool_decide_spec. nia.
Qed.

Lemma ceil_div_nonneg (t l : Z) (c : Z) :
  (0 < l)%Z -> (0 <= t)%Z -> ceil_div t (Int l) = Int c -> (0 <= c)%Z.
Proof.
  intros Hl Ht Hc. destruct (ceil_div_spec t l Hl) as [c' [Hc' Hb]].
  rewrite Hc in Hc'. simplify_eq. nia.
Qed.

#[export] Hint Resolve clamp1_ge1 : hrms.
