(* ===== verification/SessionGate.v ===== *)
(** * Session Gate: [src/src/middleware.ts] and the sign-out route

    The middleware runs before a request whose path matches
    [config.matcher] (lines 33-35).  It reads whether the request carries
    a session (lines 8-11), classifies the path (lines 15-16), redirects a
    session-less request for the dashboard to [/] (lines 18-22), a request
    with a session for an entry page to [/Dashboard] (lines 24-28), and
    lets everything else through (line 30).  A redirect clones the request
    URL and changes only its pathname, so the query string is kept.

    [src/src/app/api/auth/signout/route.ts] builds a fresh supabase-js
    client from the public key, calls [auth.signOut()] on it and
    redirects to [/].  Module [Signout] models the client ([createClient],
    [signOut] as supabase-js documents them: a server call only when the
    client holds a session, then clearing its own storage), the response
    (target and [Set-Cookie]) and the browser storing the response's
    cookie and following its redirect through the gate. *)

From stdpp Require Import base list strings decidable.
From Stdlib Require Import Ascii String ZArith Lia.
From S2P Require Import Prelude JsString.

Module Middleware.

(** The part of [req.nextUrl] the gate reads and rewrites. *)
Record url := mk_url { pathname : string; search : string }.

Inductive response :=
| Next                      (** [NextResponse.next()] *)
| Redirect (to : url).      (** [NextResponse.redirect(url)] *)

#[export] Instance url_eq_dec : EqDecision url.
Proof. solve_decision. Defined.
#[export] Instance response_eq_dec : EqDecision response.
Proof. solve_decision. Defined.

(** Line 15. *)
Definition isAuthRoute (p : string) : bool :=
  (p === "/") || startsWith p "/login".

(** Line 16. *)
Definition isDashboardRoute (p : string) : bool :=
  startsWith p "/dashboard" || startsWith p "/Dashboard".

(** Lines 6-31; [session] is whether [getSession()] returned one. *)
Definition middleware (session : bool) (req : url) : response :=
  if negb session && isDashboardRoute (pathname req) then
    Redirect (mk_url "/" (search req))
  else if session && isAuthRoute (pathname req) then
    Redirect (mk_url "/Dashboard" (search req))
  else Next.

(** A matcher entry ['/base/:path*'] matches [/base] and every path
    below it ... *)
Definition matches_path_star (base p : string) : bool :=
  (p === base) || startsWith p (String.append base "/").

(** ... and a literal entry that path, with or without a trailing
    slash (Next.js compiles matchers with path-to-regexp, non-strict). *)
Definition matches_literal (base p : string) : bool :=
  (p === base) || (p === String.append base "/").

(** Lines 33-35: [['/', '/login', '/dashboard/:path*', '/Dashboard/:path*']]. *)
Definition matcher (p : string) : bool :=
  matches_literal "/" p || matches_literal "/login" p ||
  matches_path_star "/dashboard" p || matches_path_star "/Dashboard" p.

(** What a request meets before any page or route code: the middleware
    when the matcher selects the path, nothing otherwise. *)
Definition gate (session : bool) (req : url) : response :=
  if matcher (pathname req) then middleware session req else Next.

End Middleware.

Module Signout.
Import Middleware.

(** The browser's session cookie: whether it holds a session. *)
Record browser := mk_browser { cookie_session : bool }.

(** supabase-js's auth client, as far as [signOut] goes: the session in
    its own storage and the requests it has sent to the auth server. *)
Record auth_client := mk_client { client_session : bool; sent : list string }.

(** [createClient(url, anonKey)] of supabase-js (route.ts lines 5-8): a
    client with a storage of its own, not bound to the request's
    cookies (unlike the middleware's [createMiddlewareClient({req, res})]),
    so it starts without a session. *)
Definition createClient : auth_client := mk_client false [].

(** [auth.signOut()] of supabase-js: revoke the session at the auth
    server ([POST /logout]) when the client holds one, then clear the
    client's own storage. *)
Definition signOut (c : auth_client) : auth_client :=
  mk_client false (if client_session c then sent c ++ ["/auth/v1/logout"] else sent c).

(** An HTTP answer: its redirect target and the session cookie it sets,
    if any ([Some false] deletes it). *)
Record http_response := mk_http { location : url; set_session : option bool }.

(** Lines 4-10: create the client, sign it out, and answer
    [NextResponse.redirect(new URL('/', req.url))], a redirect to [/]
    without the request's query and without [Set-Cookie]. *)
Definition POST (req : url) : auth_client * http_response :=
  let c := signOut createClient in
  (c, mk_http (mk_url "/" "") None).

(** The browser stores the cookie a response sets ... *)
Definition receive (b : browser) (r : http_response) : browser :=
  match set_session r with Some v => mk_browser v | None => b end.

(** ... and follows its redirect, which meets the gate with the stored
    session. *)
Definition follow (b : browser) (r : http_response) : response :=
  gate (cookie_session (receive b r)) (location r).

End Signout.

(** ** Properties of the gate *)

Module GateFacts.
Import Middleware Signout.

(** A path selected by a ['/base/:path*'] entry starts with [base]. *)
Lemma matches_path_star_startsWith (base p : string) :
  matches_path_star base p = true -> startsWith p base = true.
Proof.
  unfold matches_path_star, startsWith.
  rewrite orb_true_iff, bool_decide_eq_true, !prefix_spec.
  intros [-> | [r ->]].
  - exists EmptyString. by rewrite append_empty_r.
  - exists (String "/" r). by rewrite <- append_assoc_str.
Qed.

(** C5. Without a session, every dashboard page the matcher selects
    ([/Dashboard], [/dashboard] and every path below them) redirects to
    [/], keeping the query string. *)
Theorem gate_protects_dashboard (p q : string) :
  matches_path_star "/Dashboard" p || matches_path_star "/dashboard" p = true ->
  gate false (mk_url p q) = Redirect (mk_url "/" q).
Proof.
  intros Hm. unfold gate, middleware, isDashboardRoute; simpl.
  apply orb_true_iff in Hm as [Hm|Hm];
    pose proof (matches_path_star_startsWith _ _ Hm);
    unfold matcher; rewrite Hm, ?orb_true_r; simpl;
    by rewrite H, ?orb_true_r.
Qed.

(** C13. The entry pages [/] and [/login] send a signed-in user to the
    dashboard, keeping the query string. *)
Theorem gate_entry_with_session (p q : string) :
  p = "/" \/ p = "/login" ->
  gate true (mk_url p q) = Redirect (mk_url "/Dashboard" q).
Proof. by intros [-> | ->]. Qed.

(** C6. Following a redirect of the gate never redirects again under the
    same session: the targets [/] and [/Dashboard] are passed through. *)
Theorem gate_no_redirect_loop (s : bool) (u t : url) :
  gate s u = Redirect t -> gate s t = Next.
Proof.
  destruct u as [p q]. unfold gate, middleware; simpl.
  destruct (matcher p), s, (isDashboardRoute p), (isAuthRoute p); simpl;
    intros; simplify_eq; reflexivity.
Qed.

(** C11. No path under [/api/] is selected by the matcher: the resource
    endpoints answer requests that carry no session. *)
Theorem gate_skips_api (s : bool) (r q : string) :
  gate s (mk_url (String.append "/api/" r) q) = Next.
Proof.
  unfold gate. rewrite !append_cons, append_empty_l. reflexivity.
Qed.

(** C12. Signing out signs nothing out: the route's client never held
    the browser's session, so [signOut] sends no revocation to the auth
    server, the response sets no cookie, the browser keeps its session,
    and following the redirect to [/] sends the user back to
    [/Dashboard]. *)
Theorem signout_keeps_session (b : browser) (req : url) :
  cookie_session b = true ->
  sent (POST req).1 = [] /\ cookie_session (receive b (POST req).2) = true /\
  follow b (POST req).2 = Redirect (mk_url "/Dashboard" "").
Proof. intros Hb. unfold follow, receive. simpl. rewrite Hb. by repeat split. Qed.

Lemma gate_protects_dashboard_witness :
  matches_path_star "/Dashboard" "/Dashboard/profile" ||
    matches_path_star "/dashboard" "/Dashboard/profile" = true /\
  gate false (mk_url "/Dashboard/profile" "?tab=1") = Redirect (mk_url "/" "?tab=1").
Proof. split; [reflexivity|]. apply gate_protects_dashboard. reflexivity. Defined.

Lemma gate_entry_with_session_witness :
  ("/login" = "/" \/ "/login" = "/login") /\
  gate true (mk_url "/login" "") = Redirect (mk_url "/Dashboard" "").
Proof. split; [by right|]. apply gate_entry_with_session. by right. Defined.

Lemma gate_no_redirect_loop_witness :
  gate false (mk_url "/Dashboard/leave-requests" "") = Redirect (mk_url "/" "") /\
  gate false (mk_url "/" "") = Next.
Proof.
  split; [reflexivity|].
  apply (gate_no_redirect_loop false (mk_url "/Dashboard/leave-requests" "")). reflexivity.
Defined.

Lemma signout_keeps_session_witness :
  cookie_session (mk_browser true) = true /\
  sent (POST (mk_url "/api/auth/signout" "")).1 = [] /\
  cookie_session (receive (mk_browser true) (POST (mk_url "/api/auth/signout" "")).2) = true /\
  follow (mk_browser true) (POST (mk_url "/api/auth/signout" "")).2 = Redirect (mk_url "/Dashboard" "").
Proof. split; [reflexivity|]. apply signout_keeps_session. reflexivity. Defined.
End GateFacts.
