(* ===== verification/UrlParams.v ===== *)
(** * [URLSearchParams]: how a controller's filters reach an endpoint

    [loadEmployees] (employee-directory/page.tsx lines 49-55) builds
    [new URLSearchParams({search, department, status})] and fetches
    [/api/employees?${params}]; the endpoint (employees/route.ts lines
    6-11) reads them back with [new URL(request.url).searchParams.get].
    Both sides are the WHATWG [application/x-www-form-urlencoded]
    serializer and parser, modelled here on byte strings (a JavaScript
    string is UTF-8 encoded before percent-encoding; the model's strings
    are those bytes). *)

From stdpp Require Import base list strings decidable.
From Stdlib Require Import Ascii String ZArith Lia.
From S2P Require Import Prelude JsString.

Module FormUrlEncoded.

(** ** Serializer *)

(** Bytes left as they are: ASCII alphanumerics and [*-._]. *)
Definition is_unreserved (c : ascii) : bool :=
  let n := nat_of_ascii c in
  ((48 <=? n) && (n <=? 57)) || ((65 <=? n) && (n <=? 90)) ||
  ((97 <=? n) && (n <=? 122)) ||
  (n =? 42) || (n =? 45) || (n =? 46) || (n =? 95).

(** Upper-case hexadecimal digit of a value below 16. *)
Definition hex_char (n : nat) : ascii :=
  if (n <? 10)%nat then ascii_of_nat (48 + n) else ascii_of_nat (55 + n).

Definition percent_byte (c : ascii) : string :=
  String "%" (String (hex_char (nat_of_ascii c / 16))
                     (String (hex_char (nat_of_ascii c mod 16)) EmptyString)).

(** The byte serializer: space becomes [+], unreserved bytes stay,
    every other byte becomes [%XX]. *)
Definition encode_byte (c : ascii) : string :=
  if nat_of_ascii c =? 32 then "+"
  else if is_unreserved c then String c EmptyString
  else percent_byte c.

Fixpoint encode (s : string) : string :=
  match s with
  | EmptyString => EmptyString
  | String c s' => String.append (encode_byte c) (encode s')
  end.

(** [params.toString()]: [name=value] pairs joined by [&]. *)
Definition serialize (kvs : list (string * string)) : string :=
  String.concat "&"
    (map (fun kv => String.append (encode kv.1) (String "=" (encode kv.2))) kvs).

(** ** Parser *)

(** Value of a hexadecimal digit of either case. *)
Definition hex_value (c : ascii) : option nat :=
  let n := nat_of_ascii c in
  if (48 <=? n) && (n <=? 57) then Some (n - 48)
  else if (65 <=? n) && (n <=? 70) then Some (n - 55)
  else if (97 <=? n) && (n <=? 102) then Some (n - 87)
  else None.

(** [+] is a space; [%XX] with two hexadecimal digits is one byte; a
    [%] not followed by two hexadecimal digits stays. *)
Fixpoint decode (s : string) : string :=
  match s with
  | EmptyString => EmptyString
  | String c r =>
      if nat_of_ascii c =? 43 then String " " (decode r)
      else if nat_of_ascii c =? 37 then
        match r with
        | String h1 (String h2 r') =>
            match hex_value h1, hex_value h2 with
            | Some a, Some b => String (ascii_of_nat (a * 16 + b)) (decode r')
            | _, _ => String c (decode r)
            end
        | _ => String c (decode r)
        end
      else String c (decode r)
  end.

(** Name and value of one sequence: split at the first [=]; no [=]
    means an empty value. *)
Fixpoint split_eq (s : string) : string * string :=
  match s with
  | EmptyString => (EmptyString, EmptyString)
  | String c s' =>
      if ascii_dec c "=" then (EmptyString, s')
      else let '(n, v) := split_eq s' in (String c n, v)
  end.

(** The parser: sequences between [&], empty ones skipped. *)
Definition parse (q : string) : list (string * string) :=
  map (fun w => let '(n, v) := split_eq w in (decode n, decode v))
      (filter (fun w => w <> EmptyString) (split "&" q)).

(** [searchParams.get(name)]: the value of the first pair with that
    name, [null] when there is none. *)
Definition get (kvs : list (string * string)) (name : string) : option string :=
  match list_find (fun kv => kv.1 = name) kvs with
  | Some (_, kv) => Some kv.2
  | None => None
  end.

(** [new URL(url).searchParams] (employees/route.ts line 6): the pairs
    of the query, the text after the first [?].  The hosts and paths
    the code requests hold no [?]. *)
Definition url_search (u : string) : list (string * string) :=
  parse (match break_at "?" u with Some (_, q) => q | None => EmptyString end).

(** ** The round trip *)

(** Every byte decodes back from its encoding, whatever follows. *)
Lemma decode_encode_byte (c : ascii) (r : string) :
  decode (String.append (encode_byte c) r) = String c (decode r).
Proof. destruct c as [[] [] [] [] [] [] [] []]; reflexivity. Qed.

Lemma encode_byte_no_sep (c : ascii) :
  no_byte "&" (encode_byte c) = true /\ no_byte "=" (encode_byte c) = true.
Proof. destruct c as [[] [] [] [] [] [] [] []]; split; reflexivity. Qed.

Lemma decode_encode (s : string) : decode (encode s) = s.
Proof.
  induction s as [|c s IH]; [done|]. simpl. by rewrite decode_encode_byte, IH.
Qed.

Lemma encode_no_sep (s : string) :
  no_byte "&" (encode s) = true /\ no_byte "=" (encode s) = true.
Proof.
  induction s as [|c s [IH1 IH2]]; [done|]. simpl.
  destruct (encode_byte_no_sep c). by rewrite !no_byte_append, IH1, IH2, H, H0.
Qed.

Lemma split_eq_append (s t : string) :
  no_byte "=" s = true -> split_eq (String.append s (String "=" t)) = (s, t).
Proof.
  induction s as [|c s IH]; [done|]. simpl.
  intros [Hc Hs]%andb_prop. rewrite ?append_cons; simpl. rewrite IH by done.
  destruct (ascii_dec c "="); [|done]. by rewrite bool_decide_eq_true_2 in Hc.
Qed.

Lemma append_eq_nonempty (s t : string) (c : ascii) :
  String.append s (String c t) <> EmptyString.
Proof. destruct s; [done|]. by rewrite append_cons. Qed.

(** What the serializer writes, the parser reads back: every list of
    name/value pairs, in order, with any bytes in names and values. *)
Lemma parse_serialize (kvs : list (string * string)) :
  parse (serialize kvs) = kvs.
Proof.
  unfold parse, serialize. destruct kvs as [|kv kvs]; [done|].
  rewrite split_concat.
  2: done.
  2: { apply Forall_forall. intros w [[k v] [-> _]]%list_elem_of_In%list_elem_of_fmap.
       rewrite no_byte_append. simpl. by rewrite !(proj1 (encode_no_sep _)). }
  rewrite list_filter_id.
  2: { apply Forall_forall. intros w [[k v] [-> _]]%list_elem_of_In%list_elem_of_fmap.
       apply append_eq_nonempty. }
  rewrite <- list_fmap_compose. rewrite <- (list_fmap_id (kv :: kvs)) at 2.
  apply list_fmap_ext. intros _ [k v] _. simpl.
  rewrite split_eq_append by apply encode_no_sep. by rewrite !decode_encode.
Qed.

(** A URL written [`${path}?${params}`], with no [?] in [path], carries
    exactly the pairs of [params] to the route's [searchParams]. *)
Lemma url_search_build (path : string) (kvs : list (string * string)) :
  no_byte "?" path = true ->
  url_search (String.append path (String.append "?" (serialize kvs))) = kvs.
Proof.
  intros Hp. unfold url_search.
  change (String.append "?" (serialize kvs)) with (String "?" (serialize kvs)).
  rewrite break_at_append by exact Hp. apply parse_serialize.
Qed.

End FormUrlEncoded.
