(* ===== verification/Schema.v ===== *)
(** * The records the dashboard exchanges

    [Employee] is the type of employee-directory/page.tsx (lines 5-14),
    [Leave] that of leave-requests/page.tsx (lines 5-15).  They are also
    the rows of the [employees] and [leaves] tables the endpoints select
    with ['*'], so each gets the column lookup the data service filters
    by ([Row] below).  Optional fields ([created_at?], [updated_at?]) are
    [option string]: a missing or [null] value. *)

From stdpp Require Import base list strings decidable.
From Stdlib Require Import Ascii String ZArith Lia.
From S2P Require Import Prelude JsString.

Record Employee := mkEmployee {
  emp_id : string;
  emp_name : string;
  emp_email : string;
  emp_department : string;
  emp_role : string;
  emp_status : string;
  emp_created_at : option string;
  emp_updated_at : option string
}.

Record Leave := mkLeave {
  leave_id : string;
  leave_employee_id : string;
  leave_employee_name : string;
  leave_type : string;
  leave_start_date : string;
  leave_end_date : string;
  leave_status : string;
  leave_created_at : option string;
  leave_updated_at : option string
}.

#[export] Instance Employee_eq_dec : EqDecision Employee.
Proof. solve_decision. Defined.
#[export] Instance Leave_eq_dec : EqDecision Leave.
Proof. solve_decision. Defined.

(** ** Rows of a table

    What the data service needs of a row: which column names exist, the
    text of a column by name ([None] for an absent or [null] value) and
    the [created_at] value the endpoints order by. *)
Class Row (R : Type) := {
  has_column : string -> bool;
  column : R -> string -> option string;
  row_created_at : R -> option string
}.

Definition employee_column (e : Employee) (c : string) : option string :=
  if c === "id" then Some (emp_id e)
  else if c === "name" then Some (emp_name e)
  else if c === "email" then Some (emp_email e)
  else if c === "department" then Some (emp_department e)
  else if c === "role" then Some (emp_role e)
  else if c === "status" then Some (emp_status e)
  else if c === "created_at" then emp_created_at e
  else if c === "updated_at" then emp_updated_at e
  else None.

Definition leave_column (l : Leave) (c : string) : option string :=
  if c === "id" then Some (leave_id l)
  else if c === "employee_id" then Some (leave_employee_id l)
  else if c === "employee_name" then Some (leave_employee_name l)
  else if c === "type" then Some (leave_type l)
  else if c === "start_date" then Some (leave_start_date l)
  else if c === "end_date" then Some (leave_end_date l)
  else if c === "status" then Some (leave_status l)
  else if c === "created_at" then leave_created_at l
  else if c === "updated_at" then leave_updated_at l
  else None.

Definition employee_columns : list string :=
  ["id"; "name"; "email"; "department"; "role"; "status"; "created_at"; "updated_at"].
Definition leave_columns : list string :=
  ["id"; "employee_id"; "employee_name"; "type"; "start_date"; "end_date"; "status";
   "created_at"; "updated_at"].

#[export] Instance Employee_Row : Row Employee :=
  {| has_column c := bool_decide (c ∈ employee_columns);
     column := employee_column; row_created_at := emp_created_at |}.
#[export] Instance Leave_Row : Row Leave :=
  {| has_column c := bool_decide (c ∈ leave_columns);
     column := leave_column; row_created_at := leave_created_at |}.
