(* ===== verification/DataService.v ===== *)
(** * The Remote Data Service, as the endpoints use it

    The endpoints never touch storage themselves: they build a query with
    the supabase-js builder ([.select('*', {count: 'exact'})], [.or(..)],
    [.eq(..)], [.order('created_at', {ascending: false})],
    [.range(from, to)]) and receive [{data, error, count}].  The service
    is outside the repository; this file is a reference model of it, built
    from the collaborator contract of the spec (section 6) and the
    documented behaviour of PostgREST, which executes these queries:
    - [.or(e)] sends the logic expression [e]: conditions [col.op.value]
      separated by commas; [ilike] values use [%] or [*] for any sequence
      and [_] for one character, [\] escapes; a malformed expression is an
      error;
    - [.eq(col, v)] compares the column's text with [v] literally;
    - [order] desc puts [null] first; rows with equal keys keep the table
      order (PostgreSQL leaves it unspecified; the model fixes one);
    - [.range(a, b)] sends [offset=a] and [limit=b - a + 1] as text;
      PostgREST reads both with [readMaybe], so a [NaN] bound is not an
      error but leaves that side of the range open (offset 0, no limit);
      an offset beyond the exact count is refused (PostgREST answers
      416, "Requested range not satisfiable").
    Nothing here maps to repository code; the endpoints' files model the
    code that calls it. *)

From stdpp Require Import base list strings decidable.
From Stdlib Require Import Ascii String ZArith Lia.
From S2P Require Import Prelude JsString JsNumber Schema.

Module Like.

(** SQL [LIKE]: [%] any sequence, [_] one character, [\] escapes the
    next character.  A pattern ending in a lone [\] is rejected by the
    server; [pattern_ok] says whether a pattern is accepted. *)
Fixpoint like (p s : string) : bool :=
  match p with
  | EmptyString => match s with EmptyString => true | _ => false end
  | String c p' =>
      if ascii_dec c "%" then
        (fix star (s : string) : bool :=
           like p' s || match s with EmptyString => false | String _ s' => star s' end) s
      else if ascii_dec c "_" then
        match s with EmptyString => false | String _ s' => like p' s' end
      else if ascii_dec c "\" then
        match p', s with
        | String e p'', String d s' => bool_decide (e = d) && like p'' s'
        | _, _ => false
        end
      else
        match s with
        | String d s' => bool_decide (c = d) && like p' s'
        | EmptyString => false
        end
  end.

Fixpoint pattern_ok (p : string) : bool :=
  match p with
  | EmptyString => true
  | String c p' =>
      if ascii_dec c "\" then
        match p' with EmptyString => false | String _ p'' => pattern_ok p'' end
      else pattern_ok p'
  end.

(** [ILIKE]: [LIKE] on lower-cased pattern and text. *)
Definition ilike (p s : string) : bool := like (toLowerCase p) (toLowerCase s).

(** PostgREST accepts [*] for [%] in [like]/[ilike] values. *)
Fixpoint star_to_percent (v : string) : string :=
  match v with
  | EmptyString => EmptyString
  | String c v' => String (if ascii_dec c "*" then "%" else c) (star_to_percent v')
  end.

(** ** A pattern [%t%] is a substring test *)

(** [t] has none of the characters [%], [_], [\] and [*] that are
    special in a PostgREST [ilike] value. *)
Definition plain (t : string) : bool :=
  no_byte "%" t && no_byte "_" t && no_byte "\" t && no_byte "*" t.

Lemma plain_cons (c : ascii) (t : string) :
  plain (String c t) = true <->
  (c <> "%"%char /\ c <> "_"%char /\ c <> "\"%char /\ c <> "*"%char) /\ plain t = true.
Proof.
  unfold plain; simpl.
  rewrite !andb_true_iff, !negb_true_iff, !bool_decide_eq_false. tauto.
Qed.

Lemma like_star_eq (p s : string) :
  like (String "%" p) s =
  like p s || match s with EmptyString => false | String _ s' => like (String "%" p) s' end.
Proof. destruct s; reflexivity. Qed.

Lemma like_percent (s : string) : like "%" s = true.
Proof. induction s; rewrite like_star_eq; [done|]. by rewrite IHs, orb_true_r. Qed.

(** For a plain [t], [t%] is a prefix test ... *)
Lemma like_plain_prefix (t s : string) :
  plain t = true -> like (String.append t "%") s = String.prefix t s.
Proof.
  revert s. induction t as [|c t IH]; intros s Ht.
  - rewrite append_empty_l, like_percent. by destruct s.
  - apply plain_cons in Ht as [(H1 & H2 & H3 & _) Ht].
    rewrite append_cons. simpl.
    destruct (ascii_dec c "%"); [done|].
    destruct (ascii_dec c "_"); [done|].
    destruct (ascii_dec c "\"); [done|].
    destruct s as [|d s]; [done|].
    rewrite IH by done. simpl. destruct (ascii_dec c d); by case_bool_decide.
Qed.

(** ... and [%t%] a substring test. *)
Lemma like_plain_includes (t s : string) :
  plain t = true -> like (String "%" (String.append t "%")) s = includes s t.
Proof.
  intros Ht. induction s as [|c s IH];
    rewrite like_star_eq, like_plain_prefix by done; [reflexivity|].
  by rewrite IH.
Qed.

Lemma lower_char_special (c : ascii) :
  bool_decide (lower_char c = "%"%char) = bool_decide (c = "%"%char) /\
  bool_decide (lower_char c = "_"%char) = bool_decide (c = "_"%char) /\
  bool_decide (lower_char c = "\"%char) = bool_decide (c = "\"%char) /\
  bool_decide (lower_char c = "*"%char) = bool_decide (c = "*"%char).
Proof. destruct c as [[] [] [] [] [] [] [] []]; vm_compute; auto. Qed.

Lemma plain_no_escape (t : string) : plain t = true -> no_byte "\" t = true.
Proof. unfold plain. intros [[[_ ?]%andb_prop ?]%andb_prop _]%andb_prop. done. Qed.

Lemma plain_toLowerCase (t : string) : plain (toLowerCase t) = plain t.
Proof.
  unfold plain. induction t as [|c t IH]; [done|]. simpl.
  destruct (lower_char_special c) as (-> & -> & -> & ->).
  revert IH. destruct (bool_decide (c = "%"%char)), (bool_decide (c = "_"%char)),
    (bool_decide (c = "\"%char)), (bool_decide (c = "*"%char)); simpl; try done;
  destruct (no_byte "%" (toLowerCase t)), (no_byte "_" (toLowerCase t)),
    (no_byte "\" (toLowerCase t)), (no_byte "*" (toLowerCase t)),
    (no_byte "%" t), (no_byte "_" t), (no_byte "\" t), (no_byte "*" t); done.
Qed.

Lemma star_to_percent_plain (t : string) :
  plain t = true -> star_to_percent t = t.
Proof.
  induction t as [|c t IH]; [done|]. intros [(_ & _ & _ & Hc) Ht]%plain_cons. simpl.
  destruct (ascii_dec c "*"); [done|]. by rewrite IH.
Qed.

Lemma pattern_ok_no_escape (s t : string) :
  no_byte "\" s = true -> pattern_ok (String.append s t) = pattern_ok t.
Proof.
  induction s as [|c s IH]; [done|]. intros [Hc Hs]%andb_prop.
  rewrite append_cons. simpl. destruct (ascii_dec c "\"); [by subst|]. by apply IH.
Qed.

(** Without [*] the value is sent as it is. *)
Lemma star_to_percent_no_star (t : string) :
  no_byte "*" t = true -> star_to_percent t = t.
Proof.
  induction t as [|c t IH]; [done|]. intros [Hc Ht]%andb_prop. simpl.
  destruct (ascii_dec c "*") as [->|_]; [by rewrite bool_decide_eq_true_2 in Hc|].
  by rewrite IH.
Qed.

Lemma star_to_percent_append (a b : string) :
  star_to_percent (String.append a b) = String.append (star_to_percent a) (star_to_percent b).
Proof. induction a as [|c a IH]; [done|]. rewrite !append_cons. simpl. by rewrite IH. Qed.

Lemma star_to_percent_plain_pct (t : string) :
  plain t = true -> star_to_percent (String.append t "%") = String.append t "%".
Proof. intros Ht. by rewrite star_to_percent_append, star_to_percent_plain. Qed.

(** The value [%t%] the employees endpoint sends matches a text exactly
    when the text contains [t], ignoring case. *)
Lemma ilike_plain_includes (t s : string) :
  plain t = true ->
  ilike (String "%" (String.append t "%")) s = includes (toLowerCase s) (toLowerCase t).
Proof.
  intros Ht. unfold ilike. simpl.
  rewrite toLowerCase_app. apply like_plain_includes. by rewrite plain_toLowerCase.
Qed.
(** The value [v%] is a case-insensitive prefix test. *)
Lemma ilike_plain_prefix (v s : string) :
  plain v = true -> ilike (String.append v "%") s = String.prefix (toLowerCase v) (toLowerCase s).
Proof.
  intros Hv. unfold ilike. rewrite toLowerCase_app. change (toLowerCase "%") with "%".
  apply like_plain_prefix. by rewrite plain_toLowerCase.
Qed.

(** ** [_] matches any one character *)

Lemma like_plain_app (x p z : string) :
  plain x = true -> like (String.append x p) (String.append x z) = like p z.
Proof.
  induction x as [|c x IH]; [done|]. intros [(H1 & H2 & H3 & _) Hx]%plain_cons.
  rewrite !append_cons. simpl.
  destruct (ascii_dec c "%"); [done|]. destruct (ascii_dec c "_"); [done|].
  destruct (ascii_dec c "\"); [done|].
  rewrite bool_decide_eq_true_2 by done. by apply IH.
Qed.

(** A leading [%] skips any prefix. *)
Lemma like_star_skip (p a z : string) :
  like p z = true -> like (String "%" p) (String.append a z) = true.
Proof.
  intros Hp. induction a as [|c a IH].
  - rewrite append_empty_l, like_star_eq. by rewrite Hp.
  - rewrite append_cons, like_star_eq. by rewrite IH, orb_true_r.
Qed.

(** [%x_y%] matches every text containing [x], one character, then [y]. *)
Lemma like_wildcard (x y s : string) (c : ascii) :
  plain x = true -> plain y = true ->
  includes s (String.append x (String c y)) = true ->
  like (String "%" (String.append (String.append x (String "_" y)) "%")) s = true.
Proof.
  intros Hx Hy [a [b ->]]%includes_spec.
  rewrite <- append_assoc_str, append_cons, <- append_assoc_str. apply like_star_skip.
  rewrite (append_cons c), like_plain_app by done. cbn [like ascii_dec].
  change (like (String "_" (String.append y "%")) (String c (String.append y b)))
    with (like (String.append y "%") (String.append y b)).
  rewrite like_plain_app by done. apply like_percent.
Qed.

Lemma ilike_wildcard (x y s : string) (c : ascii) :
  plain x = true -> plain y = true ->
  includes (toLowerCase s) (toLowerCase (String.append x (String c y))) = true ->
  ilike (String "%" (String.append (String.append x (String "_" y)) "%")) s = true.
Proof.
  intros Hx Hy Hin. unfold ilike. rewrite toLowerCase_app in Hin.
  change (toLowerCase (String "%" (String.append (String.append x (String "_" y)) "%")))
    with (String "%" (toLowerCase (String.append (String.append x (String "_" y)) "%"))).
  rewrite !toLowerCase_app.
  change (toLowerCase (String "_" y)) with (String "_" (toLowerCase y)).
  change (toLowerCase "%") with "%".
  change (toLowerCase (String c y)) with (String (lower_char c) (toLowerCase y)) in Hin.
  apply (like_wildcard _ _ _ (lower_char c)); [by rewrite plain_toLowerCase.. | exact Hin].
Qed.
End Like.

Module Postgrest.
Import Like.

Inductive op := OpEq | OpIlike.

(** A condition [col.op.value] of a logic expression. *)
Record cond := mk_cond { c_col : string; c_op : op; c_val : string }.

Definition parse_op (o : string) : option op :=
  if o === "eq" then Some OpEq else if o === "ilike" then Some OpIlike else None.

(** [col.op.value]: the column runs to the first dot, the operator to
    the next, the value is the rest.  Parentheses open a nested logic
    tree, which no condition of these endpoints is: the model rejects
    them. *)
Definition parse_cond (w : string) : option cond :=
  match break_at "." w with
  | Some (col, rest) =>
      match break_at "." rest with
      | Some (o, v) =>
          if (col === "") || negb (no_byte "(" w) || negb (no_byte ")" w) then None
          else option_map (fun o => mk_cond col o v) (parse_op o)
      | None => None
      end
  | None => None
  end.

(** The argument of [.or(e)]: conditions separated by commas. *)
Definition parse_logic (e : string) : option (list cond) :=
  mapM parse_cond (split "," e).

(** A search value an endpoint can splice into an [or] expression: none
    of PostgREST's separators or [ilike] wildcards. *)
Definition safe_search (s : string) : bool :=
  plain s && no_byte "," s && no_byte "(" s && no_byte ")" s.

(** The text [col.ilike.%s%] an endpoint writes for one column. *)
Definition ilike_text (col s : string) : string :=
  String.append col (String.append ".ilike.%" (String.append s "%")).

(** A condition [col.ilike.x] reads back as written when neither the
    column nor the value holds a parenthesis and the column no dot. *)
Lemma parse_cond_ilike_raw (col x : string) :
  col <> "" -> no_byte "." col = true ->
  no_byte "(" col && no_byte ")" col && no_byte "(" x && no_byte ")" x = true ->
  parse_cond (String.append col (String.append ".ilike." x)) = Some (mk_cond col OpIlike x).
Proof.
  intros Hc Hd Hp. unfold parse_cond.
  rewrite append_cons, break_at_append by done.
  rewrite !append_cons, append_empty_l. simpl.
  apply andb_prop in Hp as [[[Hl1 Hr1]%andb_prop Hl2]%andb_prop Hr2].
  rewrite !no_byte_append. simpl. rewrite Hl1, Hr1, Hl2, Hr2. simpl.
  by case_bool_decide.
Qed.

Lemma parse_cond_ilike (col s : string) :
  col <> "" -> no_byte "." col = true ->
  no_byte "(" col && no_byte ")" col && no_byte "(" s && no_byte ")" s = true ->
  parse_cond (ilike_text col s) = Some (mk_cond col OpIlike (String "%" (String.append s "%"))).
Proof.
  intros Hc Hd Hp. apply parse_cond_ilike_raw; [done|done|].
  simpl. rewrite !no_byte_append. simpl. by rewrite !andb_true_r.
Qed.

(** A column name an endpoint may splice into an [or] expression. *)
Definition plain_column (c : string) : Prop :=
  c <> "" /\ no_byte "." c && no_byte "," c && no_byte "(" c && no_byte ")" c = true.

(** An OR of [ilike] tests over several columns parses back into its
    conditions when the value holds no comma or parenthesis. *)
Lemma parse_ilike_or (cols : list string) (s : string) :
  cols <> [] -> Forall plain_column cols ->
  no_byte "," s && no_byte "(" s && no_byte ")" s = true ->
  parse_logic (String.concat "," (map (fun c => ilike_text c s) cols)) =
    Some (map (fun c => mk_cond c OpIlike (String "%" (String.append s "%"))) cols).
Proof.
  intros Hne Hcols [[Hcomma Hl]%andb_prop Hr]%andb_prop. unfold parse_logic.
  rewrite split_concat.
  - induction Hcols as [|c cols [Hc Hb] _ IH]; [done|]. simpl.
    apply andb_prop in Hb as [[[Hd Hk]%andb_prop Hl']%andb_prop Hr'].
    rewrite parse_cond_ilike by (done || by rewrite Hl', Hr', Hl, Hr). simpl.
    destruct cols as [|c' cols]; [done|]. by rewrite IH.
  - by destruct cols.
  - apply Forall_fmap. eapply Forall_impl; [|exact Hcols]. intros c [_ Hb]. simpl.
    apply andb_prop in Hb as [[[_ Hk]%andb_prop _]%andb_prop _].
    unfold ilike_text. rewrite !no_byte_append, Hk. simpl. by rewrite Hcomma.
Qed.

(** What the builder chain records, in call order. *)
Inductive filter :=
| FOr (e : string)              (** [.or(e)] *)
| FEq (col val : string).       (** [.eq(col, val)] *)

Record query := mk_query {
  q_filters : list filter;
  q_order : string * bool;      (** column, ascending *)
  q_range : number * number     (** [.range(from, to)] *)
}.

(** [{data, error, count}]: an error, or rows and an exact count. *)
Inductive db_result (A : Type) :=
| DbError (msg : string)
| DbOk (data : option (list A)) (count : option Z).
Arguments DbError {A} _.
Arguments DbOk {A} _ _.

(** ** A value with a comma

    A comma in the value of [col.ilike.%v%] ends the condition: the text
    after it is read as a condition of its own. *)
Lemma ilike_text_comma (col a w : string) :
  ilike_text col (String.append a (String "," w)) =
    String.append (String.append col (String.append ".ilike.%" a)) (String "," (String.append w "%")).
Proof. unfold ilike_text. by rewrite <- !append_assoc_str. Qed.

Lemma split_ilike_comma (cols : list string) (a w : string) :
  cols <> [] -> Forall (fun col => no_byte "," col = true) cols ->
  no_byte "," a = true -> no_byte "," w = true ->
  split "," (String.concat "," (map (fun col => ilike_text col (String.append a (String "," w))) cols)) =
    List.concat (map (fun col => [String.append col (String.append ".ilike.%" a); String.append w "%"]) cols).
Proof.
  intros Hne Hcols Ha Hw.
  assert (Hp : forall col, no_byte "," col = true ->
            no_byte "," (String.append col (String.append ".ilike.%" a)) = true)
    by (intros col Hc; rewrite !no_byte_append, Hc, Ha; reflexivity).
  assert (Hw' : no_byte "," (String.append w "%") = true) by (by rewrite no_byte_append, Hw).
  induction Hcols as [|col cols Hc Hcols IH]; [done|].
  destruct cols as [|col' cols].
  - simpl. rewrite ilike_text_comma, split_append by auto. by rewrite split_no_sep.
  - cbn [map]. rewrite concat_cons2, ilike_text_comma, <- append_assoc_str.
    rewrite (append_cons "," (String.append w "%")), split_append by auto.
    rewrite (append_cons "," "" (String.concat "," _)), append_empty_l, split_append by done.
    cbn [map] in IH. rewrite IH by done. reflexivity.
Qed.

Lemma parse_logic_injected (cols : list string) (a c x : string) :
  cols <> [] -> Forall plain_column cols -> plain_column c ->
  no_byte "," a && no_byte "(" a && no_byte ")" a = true ->
  no_byte "," x && no_byte "(" x && no_byte ")" x = true ->
  parse_logic (String.concat ","
    (map (fun col => ilike_text col (String.append a (String "," (String.append c (String.append ".ilike." x)))))
         cols)) =
  Some (List.concat (map (fun col => [mk_cond col OpIlike (String "%" a);
                                      mk_cond c OpIlike (String.append x "%")]) cols)).
Proof.
  intros Hne Hcols [Hc0 Hc] Ha Hx.
  apply andb_prop in Hc as [[[Hcd Hcc]%andb_prop Hcl]%andb_prop Hcr].
  apply andb_prop in Ha as [[Hac Hal]%andb_prop Har].
  apply andb_prop in Hx as [[Hxc Hxl]%andb_prop Hxr].
  unfold parse_logic. rewrite split_ilike_comma; [| done | | done |].
  2: { eapply Forall_impl; [|exact Hcols]. intros col [_ Hb].
       by apply andb_prop in Hb as [[[_ ?]%andb_prop _]%andb_prop _]. }
  2: { rewrite !no_byte_append, Hcc, Hxc. reflexivity. }
  assert (H2 : parse_cond (String.append (String.append c (String.append ".ilike." x)) "%") =
               Some (mk_cond c OpIlike (String.append x "%"))).
  { rewrite <- !append_assoc_str. apply parse_cond_ilike_raw; [done|done|].
    rewrite !no_byte_append, Hcl, Hcr, Hxl, Hxr. reflexivity. }
  clear Hne. induction Hcols as [|col cols [Hn Hb] _ IH]; [done|].
  apply andb_prop in Hb as [[[Hd _]%andb_prop Hl]%andb_prop Hr].
  cbn [map List.concat app].
  rewrite (mapM_cons_Some _ _ (mk_cond col OpIlike (String "%" a))).
  2: { change (String.append col (String.append ".ilike.%" a))
         with (String.append col (String.append ".ilike." (String "%" a))).
       apply parse_cond_ilike_raw; [done|done|]. simpl. by rewrite Hl, Hr, Hal, Har. }
  rewrite (mapM_cons_Some _ _ _ _ H2), IH. reflexivity.
Qed.

Section OnRows.
Context {R : Type} `{Row R}.

Definition cond_ok (c : cond) : bool :=
  has_column (c_col c) &&
  match c_op c with
  | OpIlike => pattern_ok (star_to_percent (c_val c))
  | OpEq => true
  end.

Definition eval_cond (r : R) (c : cond) : bool :=
  match column r (c_col c) with
  | None => false
  | Some x =>
      match c_op c with
      | OpEq => x === c_val c
      | OpIlike => ilike (star_to_percent (c_val c)) x
      end
  end.

(** A filter as a row predicate, or [None] when the server rejects
    it (malformed expression, unknown column, bad pattern). *)
Definition compile (f : filter) : option (R -> bool) :=
  match f with
  | FOr e =>
      cs ← parse_logic e;
      if forallb cond_ok cs then Some (fun r => existsb (eval_cond r) cs) else None
  | FEq col v =>
      if has_column col then Some (fun r => bool_decide (column r col = Some v)) else None
  end.

(** Keys compared as text, [null] above every value (PostgreSQL's
    default: nulls last ascending, first descending). *)
Definition key_le (a b : option string) : bool :=
  match a, b with
  | _, None => true
  | None, Some _ => false
  | Some x, Some y => String.leb x y
  end.

(** [x] may stay ahead of [y] under [ORDER BY col]. *)
Definition before (col : string) (asc : bool) (x y : R) : bool :=
  if asc then key_le (column x col) (column y col)
  else key_le (column y col) (column x col).

Fixpoint insert_by (col : string) (asc : bool) (x : R) (l : list R) : list R :=
  match l with
  | [] => [x]
  | y :: l' => if before col asc x y then x :: l else y :: insert_by col asc x l'
  end.

(** A stable insertion sort: equal keys keep the table order. *)
Fixpoint order_by (col : string) (asc : bool) (l : list R) : list R :=
  match l with
  | [] => []
  | x :: l' => insert_by col asc x (order_by col asc l')
  end.

Lemma insert_by_perm (col : string) (asc : bool) (x : R) (l : list R) :
  insert_by col asc x l ≡ₚ x :: l.
Proof.
  induction l as [|y l IH]; simpl; [done|].
  destruct (before col asc x y); [done|]. rewrite IH. apply perm_swap.
Qed.

(** Ordering only permutes the rows. *)
Lemma order_by_perm (col : string) (asc : bool) (l : list R) : order_by col asc l ≡ₚ l.
Proof. induction l as [|x l IH]; simpl; [done|]. by rewrite insert_by_perm, IH. Qed.

(** The rows all compiled filters accept. *)
Definition matching (ps : list (R -> bool)) (rows : list R) : list R :=
  List.filter (fun r => forallb (fun p => p r) ps) rows.

(** [.range(from, to)] of postgrest-js sets the query parameters
    [offset=${from}] and [limit=${to - from + 1}]; PostgREST reads each
    with [readMaybe] and an unreadable value (the text ["NaN"]) leaves
    that side of the range open: offset 0, no limit. *)
Definition range_offset (from : number) : Z :=
  match from with Int a => a | NaN => 0%Z end.

Definition range_limit (from to : number) : option Z :=
  match num_add (num_sub to from) (Int 1) with Int l => Some l | NaN => None end.

(** The rows from the offset on, at most [lim] of them when a limit
    was read. *)
Definition window (off : Z) (lim : option Z) (l : list R) : list R :=
  match lim with
  | Some n => take (Z.to_nat n) (drop (Z.to_nat off) l)
  | None => drop (Z.to_nat off) l
  end.

(** [SELECT * ... WHERE ... ORDER BY ... OFFSET .. LIMIT ..] with an
    exact count; an offset past the count is refused (416). *)
Definition select (rows : list R) (q : query) : db_result R :=
  match mapM compile (q_filters q) with
  | None => DbError "failed to parse filter"
  | Some ps =>
      let m := matching ps rows in
      let total := Z.of_nat (List.length m) in
      let a := range_offset (q_range q).1 in
      if (total <? a)%Z then DbError "Requested range not satisfiable"
      else DbOk (Some (window a (range_limit (q_range q).1 (q_range q).2)
                              (order_by (q_order q).1 (q_order q).2 m)))
                (Some total)
  end.

(** What a successful [select] answered. *)
Lemma select_ok_inv (rows : list R) (q : query) d c :
  select rows q = DbOk d c ->
  exists ps,
    mapM compile (q_filters q) = Some ps /\
    (range_offset (q_range q).1 <= Z.of_nat (List.length (matching ps rows)))%Z /\
    d = Some (window (range_offset (q_range q).1) (range_limit (q_range q).1 (q_range q).2)
                     (order_by (q_order q).1 (q_order q).2 (matching ps rows))) /\
    c = Some (Z.of_nat (List.length (matching ps rows))).
Proof.
  unfold select. destruct (mapM compile (q_filters q)) as [ps|]; [|done].
  case_match eqn:Hlt; [done|]. intros [= <- <-].
  exists ps. apply Z.ltb_ge in Hlt. done.
Qed.

(** A filter the server cannot read fails the whole query. *)
Lemma select_filter_error (rows : list R) (q : query) :
  mapM compile (q_filters q) = None -> select rows q = DbError "failed to parse filter".
Proof. intros Hc. unfold select. by rewrite Hc. Qed.

(** A filter set the server accepts, on an offset within the count. *)
Lemma select_ok (rows : list R) (q : query) ps :
  mapM compile (q_filters q) = Some ps ->
  (range_offset (q_range q).1 <= Z.of_nat (List.length (matching ps rows)))%Z ->
  select rows q =
    DbOk (Some (window (range_offset (q_range q).1) (range_limit (q_range q).1 (q_range q).2)
                       (order_by (q_order q).1 (q_order q).2 (matching ps rows))))
         (Some (Z.of_nat (List.length (matching ps rows)))).
Proof.
  intros Hc Ha. unfold select. rewrite Hc. by rewrite (proj2 (Z.ltb_ge _ _) Ha).
Qed.

(** The window of two integer bounds is [take (b - a + 1) (drop a _)]. *)
Lemma window_Int (a b : Z) (l : list R) :
  window (range_offset (Int a)) (range_limit (Int a) (Int b)) l =
    take (Z.to_nat (b - a + 1)) (drop (Z.to_nat a) l).
Proof. reflexivity. Qed.

(** The range [(a, a + lm - 1)] an endpoint sends selects [lm] rows
    from [a]. *)
Lemma range_window_Int (a lm : Z) (l : list R) :
  window (range_offset (Int a)) (range_limit (Int a) (num_sub (num_add (Int a) (Int lm)) (Int 1))) l =
    take (Z.to_nat lm) (drop (Z.to_nat a) l).
Proof.
  cbn [window range_offset range_limit num_add num_sub].
  by replace (a + lm - 1 - a + 1)%Z with lm by lia.
Qed.

(** A [NaN] lower bound opens the whole range. *)
Lemma window_NaN (b : number) (l : list R) :
  window (range_offset NaN) (range_limit NaN b) l = l.
Proof. destruct b; simpl; by rewrite drop_0. Qed.

(** A window holds rows of its list only, and at most [n] of them under
    a limit [n >= 0]. *)
Lemma elem_of_window (o : Z) (lim : option Z) (l : list R) (x : R) :
  x ∈ window o lim l -> x ∈ l.
Proof.
  destruct lim as [n|]; simpl; [apply elem_of_take_drop|].
  intros Hx. eapply elem_of_sublist; [exact Hx | apply sublist_drop].
Qed.

Lemma length_window_le (o n : Z) (l : list R) :
  (0 <= n)%Z -> (Z.of_nat (List.length (window o (Some n) l)) <= n)%Z.
Proof. intros Hn. simpl. rewrite length_take. lia. Qed.

(** ** Filters the endpoints build *)

Lemma mapM_compile_app (fs1 fs2 : list filter) (ps1 ps2 : list (R -> bool)) :
  mapM compile fs1 = Some ps1 -> mapM compile fs2 = Some ps2 ->
  mapM compile (fs1 ++ fs2) = Some (ps1 ++ ps2).
Proof.
  revert ps1. induction fs1 as [|f fs1 IH]; intros ps1; simpl.
  - by intros [= <-] ->.
  - destruct (compile f) as [p|]; [|done]. simpl.
    destruct (mapM compile fs1) as [qs|] eqn:E; [|done]. simpl.
    intros [= <-] H2. by rewrite (IH qs eq_refl H2).
Qed.

(** [ps] accepts exactly the rows [P] accepts. *)
Definition accepts (ps : list (R -> bool)) (P : R -> bool) : Prop :=
  forall r, forallb (fun p => p r) ps = P r.

Lemma accepts_app (ps1 ps2 : list (R -> bool)) (P1 P2 : R -> bool) :
  accepts ps1 P1 -> accepts ps2 P2 -> accepts (ps1 ++ ps2) (fun r => P1 r && P2 r).
Proof. intros A1 A2 r. by rewrite forallb_app, A1, A2. Qed.

(** A column the table has, read through a text getter. *)
Definition text_column (c : string) (get : R -> string) : Prop :=
  has_column c = true /\ forall r, column r c = Some (get r).

(** A value without PostgREST's separators, its escape [\] or its
    alternative wildcard [*]: spliced into [col.ilike.%v%] it stays one
    well-formed condition whose pattern is [%v%] ([%] and [_] keep their
    wildcard meaning). *)
Definition spliceable (v : string) : bool :=
  no_byte "," v && no_byte "(" v && no_byte ")" v && no_byte "\" v && no_byte "*" v.

Lemma spliceable_safe (v : string) : safe_search v = true -> spliceable v = true.
Proof.
  unfold safe_search, spliceable, plain. rewrite !andb_true_iff. tauto.
Qed.

Lemma cond_ok_ilike_val (col x : string) :
  has_column col = true -> no_byte "\" x = true -> no_byte "*" x = true ->
  cond_ok (mk_cond col OpIlike x) = true.
Proof.
  intros Hc He Hs. unfold cond_ok. cbn [c_col c_op c_val]. rewrite Hc, andb_true_l.
  rewrite star_to_percent_no_star by done.
  rewrite <- (append_empty_r x). by rewrite pattern_ok_no_escape.
Qed.

Lemma cond_ok_ilike (col s : string) :
  has_column col = true -> no_byte "\" s = true -> no_byte "*" s = true ->
  cond_ok (mk_cond col OpIlike (String "%" (String.append s "%"))) = true.
Proof.
  intros Hc He Hs. apply cond_ok_ilike_val; [done| |]; simpl; by rewrite no_byte_append, ?He, ?Hs.
Qed.

(** The [if (search)] part of an endpoint: [.or(...)] of [ilike] tests
    over columns [cg], or nothing for an empty search.  For a spliceable
    value it is the OR of the [ilike] tests [%s%] on the columns ... *)
Lemma search_or_compiles (cg : list (string * (R -> string))) (s : string) :
  cg <> [] -> Forall (fun c => plain_column c.1 /\ text_column c.1 c.2) cg ->
  spliceable s = true ->
  exists ps,
    mapM compile (if s === "" then []
                  else [FOr (String.concat "," (map (fun c => ilike_text c.1 s) cg))]) = Some ps /\
    accepts ps (fun r => (s === "") ||
                         existsb (fun c => ilike (String "%" (String.append s "%")) (c.2 r)) cg).
Proof.
  intros Hne Hcg Hs. unfold spliceable in Hs.
  apply andb_prop in Hs as [[[[Hc Hl]%andb_prop Hr]%andb_prop He]%andb_prop Hst].
  case_bool_decide as Hem; [by exists []|].
  assert (Hcols : Forall plain_column (map fst cg)).
  { apply Forall_fmap. eapply Forall_impl; [|exact Hcg]. by intros c [? _]. }
  eexists. split.
  - cbn [mapM compile]. rewrite <- (map_map fst (fun c => ilike_text c s)).
    rewrite parse_ilike_or; [| by destruct cg | exact Hcols | by rewrite Hc, Hl, Hr]. simpl.
    assert (Hok : forallb cond_ok
      (map (fun c => mk_cond c OpIlike (String "%" (String.append s "%"))) (map fst cg)) = true).
    { apply forallb_forall. intros x Hx. apply in_map_iff in Hx as (c & <- & Hx).
      apply in_map_iff in Hx as ([c' g] & <- & Hin). apply cond_ok_ilike; [|exact He|exact Hst].
      rewrite Forall_forall in Hcg. by destruct (Hcg _ Hin) as [_ [? _]]. }
    by rewrite Hok.
  - intros r. simpl. rewrite andb_true_r. f_equal. clear Hne Hcols.
    induction Hcg as [|c cg [_ [_ Hget]] _ IH]; [done|]. simpl.
    unfold eval_cond at 1. cbn [c_col c_op c_val]. rewrite Hget.
    rewrite star_to_percent_no_star by (by simpl; rewrite no_byte_append, Hst).
    by rewrite IH.
Qed.

(** ... and for a value without wildcards a case-insensitive substring
    test on the columns. *)
Lemma search_or_ok (cg : list (string * (R -> string))) (s : string) :
  cg <> [] -> Forall (fun c => plain_column c.1 /\ text_column c.1 c.2) cg ->
  safe_search s = true ->
  exists ps,
    mapM compile (if s === "" then []
                  else [FOr (String.concat "," (map (fun c => ilike_text c.1 s) cg))]) = Some ps /\
    accepts ps (fun r => (s === "") ||
                         existsb (fun c => includes (toLowerCase (c.2 r)) (toLowerCase s)) cg).
Proof.
  intros Hne Hcg Hs. pose proof Hs as [[[Hp _]%andb_prop _]%andb_prop _]%andb_prop.
  destruct (search_or_compiles cg s Hne Hcg (spliceable_safe s Hs)) as (ps & Hc & Ha).
  exists ps. split; [exact Hc|]. intros r. rewrite (Ha r). f_equal. clear Hne Hcg Ha Hc.
  induction cg as [|c cg IH]; [done|]. simpl. by rewrite ilike_plain_includes, IH.
Qed.

(** A search [a,col.ilike.v] ends the endpoint's conditions at its
    comma and adds [col.ilike.v%] after each of them: the filter then
    accepts every row whose [col] starts with [v], whatever [a] is. *)
Lemma compile_or_injected (cols : list string) (a c v : string) (get : R -> string) :
  cols <> [] -> Forall (fun col => plain_column col /\ has_column col = true) cols ->
  spliceable a = true -> safe_search v = true -> plain_column c -> text_column c get ->
  exists p,
    compile (FOr (String.concat ","
      (map (fun col => ilike_text col (String.append a (String "," (String.append c (String.append ".ilike." v)))))
           cols))) = Some p /\
    forall r, String.prefix (toLowerCase v) (toLowerCase (get r)) = true -> p r = true.
Proof.
  intros Hne Hcols Ha Hv Hc [Hch Hget].
  pose proof Ha as Ha'. unfold spliceable in Ha'.
  apply andb_prop in Ha' as [[[[Hac Hal]%andb_prop Har]%andb_prop Hae]%andb_prop Has].
  pose proof Hv as [[[Hvp Hvc]%andb_prop Hvl]%andb_prop Hvr]%andb_prop.
  pose proof Hvp as Hvp'. unfold plain in Hvp'.
  apply andb_prop in Hvp' as [[[_ _]%andb_prop Hve]%andb_prop Hvs].
  cbn [compile]. rewrite parse_logic_injected; [| done | | done | | ].
  2: { eapply Forall_impl; [|exact Hcols]. by intros col [? _]. }
  2: { by rewrite Hac, Hal, Har. }
  2: { by rewrite Hvc, Hvl, Hvr. }
  assert (Hok : forallb cond_ok (List.concat (map (fun col => [mk_cond col OpIlike (String "%" a);
                  mk_cond c OpIlike (String.append v "%")]) cols)) = true).
  { clear Hne. induction Hcols as [|col cols [_ Hh] _ IH]; [done|]. simpl.
    rewrite !cond_ok_ilike_val; try done; simpl; by rewrite ?no_byte_append, ?Hae, ?Has, ?Hve, ?Hvs. }
  cbn. rewrite Hok. eexists. split; [reflexivity|].
  intros r Hpre. apply existsb_exists. exists (mk_cond c OpIlike (String.append v "%")). split.
  - destruct cols as [|col cols]; [done|]. simpl. by right; left.
  - unfold eval_cond. cbn [c_col c_op c_val]. rewrite Hget.
    rewrite star_to_percent_no_star by (by rewrite no_byte_append, Hvs).
    by rewrite ilike_plain_prefix.
Qed.

(** The [if (v)] part of an endpoint: [.eq(col, v)], or nothing for an
    empty value. *)
Lemma eq_filter_ok (col v : string) (get : R -> string) :
  text_column col get ->
  exists ps, mapM compile (if v === "" then [] else [FEq col v]) = Some ps /\
             accepts ps (fun r => (v === "") || (get r === v)).
Proof.
  intros [Hcol Hget]. case_bool_decide.
  - exists []. by split.
  - eexists. split.
    + cbn [mapM compile]. rewrite Hcol. reflexivity.
    + intros r. simpl. rewrite Hget, andb_true_r.
      apply bool_decide_ext. split; congruence.
Qed.
(** Every filter of a query the server compiled holds of every row it
    selects: an equality filter in particular. *)
Lemma mapM_compile_elem (fs : list filter) (ps : list (R -> bool)) (f : filter) :
  mapM compile fs = Some ps -> f ∈ fs -> exists p, compile f = Some p /\ p ∈ ps.
Proof.
  revert ps. induction fs as [|g fs IH]; intros ps; [by intros _ ?%elem_of_nil|]. simpl.
  destruct (compile g) as [p|] eqn:Eg; [|done]. simpl.
  destruct (mapM compile fs) as [qs|] eqn:E; [|done]. simpl. intros [= <-] [->|Hf]%elem_of_cons.
  - exists p. split; [done | by left].
  - destruct (IH qs eq_refl Hf) as (p' & Hp' & Hin). exists p'. split; [done | by right].
Qed.

Lemma eq_filter_sound (fs : list filter) (ps : list (R -> bool)) (col v : string) (rows : list R) (r : R) :
  mapM compile fs = Some ps -> FEq col v ∈ fs -> r ∈ matching ps rows -> column r col = Some v.
Proof.
  intros Hc Hf Hr. destruct (mapM_compile_elem fs ps _ Hc Hf) as (p & Hp & Hin).
  unfold matching in Hr. apply list_elem_of_In, filter_In in Hr as [_ Hr].
  rewrite forallb_forall in Hr. apply list_elem_of_In in Hin. specialize (Hr p Hin).
  simpl in Hp. destruct (has_column col); [|done]. injection Hp as <-.
  by apply bool_decide_eq_true_1 in Hr.
Qed.
End OnRows.
(** ** Single-row insert: [.insert([body]).select().single()]

    A request body is a JSON object whose values are strings; when a key
    occurs twice, [JSON.parse] keeps the last value.  The server rejects
    a key that is not a column of the table and a body that lacks a
    required column; otherwise it stores the row, with the identifier
    and timestamps it assigns when the body does not give them, and
    answers that row. *)

Definition json_object := list (string * string).

Definition json_get (body : json_object) (k : string) : option string :=
  option_map snd (List.find (fun kv => kv.1 === k) (rev body)).

(** What a table needs to build a row from a body. *)
Class Insertable (R : Type) := {
  required_columns : list string;
  build_row : (string -> option string) -> string -> string -> R
}.

Inductive single_result (A : Type) :=
| SError (msg : string)
| SRow (row : A).
Arguments SError {A} _.
Arguments SRow {A} _.

Section Insert.
Context {R : Type} `{Row R} `{Insertable R}.

(** The insert, with the identifier [id] and the time [ts] the server
    would assign; the new row goes first (the endpoints order by
    [created_at] anyway). *)
Definition insert (rows : list R) (body : json_object) (id ts : string) :
    single_result R * list R :=
  match List.find (fun kv => negb (has_column kv.1)) body with
  | Some kv =>
      (SError (String.append "Could not find the '" (String.append kv.1 "' column")), rows)
  | None =>
      if forallb (fun c => bool_decide (is_Some (json_get body c))) required_columns then
        let r := build_row (json_get body) id ts in (SRow r, r :: rows)
      else (SError "null value violates not-null constraint", rows)
  end.

(** A rejected insert leaves the table as it was. *)
Lemma insert_error_rows (rows : list R) (body : json_object) (id ts m : string) rows' :
  insert rows body id ts = (SError m, rows') -> rows' = rows.
Proof.
  unfold insert. destruct (List.find _ _); [by intros [= _ <-]|].
  case_match; [done | by intros [= _ <-]].
Qed.

(** An accepted insert adds exactly the row it answers. *)
Lemma insert_row_rows (rows : list R) (body : json_object) (id ts : string) r rows' :
  insert rows body id ts = (SRow r, rows') ->
  rows' = r :: rows /\ r = build_row (json_get body) id ts.
Proof.
  unfold insert. destruct (List.find _ _); [done|].
  case_match; [by intros [= <- <-] | done].
Qed.

(** The server accepts a body whose keys are columns and which gives
    every required column. *)
Lemma insert_accepts (rows : list R) (body : json_object) (id ts : string) :
  Forall (fun kv => has_column kv.1 = true) body ->
  Forall (fun c => is_Some (json_get body c)) required_columns ->
  insert rows body id ts = (SRow (build_row (json_get body) id ts), build_row (json_get body) id ts :: rows).
Proof.
  intros Hk Hr. unfold insert.
  rewrite find_none_intro.
  - rewrite (proj2 (forallb_forall _ _)); [done|].
    intros c Hc%list_elem_of_In. rewrite Forall_forall in Hr. apply bool_decide_eq_true_2.
    by apply Hr, list_elem_of_In.
  - intros kv Hin. rewrite Forall_forall in Hk. by rewrite (Hk kv Hin).
Qed.
End Insert.
(** ** The two tables

    The required columns are the fields the pages' types declare
    non-optional ([Employee] and [Leave] in the page files) apart from
    the identifier, which the server assigns. *)

#[export] Instance Employee_Insertable : Insertable Employee := {|
  required_columns := ["name"; "email"; "department"; "role"; "status"];
  build_row get id ts :=
    mkEmployee (default id (get "id")) (default "" (get "name")) (default "" (get "email"))
      (default "" (get "department")) (default "" (get "role")) (default "" (get "status"))
      (Some (default ts (get "created_at"))) (Some (default ts (get "updated_at")))
|}.

#[export] Instance Leave_Insertable : Insertable Leave := {|
  required_columns := ["employee_id"; "employee_name"; "type"; "start_date"; "end_date"; "status"];
  build_row get id ts :=
    mkLeave (default id (get "id")) (default "" (get "employee_id"))
      (default "" (get "employee_name")) (default "" (get "type"))
      (default "" (get "start_date")) (default "" (get "end_date")) (default "" (get "status"))
      (Some (default ts (get "created_at"))) (Some (default ts (get "updated_at")))
|}.
End Postgrest.
