(* ===== verification/EmployeesApi.v ===== *)
(** * [GET /api/employees] and [POST /api/employees]

    [src/src/app/api/employees/route.ts].  [GET] reads [page], [limit],
    [search], [department] and [status] from the query string (lines 6-13),
    builds the supabase-js query (lines 20-40), and answers with the page
    envelope (lines 42-58) or a 500 (lines 44-46, 59-61).  [POST] inserts
    the request body and answers with the created row (lines 64-86).
    The data service is [DataService.Postgrest]. *)

From stdpp Require Import base list strings decidable.
From Stdlib Require Import Ascii String ZArith Lia.
From S2P Require Import Prelude JsString JsNumber UrlParams Schema DataService.

Module EmployeesRoute.
Import Postgrest.

(** The parameters as the handler holds them after lines 7-13. *)
Record params := mk_params {
  p_page : number;
  p_limit : number;
  p_search : string;
  p_department : string;
  p_status : string
}.

(** Lines 7-11: [Math.max(1, parseInt(searchParams.get(k) || d))] for
    [page] and [limit], [searchParams.get(k) || ''] for the others. *)
Definition read_params (q : list (string * string)) : params :=
  {| p_page := clamp1 (parseInt (or_default (FormUrlEncoded.get q "page") "1"));
     p_limit := clamp1 (parseInt (or_default (FormUrlEncoded.get q "limit") "20"));
     p_search := or_default (FormUrlEncoded.get q "search") "";
     p_department := or_default (FormUrlEncoded.get q "department") "";
     p_status := or_default (FormUrlEncoded.get q "status") "" |}.

(** Line 13: [(page - 1) * limit]. *)
Definition offset (p : params) : number :=
  num_mul (num_sub (p_page p) (Int 1)) (p_limit p).

(** Line 26, one condition of the template. *)
Definition ilike_cond (col search : string) : string :=
  String.append col (String.append ".ilike.%" (String.append search "%")).

(** Lines 25-27: the template literal of [query.or(...)]. *)
Definition or_expression (search : string) : string :=
  String.concat ","
    [ilike_cond "name" search; ilike_cond "email" search;
     ilike_cond "department" search; ilike_cond "role" search].

(** Lines 20-40: the builder chain, each [if] adding its filter when
    the value is a non-empty (truthy) string. *)
Definition build_query (p : params) : query :=
  {| q_filters :=
       (if p_search p === "" then [] else [FOr (or_expression (p_search p))]) ++
       (if p_department p === "" then [] else [FEq "department" (p_department p)]) ++
       (if p_status p === "" then [] else [FEq "status" (p_status p)]);
     q_order := ("created_at", false);
     q_range := (offset p, num_sub (num_add (offset p) (p_limit p)) (Int 1)) |}.

(** The JSON body of a 200. *)
Record envelope := mk_envelope {
  env_employees : list Employee;
  env_page : number;
  env_limit : number;
  env_total : Z;
  env_totalPages : number;
  env_hasMore : bool
}.

Inductive response :=
| Ok200 (e : envelope)
| Err500 (msg : string).

(** Lines 42-58: [count || 0], [Math.ceil(total / limit)],
    [employees || []], [page < totalPages]. *)
Definition respond (p : params) (r : db_result Employee) : response :=
  match r with
  | DbError m => Err500 m
  | DbOk data count =>
      let total := default 0%Z count in
      let totalPages := ceil_div total (p_limit p) in
      Ok200 {| env_employees := default [] data;
               env_page := p_page p;
               env_limit := p_limit p;
               env_total := total;
               env_totalPages := totalPages;
               env_hasMore := num_lt (p_page p) totalPages |}
  end.

(** Lines 4-62.  [env_ok] is whether the two environment variables are
    set: [createClient] throws without them and the [catch] answers
    ['Internal server error']. *)
Definition GET (env_ok : bool) (table : list Employee) (q : list (string * string)) : response :=
  if env_ok then
    let p := read_params q in respond p (select table (build_query p))
  else Err500 "Internal server error".

(** The answer of [POST]: the created row, or a 500 with a message. *)
Inductive post_response :=
| Created (e : Employee)
| PostErr500 (msg : string).

(** Lines 64-86.  [body] is [None] when [request.json()] throws (the
    body is not a JSON object of strings); [id] and [ts] are what the
    data service would assign. *)
Definition POST (env_ok : bool) (table : list Employee) (body : option json_object)
    (id ts : string) : post_response * list Employee :=
  if negb env_ok then (PostErr500 "Internal server error", table)
  else match body with
       | None => (PostErr500 "Internal server error", table)
       | Some b =>
           match insert table b id ts with
           | (SError m, t') => (PostErr500 m, t')
           | (SRow r, t') => (Created r, t')
           end
       end.
End EmployeesRoute.

(** ** What the endpoint promises (spec, section 4.2)

    A non-empty search is an OR of case-insensitive substring tests over
    name, email, department and role; non-empty department and status are
    exact matches; rows come newest first; page [p] of size [l] starts at
    [(p - 1) * l]. *)
Module EmployeesSpec.
Import Postgrest.

Definition field_match (s : string) (e : Employee) : bool :=
  existsb (fun f => includes (toLowerCase f) (toLowerCase s))
    [emp_name e; emp_email e; emp_department e; emp_role e].

Definition spec_match (s d st : string) (e : Employee) : bool :=
  ((s === "") || field_match s e) &&
  ((d === "") || (emp_department e === d)) &&
  ((st === "") || (emp_status e === st)).

Definition spec_rows (t : list Employee) (s d st : string) : list Employee :=
  order_by "created_at" false (List.filter (spec_match s d st) t).

End EmployeesSpec.

Module EmployeesRouteFacts.
Import Postgrest EmployeesRoute EmployeesSpec.

Lemma offset_Int (p : params) (a : Z) :
  offset p = Int a ->
  exists pg lm, p_page p = Int pg /\ p_limit p = Int lm /\ a = ((pg - 1) * lm)%Z.
Proof.
  unfold offset. destruct (p_page p), (p_limit p); simpl; intros; simplify_eq; eauto.
Qed.

Lemma read_params_page_ge1 (q : list (string * string)) (z : Z) :
  p_page (read_params q) = Int z -> (1 <= z)%Z.
Proof. apply clamp1_ge1. Qed.

Lemma read_params_limit_ge1 (q : list (string * string)) (z : Z) :
  p_limit (read_params q) = Int z -> (1 <= z)%Z.
Proof. apply clamp1_ge1. Qed.

(** The rows the builder's range selects: [limit] rows from
    [(page - 1) * limit] when page and limit are numbers ... *)
Lemma build_query_offset_Int (p : params) (pg lm : Z) :
  p_page p = Int pg -> p_limit p = Int lm ->
  range_offset (q_range (build_query p)).1 = ((pg - 1) * lm)%Z.
Proof. intros Hp Hl. cbn [build_query q_range fst]. unfold offset. by rewrite Hp, Hl. Qed.

Lemma build_query_window_Int (p : params) (pg lm : Z) (l : list Employee) :
  p_page p = Int pg -> p_limit p = Int lm ->
  window (range_offset (q_range (build_query p)).1)
         (range_limit (q_range (build_query p)).1 (q_range (build_query p)).2) l =
    take (Z.to_nat lm) (drop (Z.to_nat ((pg - 1) * lm)) l).
Proof.
  intros Hp Hl. cbn [build_query q_range fst snd]. unfold offset. rewrite Hp, Hl.
  cbn [window range_offset range_limit num_add num_sub num_mul].
  by replace ((pg - 1) * lm + lm - 1 - (pg - 1) * lm + 1)%Z with lm by lia.
Qed.

(** ... and every row when either is [NaN]: postgrest-js then sends
    [offset=NaN] and [limit=NaN], which PostgREST ignores. *)
Lemma build_query_window_NaN (p : params) (l : list Employee) :
  p_page p = NaN \/ p_limit p = NaN ->
  range_offset (q_range (build_query p)).1 = 0%Z /\
  window (range_offset (q_range (build_query p)).1)
         (range_limit (q_range (build_query p)).1 (q_range (build_query p)).2) l = l.
Proof.
  intros H. assert (Ho : offset p = NaN).
  { unfold offset. destruct H as [-> | ->]; [done | by destruct (num_sub _ _)]. }
  cbn [build_query q_range fst snd]. rewrite Ho. split; [done|]. apply window_NaN.
Qed.

(** C3. Every 200 carries a page and a limit that are each either [NaN]
    (serialized as [null]) or an integer of at least 1, at most [limit]
    employees when page and limit are both integers, and a non-negative
    total. *)
Theorem GET_ok_bounds (env : bool) (t : list Employee) (q : list (string * string))
    (e : envelope) :
  GET env t q = Ok200 e ->
  (env_page e = NaN \/ exists pg, env_page e = Int pg /\ (1 <= pg)%Z) /\
  (env_limit e = NaN \/ exists lm, env_limit e = Int lm /\ (1 <= lm)%Z) /\
  (forall pg lm, env_page e = Int pg -> env_limit e = Int lm ->
     (Z.of_nat (List.length (env_employees e)) <= lm)%Z) /\
  (0 <= env_total e)%Z.
Proof.
  unfold GET. destruct env; [|discriminate]. unfold respond.
  destruct (select t (build_query (read_params q))) as [|d c] eqn:Hs; [discriminate|].
  intros [= <-]. apply select_ok_inv in Hs as (ps & _ & _ & Hd & Hc'). subst d c.
  cbn [env_page env_limit env_employees env_total default from_option id].
  split; [apply number_ge1_cases, read_params_page_ge1|].
  split; [apply number_ge1_cases, read_params_limit_ge1|].
  split; [|lia].
  intros pg lm Hp Hl. rewrite (build_query_window_Int _ pg lm) by done.
  pose proof (read_params_limit_ge1 q lm Hl). rewrite length_take. lia.
Qed.

Lemma GET_ok_bounds_witness :
  GET true [] [("page", "0"); ("limit", "-3")] =
    Ok200 (mk_envelope [] (Int 1) (Int 1) 0 (Int 0) false) /\
  let e := mk_envelope [] (Int 1) (Int 1) 0 (Int 0) false in
  (env_page e = NaN \/ exists pg, env_page e = Int pg /\ (1 <= pg)%Z) /\
  (env_limit e = NaN \/ exists lm, env_limit e = Int lm /\ (1 <= lm)%Z) /\
  (forall pg lm, env_page e = Int pg -> env_limit e = Int lm ->
     (Z.of_nat (List.length (env_employees e)) <= lm)%Z) /\
  (0 <= env_total e)%Z.
Proof.
  split; [reflexivity|].
  apply (GET_ok_bounds true [] [("page", "0"); ("limit", "-3")]). reflexivity.
Defined.

(** The rows of a 200: the window of the ordered matching rows. *)
Lemma GET_ok_rows (env : bool) (t : list Employee) (q : list (string * string)) (e : envelope) :
  GET env t q = Ok200 e ->
  exists ps,
    mapM compile (q_filters (build_query (read_params q))) = Some ps /\
    env_employees e =
      window (range_offset (q_range (build_query (read_params q))).1)
             (range_limit (q_range (build_query (read_params q))).1
                          (q_range (build_query (read_params q))).2)
             (order_by "created_at" false (matching ps t)).
Proof.
  unfold GET. destruct env; [|discriminate]. unfold respond.
  destruct (select t (build_query (read_params q))) as [|d c] eqn:Hs; [discriminate|].
  intros [= <-]. apply select_ok_inv in Hs as (ps & Hc & _ & Hd & _). subst d.
  by exists ps.
Qed.

(** ** The filter the endpoint builds *)

(** The columns of the search (line 26) with the fields they hold. *)
Definition search_columns : list (string * (Employee -> string)) :=
  [("name", emp_name); ("email", emp_email); ("department", emp_department); ("role", emp_role)].

(** The search part of the chain (lines 24-28). *)
Lemma search_filter_ok (s : string) :
  safe_search s = true ->
  exists ps, mapM compile (if s === "" then [] else [FOr (or_expression s)]) = Some ps /\
             accepts ps (fun r => (s === "") || field_match s r).
Proof.
  intros Hs. apply (search_or_ok search_columns s); [done | | exact Hs].
  repeat constructor; done.
Qed.

Lemma build_query_filters (p : params) :
  safe_search (p_search p) = true ->
  exists ps, mapM compile (q_filters (build_query p)) = Some ps /\
             accepts ps (spec_match (p_search p) (p_department p) (p_status p)).
Proof.
  intros Hs. simpl.
  destruct (search_filter_ok _ Hs) as (ps1 & H1 & A1).
  destruct (eq_filter_ok "department" (p_department p) emp_department) as (ps2 & H2 & A2);
    [by split|].
  destruct (eq_filter_ok "status" (p_status p) emp_status) as (ps3 & H3 & A3); [by split|].
  exists (ps1 ++ ps2 ++ ps3). split.
  - by rewrite (mapM_compile_app _ _ _ _ H1 (mapM_compile_app _ _ _ _ H2 H3)).
  - intros r. rewrite (accepts_app _ _ _ _ A1 (accepts_app _ _ _ _ A2 A3)).
    unfold spec_match. by rewrite andb_assoc.
Qed.

(** C1. Refinement of the endpoint's contract: for a search without
    PostgREST separators or wildcards and a page that starts within the
    results, [GET] answers the [limit] newest matching employees from
    offset [(page - 1) * limit], their exact count, [totalPages] as the
    ceiling of count over limit, and [hasMore] exactly when the pages up
    to this one leave rows unseen. *)
Theorem GET_refines_spec (t : list Employee) (q : list (string * string))
    (pg lm : Z) (s d st : string) :
  read_params q = mk_params (Int pg) (Int lm) s d st ->
  safe_search s = true ->
  ((pg - 1) * lm <= Z.of_nat (List.length (List.filter (spec_match s d st) t)))%Z ->
  GET true t q =
    Ok200 (mk_envelope
      (take (Z.to_nat lm) (drop (Z.to_nat ((pg - 1) * lm)) (spec_rows t s d st)))
      (Int pg) (Int lm)
      (Z.of_nat (List.length (List.filter (spec_match s d st) t)))
      (ceil_div (Z.of_nat (List.length (List.filter (spec_match s d st) t))) (Int lm))
      (bool_decide (pg * lm < Z.of_nat (List.length (List.filter (spec_match s d st) t)))%Z)).
Proof.
  intros Hq Hs Hpage.
  assert (Hlm : (1 <= lm)%Z) by (apply (read_params_limit_ge1 q); by rewrite Hq).
  destruct (build_query_filters (read_params q)) as (ps & Hc & Ha); [by rewrite Hq|].
  rewrite Hq in Hc, Ha.
  assert (Hm : matching ps t = List.filter (spec_match s d st) t).
  { apply filter_ext. intros r. apply Ha. }
  unfold GET. cbv zeta. rewrite Hq.
  rewrite (select_ok t _ ps Hc) by (rewrite (build_query_offset_Int _ pg lm), Hm by done; lia).
  rewrite (build_query_window_Int _ pg lm) by done.
  unfold respond. cbn [default p_page p_limit q_order build_query fst snd].
  by rewrite Hm, num_lt_ceil_div by lia.
Qed.

Definition sample_table : list Employee :=
  [mkEmployee "E1" "John Smith" "john@x.com" "Engineering" "Developer" "Active"
     (Some "2024-01-02") None;
   mkEmployee "E2" "Ann Lee" "ann@x.com" "Engineering" "Manager" "Active"
     (Some "2024-01-03") None;
   mkEmployee "E3" "Bob Johnson" "bob@x.com" "Sales" "Lead" "Inactive"
     (Some "2024-01-01") None].

Lemma GET_refines_spec_witness :
  read_params [("search", "JOHN"); ("status", "Active")] =
    mk_params (Int 1) (Int 20) "JOHN" "" "Active" /\
  safe_search "JOHN" = true /\
  ((1 - 1) * 20 <= Z.of_nat (List.length (List.filter (spec_match "JOHN" "" "Active") sample_table)))%Z /\
  GET true sample_table [("search", "JOHN"); ("status", "Active")] =
    Ok200 (mk_envelope
      (take (Z.to_nat 20) (drop (Z.to_nat ((1 - 1) * 20)) (spec_rows sample_table "JOHN" "" "Active")))
      (Int 1) (Int 20)
      (Z.of_nat (List.length (List.filter (spec_match "JOHN" "" "Active") sample_table)))
      (ceil_div (Z.of_nat (List.length (List.filter (spec_match "JOHN" "" "Active") sample_table))) (Int 20))
      (bool_decide (1 * 20 < Z.of_nat (List.length (List.filter (spec_match "JOHN" "" "Active") sample_table)))%Z)).
Proof.
  split; [reflexivity|]. split; [reflexivity|]. split; [vm_compute; discriminate|].
  apply GET_refines_spec; [reflexivity | reflexivity | vm_compute; discriminate].
Defined.

(** C7. A [page] that [parseInt] cannot read (["abc"], ["0x"], [" "]) is
    not clamped to 1: [Math.max(1, NaN)] is [NaN], the offset and the
    range end are [NaN], postgrest-js sends [offset=NaN] and
    [limit=NaN], which PostgREST ignores, and the endpoint answers 200
    with [page] [NaN] (serialized as [null]), every matching employee
    instead of one page, and [hasMore] false. *)
Theorem GET_NaN_page_unclamped (t : list Employee) (q : list (string * string)) :
  parseInt (or_default (FormUrlEncoded.get q "page") "1") = NaN ->
  safe_search (p_search (read_params q)) = true ->
  let p := read_params q in
  let n := Z.of_nat (List.length (List.filter (spec_match (p_search p) (p_department p) (p_status p)) t)) in
  GET true t q =
    Ok200 (mk_envelope (spec_rows t (p_search p) (p_department p) (p_status p))
                       NaN (p_limit p) n (ceil_div n (p_limit p)) false).
Proof.
  intros Hn Hs. cbv zeta.
  assert (Hp : p_page (read_params q) = NaN) by (unfold read_params; cbn [p_page]; by rewrite Hn).
  destruct (build_query_filters (read_params q) Hs) as (ps & Hc & Ha).
  assert (Hm : matching ps t = List.filter (spec_match (p_search (read_params q))
                 (p_department (read_params q)) (p_status (read_params q))) t).
  { apply filter_ext. intros r. apply Ha. }
  destruct (build_query_window_NaN (read_params q) (order_by "created_at" false (matching ps t))
              (or_introl Hp)) as [Ho Hw].
  unfold GET. rewrite (select_ok t _ ps Hc) by (rewrite Ho; lia).
  cbn [q_order build_query fst snd] in Hw |- *. rewrite Hw.
  unfold respond. cbn [default]. rewrite Hp, Hm. reflexivity.
Qed.

Lemma GET_NaN_page_unclamped_witness :
  parseInt (or_default (FormUrlEncoded.get [("page", "abc")] "page") "1") = NaN /\
  safe_search (p_search (read_params [("page", "abc")])) = true /\
  GET true sample_table [("page", "abc")] =
    Ok200 (mk_envelope (spec_rows sample_table "" "" "") NaN (Int 20) 3 (ceil_div 3 (Int 20)) false).
Proof.
  split; [reflexivity|]. split; [reflexivity|].
  exact (GET_NaN_page_unclamped sample_table [("page", "abc")] eq_refl eq_refl).
Defined.

(** C8. A page that starts past the last matching row is an error, not
    an empty page: the data service refuses the range and the endpoint
    answers 500. *)
Theorem GET_past_last_page_500 (t : list Employee) (q : list (string * string))
    (pg lm : Z) (s d st : string) :
  read_params q = mk_params (Int pg) (Int lm) s d st ->
  safe_search s = true ->
  (Z.of_nat (List.length (List.filter (spec_match s d st) t)) < (pg - 1) * lm)%Z ->
  GET true t q = Err500 "Requested range not satisfiable".
Proof.
  intros Hq Hs Hpast.
  destruct (build_query_filters (read_params q)) as (ps & Hc & Ha); [by rewrite Hq|].
  rewrite Hq in Hc, Ha.
  assert (Hm : matching ps t = List.filter (spec_match s d st) t).
  { apply filter_ext. intros r. apply Ha. }
  unfold GET. cbv zeta. rewrite Hq. unfold select. rewrite Hc. cbn [q_range build_query offset].
  simpl. rewrite Hm. by rewrite (proj2 (Z.ltb_lt _ _) Hpast).
Qed.

Lemma GET_past_last_page_500_witness :
  read_params [("page", "2")] = mk_params (Int 2) (Int 20) "" "" "" /\
  safe_search "" = true /\
  (Z.of_nat (List.length (List.filter (spec_match "" "" "") [])) < (2 - 1) * 20)%Z /\
  GET true [] [("page", "2")] = Err500 "Requested range not satisfiable".
Proof.
  split; [reflexivity|]. split; [reflexivity|]. split; [simpl; lia|].
  apply (GET_past_last_page_500 [] [("page", "2")] 2 20 "" "" ""); [reflexivity..|simpl; lia].
Defined.

(** The [or] expression of a search [a,r]: the comma ends the first
    condition after [name.ilike.%a], and the next one is [r%], which is
    no condition when [r] has no dot. *)
Lemma or_expression_comma (a r : string) :
  no_byte "," a = true -> no_byte "," r = true -> no_byte "." r = true ->
  parse_logic (or_expression (String.append a (String "," r))) = None.
Proof.
  intros Ha Hr Hd. unfold parse_logic, or_expression.
  set (S := String.append a (String "," r)).
  set (rest := String.concat "," [ilike_cond "email" S; ilike_cond "department" S;
                                  ilike_cond "role" S]).
  replace (String.concat "," [ilike_cond "name" S; ilike_cond "email" S;
                              ilike_cond "department" S; ilike_cond "role" S])
    with (String.append (String.append "name.ilike.%" a)
            (String "," (String.append (String.append r "%") (String "," rest))))
    by (unfold rest, S, ilike_cond; cbn; by rewrite <- !append_assoc_str).
  rewrite split_append by (by rewrite no_byte_append, Ha).
  rewrite split_append by (by rewrite no_byte_append, Hr).
  assert (Hn : parse_cond (String.append r "%") = None).
  { unfold parse_cond. by rewrite break_at_none by (by rewrite no_byte_append, Hd). }
  by apply mapM_None_2.
Qed.

(** C9. A search with a comma whose text after the comma has no dot
    (["Smith, John"], ["a,b"]) is spliced into the [or] expression
    unescaped, splits it into a malformed condition, and the endpoint
    answers 500, whatever the table holds and the other parameters
    say. *)
Theorem GET_search_comma_500 (t : list Employee) (q : list (string * string)) (a r : string) :
  FormUrlEncoded.get q "search" = Some (String.append a (String "," r)) ->
  no_byte "," a = true -> no_byte "," r = true -> no_byte "." r = true ->
  GET true t q = Err500 "failed to parse filter".
Proof.
  intros Hq Ha Hr Hd. unfold GET. cbv zeta.
  assert (Hs : p_search (read_params q) = String.append a (String "," r))
    by (unfold read_params; cbn [p_search]; rewrite Hq; apply or_default_self).
  assert (Hc : mapM (compile (R:=Employee)) (q_filters (build_query (read_params q))) = None).
  { cbn [build_query q_filters]. rewrite Hs, bool_decide_eq_false_2 by (destruct a; discriminate).
    cbn [app]. apply mapM_None_1. unfold compile. by rewrite or_expression_comma. }
  rewrite select_filter_error by exact Hc. reflexivity.
Qed.

Lemma GET_search_comma_500_witness :
  FormUrlEncoded.get [("search", "Smith, John")] "search" =
    Some (String.append "Smith" (String "," " John")) /\
  no_byte "," "Smith" = true /\ no_byte "," " John" = true /\ no_byte "." " John" = true /\
  GET true sample_table [("search", "Smith, John")] = Err500 "failed to parse filter".
Proof.
  do 4 (split; [reflexivity|]).
  exact (GET_search_comma_500 sample_table [("search", "Smith, John")] "Smith" " John"
           eq_refl eq_refl eq_refl eq_refl).
Defined.

(** C10. The search text is spliced into the [or] expression
    unescaped, so a search [a,col.ilike.v] adds the condition
    [col.ilike.v%] to the query: for every table, the endpoint answers
    200 and counts every employee whose column [col] starts with [v]
    (ignoring case), whatever [a] is and whether or not any field
    contains the search. *)
Theorem GET_search_injects_filter (t : list Employee) (a c v : string) (get : Employee -> string) :
  spliceable a = true -> safe_search v = true -> plain_column c -> text_column c get ->
  exists env,
    GET true t [("search", String.append a (String "," (String.append c (String.append ".ilike." v))))] =
      Ok200 env /\
    (Z.of_nat (List.length (List.filter (fun r => String.prefix (toLowerCase v) (toLowerCase (get r))) t))
       <= env_total env)%Z.
Proof.
  intros Ha Hv Hc Hg.
  set (S := String.append a (String "," (String.append c (String.append ".ilike." v)))).
  assert (Hq : read_params [("search", S)] = mk_params (Int 1) (Int 20) S "" "").
  { unfold read_params. change (FormUrlEncoded.get [("search", S)] "search") with (Some S).
    rewrite or_default_self. reflexivity. }
  assert (Hcols : Forall (fun col => plain_column col /\ has_column (R:=Employee) col = true)
                   ["name"; "email"; "department"; "role"])
    by (repeat constructor; discriminate).
  destruct (compile_or_injected ["name"; "email"; "department"; "role"] a c v get
              ltac:(discriminate) Hcols Ha Hv Hc Hg) as (p & Hp & Hacc).
  assert (Hf : mapM compile (q_filters (build_query (read_params [("search", S)]))) = Some [p]).
  { rewrite Hq. cbn [build_query q_filters p_search p_department p_status].
    rewrite bool_decide_eq_false_2 by (unfold S; destruct a; discriminate).
    cbn [app]. rewrite (mapM_cons_Some _ _ p) by exact Hp. reflexivity. }
  unfold GET. cbv zeta. rewrite (select_ok t _ [p] Hf) by (rewrite Hq; simpl; lia).
  eexists. split; [reflexivity|]. cbn [env_total default from_option id].
  apply inj_le, filter_length_mono. intros r Hr. simpl. by rewrite Hacc.
Qed.

Lemma GET_search_injects_filter_witness :
  spliceable "zzz" = true /\ safe_search "Inac" = true /\ plain_column "status" /\
  text_column "status" emp_status /\
  exists env,
    GET true sample_table
      [("search", String.append "zzz" (String "," (String.append "status" (String.append ".ilike." "Inac"))))] =
      Ok200 env /\
    (Z.of_nat (List.length (List.filter (fun r => String.prefix (toLowerCase "Inac") (toLowerCase (emp_status r)))
                             sample_table)) <= env_total env)%Z.
Proof.
  assert (Hc : plain_column "status") by (split; [discriminate | reflexivity]).
  assert (Hg : text_column "status" emp_status) by (split; [reflexivity | intros r; reflexivity]).
  split; [reflexivity|]. split; [reflexivity|]. split; [exact Hc|]. split; [exact Hg|].
  exact (GET_search_injects_filter sample_table "zzz" "status" "Inac" emp_status eq_refl eq_refl Hc Hg).
Defined.

(** ** [POST] *)

(** C28. [POST] stores a body that names only columns and gives every
    required one, and answers the stored row: its fields are the body's
    values and its identifier the one the server assigned (or the
    body's). *)
Theorem POST_creates (t : list Employee) (b : json_object) (id ts : string) :
  Forall (fun kv => has_column (R:=Employee) kv.1 = true) b ->
  Forall (fun c => is_Some (json_get b c)) (required_columns (R:=Employee)) ->
  exists e, POST true t (Some b) id ts = (Created e, e :: t) /\
    emp_id e = default id (json_get b "id") /\
    json_get b "name" = Some (emp_name e) /\ json_get b "email" = Some (emp_email e) /\
    json_get b "department" = Some (emp_department e) /\ json_get b "role" = Some (emp_role e) /\
    json_get b "status" = Some (emp_status e).
Proof.
  intros Hk Hr. unfold POST. simpl negb. cbv iota. rewrite insert_accepts by done.
  eexists. split; [reflexivity|]. split; [reflexivity|].
  inversion Hr as [|? ? [vn Hn] Hr1]; inversion Hr1 as [|? ? [ve He] Hr2];
    inversion Hr2 as [|? ? [vd Hd] Hr3]; inversion Hr3 as [|? ? [vr Hro] Hr4];
    inversion Hr4 as [|? ? [vs Hs] _]; simpl.
  by rewrite Hn, He, Hd, Hro, Hs.
Qed.

(** C29. A [POST] that fails leaves the table unchanged: whatever the
    environment and the body, a 500 means nothing was stored. *)
Theorem POST_error_atomic (env : bool) (t : list Employee) (b : option json_object)
    (id ts m : string) (t' : list Employee) :
  POST env t b id ts = (PostErr500 m, t') -> t' = t.
Proof.
  unfold POST. destruct env; simpl; [|by intros [= _ <-]].
  destruct b as [b|]; [|by intros [= _ <-]].
  destruct (insert t b id ts) as [[m'|r] t''] eqn:E; intros [= <- <-].
  exact (insert_error_rows t b id ts m' t'' E).
Qed.
Definition sample_body : json_object :=
  [("name", "Ann Lee"); ("email", "ann@x.com"); ("department", "Sales"); ("role", "Lead");
   ("status", "Active")].

Lemma POST_creates_witness :
  Forall (fun kv => has_column (R:=Employee) kv.1 = true) sample_body /\
  Forall (fun c => is_Some (json_get sample_body c)) (required_columns (R:=Employee)) /\
  exists e, POST true sample_table (Some sample_body) "E4" "2024-02-01" = (Created e, e :: sample_table) /\
    emp_id e = default "E4" (json_get sample_body "id") /\
    json_get sample_body "name" = Some (emp_name e) /\ json_get sample_body "email" = Some (emp_email e) /\
    json_get sample_body "department" = Some (emp_department e) /\
    json_get sample_body "role" = Some (emp_role e) /\
    json_get sample_body "status" = Some (emp_status e).
Proof.
  assert (Hk : Forall (fun kv => has_column (R:=Employee) kv.1 = true) sample_body)
    by (repeat constructor).
  assert (Hr : Forall (fun c => is_Some (json_get sample_body c)) (required_columns (R:=Employee)))
    by (repeat constructor; eexists; reflexivity).
  split; [exact Hk|]. split; [exact Hr|]. exact (POST_creates sample_table sample_body "E4" "2024-02-01" Hk Hr).
Defined.

Lemma POST_error_atomic_witness :
  POST false sample_table (Some sample_body) "E4" "2024-02-01" =
    (PostErr500 "Internal server error", sample_table) /\ sample_table = sample_table.
Proof.
  split; [reflexivity|].
  exact (POST_error_atomic false sample_table (Some sample_body) "E4" "2024-02-01"
           "Internal server error" sample_table eq_refl).
Defined.
End EmployeesRouteFacts.
