(* ===== verification/LeavesApi.v ===== *)
(** * [GET /api/leaves] and [POST /api/leaves]

    [src/src/app/api/leaves/route.ts]: the same shape as the employees
    endpoint with a search over [employee_name] and [type] and a single
    [status] filter.  [GET] reads [page], [limit], [search] and [status]
    (lines 6-12), builds the query (lines 19-33) and answers the page
    envelope (lines 35-51) or a 500 (lines 37-39, 52-54); [POST] inserts
    the body (lines 57-79).  The data service is [DataService.Postgrest]. *)

From stdpp Require Import base list strings decidable.
From Stdlib Require Import Ascii String ZArith Lia.
From S2P Require Import Prelude JsString JsNumber UrlParams Schema DataService.

Module LeavesRoute.
Import Postgrest.

(** The parameters after lines 7-12. *)
Record params := mk_params {
  p_page : number;
  p_limit : number;
  p_search : string;
  p_status : string
}.

(** Lines 7-10. *)
Definition read_params (q : list (string * string)) : params :=
  {| p_page := clamp1 (parseInt (or_default (FormUrlEncoded.get q "page") "1"));
     p_limit := clamp1 (parseInt (or_default (FormUrlEncoded.get q "limit") "20"));
     p_search := or_default (FormUrlEncoded.get q "search") "";
     p_status := or_default (FormUrlEncoded.get q "status") "" |}.

(** Line 12: [(page - 1) * limit]. *)
Definition offset (p : params) : number :=
  num_mul (num_sub (p_page p) (Int 1)) (p_limit p).

(** Line 24: the template literal of [query.or(...)]. *)
Definition or_expression (search : string) : string :=
  String.concat ","
    [String.append "employee_name" (String.append ".ilike.%" (String.append search "%"));
     String.append "type" (String.append ".ilike.%" (String.append search "%"))].

(** Lines 19-33. *)
Definition build_query (p : params) : query :=
  {| q_filters :=
       (if p_search p === "" then [] else [FOr (or_expression (p_search p))]) ++
       (if p_status p === "" then [] else [FEq "status" (p_status p)]);
     q_order := ("created_at", false);
     q_range := (offset p, num_sub (num_add (offset p) (p_limit p)) (Int 1)) |}.

(** The JSON body of a 200 (lines 44-51). *)
Record envelope := mk_envelope {
  env_leaves : list Leave;
  env_page : number;
  env_limit : number;
  env_total : Z;
  env_totalPages : number;
  env_hasMore : bool
}.

Inductive response :=
| Ok200 (e : envelope)
| Err500 (msg : string).

(** Lines 35-51. *)
Definition respond (p : params) (r : db_result Leave) : response :=
  match r with
  | DbError m => Err500 m
  | DbOk data count =>
      let total := default 0%Z count in
      let totalPages := ceil_div total (p_limit p) in
      Ok200 {| env_leaves := default [] data;
               env_page := p_page p;
               env_limit := p_limit p;
               env_total := total;
               env_totalPages := totalPages;
               env_hasMore := num_lt (p_page p) totalPages |}
  end.

(** Lines 4-55. *)
Definition GET (env_ok : bool) (table : list Leave) (q : list (string * string)) : response :=
  if env_ok then
    let p := read_params q in respond p (select table (build_query p))
  else Err500 "Internal server error".

Inductive post_response :=
| Created (l : Leave)
| PostErr500 (msg : string).

(** Lines 57-79. *)
Definition POST (env_ok : bool) (table : list Leave) (body : option json_object)
    (id ts : string) : post_response * list Leave :=
  if negb env_ok then (PostErr500 "Internal server error", table)
  else match body with
       | None => (PostErr500 "Internal server error", table)
       | Some b =>
           match insert table b id ts with
           | (SError m, t') => (PostErr500 m, t')
           | (SRow r, t') => (Created r, t')
           end
       end.
End LeavesRoute.

(** ** What the endpoint promises

    A non-empty search is an OR of case-insensitive substring tests over
    the employee name and the leave type; a non-empty status is an exact
    match; newest first; page [p] of size [l] starts at [(p - 1) * l]. *)
Module LeavesSpec.
Import Postgrest.

Definition field_match (s : string) (l : Leave) : bool :=
  existsb (fun f => includes (toLowerCase f) (toLowerCase s))
    [leave_employee_name l; leave_type l].

Definition spec_match (s st : string) (l : Leave) : bool :=
  ((s === "") || field_match s l) && ((st === "") || (leave_status l === st)).

Definition spec_rows (t : list Leave) (s st : string) : list Leave :=
  order_by "created_at" false (List.filter (spec_match s st) t).
End LeavesSpec.

Module LeavesRouteFacts.
Import Postgrest LeavesRoute LeavesSpec.

Definition search_columns : list (string * (Leave -> string)) :=
  [("employee_name", leave_employee_name); ("type", leave_type)].

Lemma leaves_build_query_filters (p : params) :
  safe_search (p_search p) = true ->
  exists ps, mapM compile (q_filters (build_query p)) = Some ps /\
             accepts ps (spec_match (p_search p) (p_status p)).
Proof.
  intros Hs. simpl.
  destruct (search_or_ok search_columns (p_search p)) as (ps1 & H1 & A1);
    [done | repeat constructor; done | exact Hs |].
  destruct (eq_filter_ok "status" (p_status p) leave_status) as (ps2 & H2 & A2); [by split|].
  exists (ps1 ++ ps2). split.
  - exact (mapM_compile_app _ _ _ _ H1 H2).
  - intros r. rewrite (accepts_app _ _ _ _ A1 A2). reflexivity.
Qed.

(** The limit the endpoint uses is at least 1. *)
Lemma limit_ge1 (q : list (string * string)) (z : Z) :
  p_limit (read_params q) = Int z -> (1 <= z)%Z.
Proof. apply clamp1_ge1. Qed.

(** C26. Refinement of the leaves endpoint's contract: for a search free
    of PostgREST syntax and a page that starts within the results,
    [GET] answers the [limit] newest leave requests whose employee name
    or type contains the search (ignoring case) and whose status is the
    one asked, from offset [(page - 1) * limit], with their exact count,
    the page count and [hasMore]. *)
Theorem leaves_GET_refines_spec (t : list Leave) (q : list (string * string))
    (pg lm : Z) (s st : string) :
  read_params q = mk_params (Int pg) (Int lm) s st ->
  safe_search s = true ->
  ((pg - 1) * lm <= Z.of_nat (List.length (List.filter (spec_match s st) t)))%Z ->
  GET true t q =
    Ok200 (mk_envelope
      (take (Z.to_nat lm) (drop (Z.to_nat ((pg - 1) * lm)) (spec_rows t s st)))
      (Int pg) (Int lm)
      (Z.of_nat (List.length (List.filter (spec_match s st) t)))
      (ceil_div (Z.of_nat (List.length (List.filter (spec_match s st) t))) (Int lm))
      (bool_decide (pg * lm < Z.of_nat (List.length (List.filter (spec_match s st) t)))%Z)).
Proof.
  intros Hq Hs Hpage.
  assert (Hlm : (1 <= lm)%Z) by (apply (limit_ge1 q); by rewrite Hq).
  destruct (leaves_build_query_filters (read_params q)) as (ps & Hc & Ha); [by rewrite Hq|].
  rewrite Hq in Hc, Ha.
  assert (Hm : matching ps t = List.filter (spec_match s st) t).
  { apply filter_ext. intros r. apply Ha. }
  unfold GET. cbv zeta. rewrite Hq.
  rewrite (select_ok t _ ps Hc)
    by (cbn [range_offset q_range build_query offset num_mul num_sub fst p_page p_limit];
        rewrite Hm; lia).
  cbn [q_range q_order build_query offset num_mul num_sub fst snd p_page p_limit].
  rewrite range_window_Int.
  unfold respond. cbn [default p_page p_limit].
  by rewrite Hm, num_lt_ceil_div by lia.
Qed.

Definition sample_leaves : list Leave :=
  [mkLeave "L1" "E1" "John Smith" "Vacation" "2024-03-01" "2024-03-05" "Pending"
     (Some "2024-02-01") None;
   mkLeave "L2" "E2" "Ann Lee" "Sick" "2024-03-02" "2024-03-03" "Approved"
     (Some "2024-02-02") None;
   mkLeave "L3" "E3" "Bob Johnson" "Vacation" "2024-04-01" "2024-04-10" "Pending"
     (Some "2024-02-03") None].

Lemma leaves_GET_refines_spec_witness :
  read_params [("search", "vac"); ("status", "Pending")] =
    mk_params (Int 1) (Int 20) "vac" "Pending" /\
  safe_search "vac" = true /\
  ((1 - 1) * 20 <= Z.of_nat (List.length (List.filter (spec_match "vac" "Pending") sample_leaves)))%Z /\
  GET true sample_leaves [("search", "vac"); ("status", "Pending")] =
    Ok200 (mk_envelope
      (take (Z.to_nat 20) (drop (Z.to_nat ((1 - 1) * 20)) (spec_rows sample_leaves "vac" "Pending")))
      (Int 1) (Int 20)
      (Z.of_nat (List.length (List.filter (spec_match "vac" "Pending") sample_leaves)))
      (ceil_div (Z.of_nat (List.length (List.filter (spec_match "vac" "Pending") sample_leaves))) (Int 20))
      (bool_decide (1 * 20 < Z.of_nat (List.length (List.filter (spec_match "vac" "Pending") sample_leaves)))%Z)).
Proof.
  split; [reflexivity|]. split; [reflexivity|]. split; [vm_compute; discriminate|].
  apply leaves_GET_refines_spec; [reflexivity | reflexivity | vm_compute; discriminate].
Defined.

(** C37. A leave request is stored as sent, whatever its dates: [POST]
    checks neither that the leave ends after it starts nor that the
    employee exists; every body that names only columns of [leaves] and
    gives every required one is stored, with the body's dates, status
    and employee, and answered. *)
Theorem leaves_POST_no_date_check (t : list Leave) (b : json_object) (id ts : string) :
  Forall (fun kv => has_column (R:=Leave) kv.1 = true) b ->
  Forall (fun c => is_Some (json_get b c)) (required_columns (R:=Leave)) ->
  exists l, POST true t (Some b) id ts = (Created l, l :: t) /\
    json_get b "start_date" = Some (leave_start_date l) /\
    json_get b "end_date" = Some (leave_end_date l) /\
    json_get b "employee_id" = Some (leave_employee_id l) /\
    json_get b "status" = Some (leave_status l).
Proof.
  intros Hk Hr. unfold POST. simpl negb. cbv iota. rewrite insert_accepts by done.
  eexists. split; [reflexivity|].
  inversion Hr as [|? ? [vi Hi] Hr1]; inversion Hr1 as [|? ? _ Hr2];
    inversion Hr2 as [|? ? _ Hr3]; inversion Hr3 as [|? ? [vs Hs] Hr4];
    inversion Hr4 as [|? ? [ve He] Hr5]; inversion Hr5 as [|? ? [vt Hst] _]; simpl.
  by rewrite Hs, He, Hi, Hst.
Qed.

Definition reversed_leave : json_object :=
  [("employee_id", "E1"); ("employee_name", "John Smith"); ("type", "Vacation");
   ("start_date", "2024-03-10"); ("end_date", "2024-03-01"); ("status", "Pending")].

Lemma leaves_POST_no_date_check_witness :
  Forall (fun kv => has_column (R:=Leave) kv.1 = true) reversed_leave /\
  Forall (fun c => is_Some (json_get reversed_leave c)) (required_columns (R:=Leave)) /\
  exists l, POST true sample_leaves (Some reversed_leave) "L4" "2024-02-04" =
              (Created l, l :: sample_leaves) /\
    json_get reversed_leave "start_date" = Some (leave_start_date l) /\
    json_get reversed_leave "end_date" = Some (leave_end_date l) /\
    json_get reversed_leave "employee_id" = Some (leave_employee_id l) /\
    json_get reversed_leave "status" = Some (leave_status l).
Proof.
  assert (Hk : Forall (fun kv => has_column (R:=Leave) kv.1 = true) reversed_leave)
    by (repeat constructor).
  assert (Hr : Forall (fun c => is_Some (json_get reversed_leave c)) (required_columns (R:=Leave)))
    by (repeat constructor; eexists; reflexivity).
  split; [exact Hk|]. split; [exact Hr|].
  exact (leaves_POST_no_date_check sample_leaves reversed_leave "L4" "2024-02-04" Hk Hr).
Defined.

(** The rows of a 200: a window of the ordered matching rows. *)
Lemma leaves_GET_ok_rows (env : bool) (t : list Leave) (q : list (string * string)) (e : envelope) :
  GET env t q = Ok200 e ->
  exists ps,
    mapM compile (q_filters (build_query (read_params q))) = Some ps /\
    env_leaves e =
      window (range_offset (q_range (build_query (read_params q))).1)
             (range_limit (q_range (build_query (read_params q))).1
                          (q_range (build_query (read_params q))).2)
             (order_by "created_at" false (matching ps t)).
Proof.
  unfold GET. destruct env; [|discriminate]. unfold respond.
  destruct (select t (build_query (read_params q))) as [|d c] eqn:Hs; [discriminate|].
  intros [= <-]. apply select_ok_inv in Hs as (ps & Hc & _ & Hd & _). subst d.
  by exists ps.
Qed.

(** Whatever the search (wildcards and separators included), every
    leave request of a 200 answer to a [status] query has that status:
    the server applies the equality filter to every row it returns. *)
Lemma leaves_GET_status_sound (env : bool) (t : list Leave) (q : list (string * string))
    (e : envelope) :
  GET env t q = Ok200 e -> p_status (read_params q) <> "" ->
  Forall (fun l => leave_status l = p_status (read_params q)) (env_leaves e).
Proof.
  intros Hg Hst. destruct (leaves_GET_ok_rows _ _ _ _ Hg) as (ps & Hc & ->).
  assert (Hf : FEq "status" (p_status (read_params q)) ∈ q_filters (build_query (read_params q))).
  { simpl. rewrite (bool_decide_eq_false_2 (p_status (read_params q) = "")) by done.
    apply elem_of_app. right. by left. }
  apply Forall_forall. intros r Hr%list_elem_of_In%elem_of_window.
  rewrite (order_by_perm "created_at" false (matching ps t)) in Hr.
  pose proof (eq_filter_sound _ _ _ _ _ _ Hc Hf Hr) as Hcol. simpl in Hcol. by injection Hcol.
Qed.

End LeavesRouteFacts.
