(* ===== verification/EmployeeDirectory.v ===== *)
(** * The employee directory page: a list view controller

    [src/src/app/Dashboard/employee-directory/page.tsx].  The React state
    of lines 17-31 is the record [State]; the runtime's part (the pending
    [setTimeout] of the search effect, the in-flight [fetch]es, the clock
    and the console) is held beside it.  Each handler is one function;
    effects run after a step that changed their dependencies, as React
    runs them after a render:
    - lines 33-39: a change of [search] cancels the pending timer and
      starts one that commits the captured text 300 ms later;
    - lines 41-43: a change of [debouncedSearch], [department] or [status]
      calls [loadEmployees] (lines 45-67).
    An [await] splits a handler: the part after it runs when the reply
    event of its request arrives, in whatever order replies come.  While
    [loading] is true the page renders only its loading message (lines
    200-208), so no input, button or form can receive an event. *)

From stdpp Require Import base list strings decidable.
From Stdlib Require Import Ascii String ZArith Lia.
From S2P Require Import Prelude JsString UrlParams Schema.

Module Directory.

(** [formData] (lines 25-31). *)
Record FormData := mkForm {
  f_name : string; f_email : string; f_department : string;
  f_role : string; f_status : string
}.

Definition blank_form : FormData := mkForm "" "" "" "" "Active".

(** The [name] attribute of the form's inputs (lines 334-392). *)
Inductive Field := FName | FEmail | FDepartment | FRole | FStatus.

(** A request in flight, with what its continuation needs. *)
Inductive Request :=
| RLoad (url : string)                    (** [fetch(`/api/employees?${params}`)] *)
| RDelete (id : string)                   (** [DELETE /api/employees/${id}] *)
| RPut (id : string) (body : FormData)    (** [PUT /api/employees/${editingEmployee.id}] *)
| RPost (body : FormData).                (** [POST /api/employees] *)

Record State := mkState {
  employees : list Employee;
  search : string;
  debouncedSearch : string;
  department : string;
  status : string;
  showModal : bool;
  editingEmployee : option Employee;
  loading : bool;
  formData : FormData;
  (* the runtime *)
  timer : option (Z * string);            (** due time, captured [search] *)
  pending : list (nat * Request);
  next_req : nat;
  now : Z;
  console : list string                   (** [console.error] lines, newest first *)
}.

(** ** Field updates (the [setX] of each [useState]) *)

Definition set_employees (v : list Employee) (s : State) : State :=
  mkState v (search s) (debouncedSearch s) (department s) (status s) (showModal s) (editingEmployee s) (loading s) (formData s) (timer s) (pending s) (next_req s) (now s) (console s).

Definition set_search (v : string) (s : State) : State :=
  mkState (employees s) v (debouncedSearch s) (department s) (status s) (showModal s) (editingEmployee s) (loading s) (formData s) (timer s) (pending s) (next_req s) (now s) (console s).

Definition set_debouncedSearch (v : string) (s : State) : State :=
  mkState (employees s) (search s) v (department s) (status s) (showModal s) (editingEmployee s) (loading s) (formData s) (timer s) (pending s) (next_req s) (now s) (console s).

Definition set_department (v : string) (s : State) : State :=
  mkState (employees s) (search s) (debouncedSearch s) v (status s) (showModal s) (editingEmployee s) (loading s) (formData s) (timer s) (pending s) (next_req s) (now s) (console s).

Definition set_status (v : string) (s : State) : State :=
  mkState (employees s) (search s) (debouncedSearch s) (department s) v (showModal s) (editingEmployee s) (loading s) (formData s) (timer s) (pending s) (next_req s) (now s) (console s).

Definition set_showModal (v : bool) (s : State) : State :=
  mkState (employees s) (search s) (debouncedSearch s) (department s) (status s) v (editingEmployee s) (loading s) (formData s) (timer s) (pending s) (next_req s) (now s) (console s).

Definition set_editingEmployee (v : option Employee) (s : State) : State :=
  mkState (employees s) (search s) (debouncedSearch s) (department s) (status s) (showModal s) v (loading s) (formData s) (timer s) (pending s) (next_req s) (now s) (console s).

Definition set_loading (v : bool) (s : State) : State :=
  mkState (employees s) (search s) (debouncedSearch s) (department s) (status s) (showModal s) (editingEmployee s) v (formData s) (timer s) (pending s) (next_req s) (now s) (console s).

Definition set_formData (v : FormData) (s : State) : State :=
  mkState (employees s) (search s) (debouncedSearch s) (department s) (status s) (showModal s) (editingEmployee s) (loading s) v (timer s) (pending s) (next_req s) (now s) (console s).

Definition set_timer (v : option (Z * string)) (s : State) : State :=
  mkState (employees s) (search s) (debouncedSearch s) (department s) (status s) (showModal s) (editingEmployee s) (loading s) (formData s) v (pending s) (next_req s) (now s) (console s).

Definition set_pending (v : list (nat * Request)) (s : State) : State :=
  mkState (employees s) (search s) (debouncedSearch s) (department s) (status s) (showModal s) (editingEmployee s) (loading s) (formData s) (timer s) v (next_req s) (now s) (console s).

Definition set_next_req (v : nat) (s : State) : State :=
  mkState (employees s) (search s) (debouncedSearch s) (department s) (status s) (showModal s) (editingEmployee s) (loading s) (formData s) (timer s) (pending s) v (now s) (console s).

Definition set_now (v : Z) (s : State) : State :=
  mkState (employees s) (search s) (debouncedSearch s) (department s) (status s) (showModal s) (editingEmployee s) (loading s) (formData s) (timer s) (pending s) (next_req s) v (console s).

Definition set_console (v : list string) (s : State) : State :=
  mkState (employees s) (search s) (debouncedSearch s) (department s) (status s) (showModal s) (editingEmployee s) (loading s) (formData s) (timer s) (pending s) (next_req s) (now s) v.

(** ** Runtime helpers *)

(** [fetch(...)]: the request gets the next number and waits. *)
Definition issue (r : Request) (s : State) : State :=
  set_next_req (S (next_req s)) (set_pending (pending s ++ [(next_req s, r)]) s).

(** The request numbered [n] settles: it leaves the pending list. *)
Definition settle (n : nat) (s : State) : option (Request * State) :=
  match list_find (fun nr => nr.1 = n) (pending s) with
  | Some (i, (_, r)) => Some (r, set_pending (delete i (pending s)) s)
  | None => None
  end.

Definition log_error (msg : string) (s : State) : State := set_console (msg :: console s) s.

(** ** [loadEmployees] and the effects (lines 33-67) *)

(** Lines 49-53: the object given to [URLSearchParams]. *)
Definition load_params (s : State) : list (string * string) :=
  [("search", debouncedSearch s); ("department", department s); ("status", status s)].

(** Line 55: the URL of the load request. *)
Definition load_url (s : State) : string :=
  String.append "/api/employees?" (FormUrlEncoded.serialize (load_params s)).

(** Lines 45-55, up to the [await]. *)
Definition loadEmployees (s : State) : State :=
  issue (RLoad (load_url s)) (set_loading true s).

(** Lines 56-66, when the load settles; [finally] clears [loading]. *)
Definition finish_load (r : reply (option (list Employee))) (s : State) : State :=
  set_loading false
    match r with
    | OkJson data => set_employees (default [] data) s
    | NotOk => log_error "Failed to load employees" s
    | BadJson | NetworkError => log_error "Error loading employees:" s
    end.

(** The effects after a step from [old] to [s]: lines 33-39 restart the
    timer when [search] changed, lines 41-43 load when a filter changed. *)
Definition run_effects (old s : State) : State :=
  let s1 := if search old === search s then s
            else set_timer (Some (now s + 300, search s))%Z s in
  if (debouncedSearch old === debouncedSearch s) && (department old === department s) &&
     (status old === status s)
  then s1 else loadEmployees s1.

(** The timer's callback (line 35), when it is due at time [t]. *)
Definition fire_timer (t : Z) (s : State) : State :=
  match timer s with
  | Some (due, v) =>
      if (due <=? t)%Z then run_effects s (set_debouncedSearch v (set_timer None s)) else s
  | None => s
  end.

(** ** The rendered rows (lines 69-79) *)

Definition matchesQuery (q : string) (e : Employee) : bool :=
  includes (toLowerCase (join " " [emp_name e; emp_email e; emp_department e; emp_role e]))
           (toLowerCase q).

Definition row_visible (q d st : string) (e : Employee) : bool :=
  matchesQuery q e && ((d === "") || (emp_department e === d)) &&
  ((st === "") || (emp_status e === st)).

Definition filtered (s : State) : list Employee :=
  List.filter (row_visible (debouncedSearch s) (department s) (status s)) (employees s).

(** ** The form's constraints ([required], [type="email"], lines 332-395) *)

Definition is_alnum (c : ascii) : bool :=
  let n := nat_of_ascii c in
  ((48 <=? n) && (n <=? 57)) || ((65 <=? n) && (n <=? 90)) || ((97 <=? n) && (n <=? 122)).

Definition is_atext (c : ascii) : bool :=
  is_alnum c || negb (no_byte c "!#$%&'*+/=?^_`{|}~-").

Fixpoint all_chars (P : ascii -> bool) (s : string) : bool :=
  match s with EmptyString => true | String c s' => P c && all_chars P s' end.

(** A label of the HTML spec's valid e-mail address: 1 to 63
    letters, digits or hyphens, starting and ending with a letter or
    digit. *)
Definition valid_label (l : string) : bool :=
  (1 <=? String.length l)%nat && (String.length l <=? 63)%nat &&
  all_chars (fun c => is_alnum c || bool_decide (c = "-"%char)) l &&
  match String.get 0 l, String.get (String.length l - 1) l with
  | Some a, Some b => is_alnum a && is_alnum b
  | _, _ => false
  end.

(** [input type="email"]: [atext-or-dot+ @ label (. label)*]. *)
Definition valid_email (v : string) : bool :=
  match break_at "@" v with
  | Some (local, domain) =>
      negb (local === "") && all_chars (fun c => is_atext c || bool_decide (c = "."%char)) local &&
      forallb valid_label (split "." domain)
  | None => false
  end.

Definition form_valid (d : FormData) : bool :=
  negb (f_name d === "") && valid_email (f_email d) && negb (f_department d === "") &&
  negb (f_role d === "") && negb (f_status d === "").

(** ** Handlers (lines 106-198, 413) *)

(** Lines 106-116. *)
Definition handleCreate (s : State) : State :=
  set_showModal true (set_formData blank_form (set_editingEmployee None s)).

(** Lines 118-128. *)
Definition handleEdit (e : Employee) (s : State) : State :=
  set_showModal true
    (set_formData (mkForm (emp_name e) (emp_email e) (emp_department e) (emp_role e) (emp_status e))
       (set_editingEmployee (Some e) s)).

(** Lines 130-136: [confirm(...)] answered [confirmed], then the
    request up to its [await]. *)
Definition handleDelete (id : string) (confirmed : bool) (s : State) : State :=
  if confirmed then issue (RDelete id) s else s.

(** Lines 137-145, when the delete settles; the body is not read. *)
Definition finish_delete (id : string) (r : reply unit) (s : State) : State :=
  match r with
  | OkJson _ | BadJson => set_employees (remove_by emp_id id (employees s)) s
  | NotOk => log_error "Failed to delete employee" s
  | NetworkError => log_error "Error deleting employee:" s
  end.

(** Lines 148-176, up to the [await] of the chosen branch. *)
Definition handleSubmit (s : State) : State :=
  match editingEmployee s with
  | Some e => issue (RPut (emp_id e) (formData s)) s
  | None => issue (RPost (formData s)) s
  end.

(** Lines 184-185. *)
Definition close_modal (s : State) : State :=
  set_editingEmployee None (set_showModal false s).

(** Lines 161-168 and 184-188, when the update settles: a rejected
    fetch or body skips to the [catch] and leaves the modal open; a
    non-ok response skips only the replacement. *)
Definition finish_put (id : string) (r : reply Employee) (s : State) : State :=
  match r with
  | OkJson u => close_modal (set_employees (replace_by emp_id id u (employees s)) s)
  | NotOk => close_modal s
  | BadJson | NetworkError => log_error "Error saving employee:" s
  end.

(** Lines 178-188, when the creation settles. *)
Definition finish_post (r : reply Employee) (s : State) : State :=
  match r with
  | OkJson e => close_modal (set_employees (e :: employees s) s)
  | NotOk => close_modal s
  | BadJson | NetworkError => log_error "Error saving employee:" s
  end.

(** Lines 191-198: [formData[e.target.name] = e.target.value]. *)
Definition update_field (f : Field) (v : string) (d : FormData) : FormData :=
  match f with
  | FName => mkForm v (f_email d) (f_department d) (f_role d) (f_status d)
  | FEmail => mkForm (f_name d) v (f_department d) (f_role d) (f_status d)
  | FDepartment => mkForm (f_name d) (f_email d) v (f_role d) (f_status d)
  | FRole => mkForm (f_name d) (f_email d) (f_department d) v (f_status d)
  | FStatus => mkForm (f_name d) (f_email d) (f_department d) (f_role d) v
  end.

Definition handleInputChange (f : Field) (v : string) (s : State) : State :=
  set_formData (update_field f v (formData s)) s.

(** ** Events and runs *)

Inductive event :=
| TypeSearch (v : string)                       (** line 226 *)
| SelectDepartment (v : string)                 (** line 232 *)
| SelectStatus (v : string)                     (** line 244 *)
| ClickAdd                                      (** line 215 *)
| ClickEdit (e : Employee)                      (** line 303 *)
| ClickDelete (id : string) (confirmed : bool)  (** line 309 *)
| InputChange (f : Field) (v : string)          (** lines 336-394 *)
| Submit                                        (** line 329 *)
| ClickCancel                                   (** line 413 *)
| LoadReply (n : nat) (r : reply (option (list Employee)))
| SaveReply (n : nat) (r : reply Employee)
| DeleteReply (n : nat) (r : reply unit)
| Idle.

(** What the event does to the state, before effects.  User events
    reach only what is rendered: nothing while [loading]; the Edit and
    Delete buttons of the rows shown; the form while the modal is open,
    submitted only when the browser's constraints hold.  A reply event
    applies to a pending request of its kind. *)
Definition handle (ev : event) (s : State) : State :=
  let ui := negb (loading s) in
  let form := ui && showModal s in
  match ev with
  | TypeSearch v => if ui then set_search v s else s
  | SelectDepartment v => if ui then set_department v s else s
  | SelectStatus v => if ui then set_status v s else s
  | ClickAdd => if ui then handleCreate s else s
  | ClickEdit e => if ui && bool_decide (e ∈ filtered s) then handleEdit e s else s
  | ClickDelete id c =>
      if ui && existsb (fun e => emp_id e === id) (filtered s) then handleDelete id c s else s
  | InputChange f v => if form then handleInputChange f v s else s
  | Submit => if form && form_valid (formData s) then handleSubmit s else s
  | ClickCancel => if form then set_showModal false s else s
  | LoadReply n r =>
      match settle n s with Some (RLoad _, s') => finish_load r s' | _ => s end
  | SaveReply n r =>
      match settle n s with
      | Some (RPut id _, s') => finish_put id r s'
      | Some (RPost _, s') => finish_post r s'
      | _ => s
      end
  | DeleteReply n r =>
      match settle n s with Some (RDelete id, s') => finish_delete id r s' | _ => s end
  | Idle => s
  end.

Definition step (ev : event) (s : State) : State := run_effects s (handle ev s).

(** Time reaches [t]: a due timer fires first. *)
Definition tick (t : Z) (s : State) : State := set_now t (fire_timer t s).

Fixpoint run (s : State) (evs : list (Z * event)) : State :=
  match evs with
  | [] => s
  | (t, ev) :: evs' => run (step ev (tick t s)) evs'
  end.

(** The first render (lines 17-31) and its effects: the timer for the
    empty search and the first load. *)
Definition initial (t0 : Z) : State :=
  mkState [] "" "" "" "" false None false blank_form None [] 0 t0 [].

Definition mount (t0 : Z) : State :=
  loadEmployees (set_timer (Some (t0 + 300, ""))%Z (initial t0)).
End Directory.

Module DirectoryFacts.
Import Directory.

(** ** Reachable states *)

Inductive reachable : State -> Prop :=
| reach_mount (t0 : Z) : reachable (mount t0)
| reach_step (s : State) (t : Z) (ev : event) :
    reachable s -> reachable (step ev (tick t s)).

Definition is_load (r : Request) : bool :=
  match r with RLoad _ => true | _ => false end.

(** The bookkeeping of requests: numbers below the counter, distinct,
    and [loading] only while some load is pending. *)
Record core_ok (s : State) : Prop := {
  core_below : Forall (fun nr => (nr.1 < next_req s)%nat) (pending s);
  core_nodup : NoDup (fst <$> pending s);
  core_loading : loading s = true -> exists n u, (n, RLoad u) ∈ pending s
}.

(** The pending timer carries the current search text. *)
Definition timer_ok (s : State) : Prop :=
  forall due v, timer s = Some (due, v) -> v = search s.

Definition inv (s : State) : Prop := core_ok s /\ timer_ok s.

Lemma issue_core (r : Request) (s : State) : core_ok s -> core_ok (issue r s).
Proof.
  intros [Hb Hn Hl]. split; simpl.
  - apply Forall_app; split; [|by repeat constructor].
    eapply Forall_impl; [|exact Hb]. simpl. lia.
  - rewrite fmap_app. apply NoDup_app_iff. split; [done|]. split; [|apply NoDup_singleton].
    intros x Hx Hx'. simpl in Hx'. apply list_elem_of_singleton in Hx' as ->.
    apply list_elem_of_fmap in Hx as [[m r'] [Hm Hin]]. simpl in Hm. subst.
    rewrite Forall_forall in Hb. specialize (Hb _ (proj1 (list_elem_of_In _ _) Hin)). simpl in Hb. lia.
  - intros H. destruct (Hl H) as (n & u & Hin). exists n, u. apply elem_of_app. by left.
Qed.

(** A state with the same requests, counter and flag keeps the
    bookkeeping. *)
Lemma core_ok_ext (s s' : State) :
  pending s' = pending s -> next_req s' = next_req s -> loading s' = loading s ->
  core_ok s -> core_ok s'.
Proof. intros Hp Hn Hl [Hb Hd Hload]. split; rewrite ?Hp, ?Hn, ?Hl; done. Qed.

Lemma settle_spec (n : nat) (s : State) (r : Request) (s' : State) :
  settle n s = Some (r, s') ->
  exists i, pending s !! i = Some (n, r) /\ s' = set_pending (delete i (pending s)) s.
Proof.
  unfold settle. destruct (list_find _ _) as [[i [m r']]|] eqn:Hf; [|done].
  intros [= <- <-]. apply list_find_Some in Hf as (Hi & Hm & _). simpl in Hm. subst.
  by exists i.
Qed.

(** Settling a request other than a load keeps the bookkeeping;
    settling a load does too once [loading] is cleared. *)
Lemma settle_core (n : nat) (s : State) (r : Request) (s' : State) (b : bool) :
  core_ok s -> settle n s = Some (r, s') -> (b = true -> is_load r = false) ->
  core_ok (if b then s' else set_loading false s').
Proof.
  intros [Hb Hd Hl] Hs Hr. apply settle_spec in Hs as (i & Hi & ->).
  split; destruct b; simpl.
  - by apply Forall_delete.
  - by apply Forall_delete.
  - by apply NoDup_fmap_delete.
  - by apply NoDup_fmap_delete.
  - intros Hload. destruct (Hl Hload) as (m & u & Hin). exists m, u.
    eapply elem_of_delete_other; [exact Hi | exact Hin |].
    intros [= -> <-]. specialize (Hr eq_refl). done.
  - done.
Qed.

Lemma finish_delete_fields (id : string) (r : reply unit) (s : State) :
  pending (finish_delete id r s) = pending s /\ next_req (finish_delete id r s) = next_req s /\
  loading (finish_delete id r s) = loading s.
Proof. by destruct r. Qed.

Lemma finish_put_fields (id : string) (r : reply Employee) (s : State) :
  pending (finish_put id r s) = pending s /\ next_req (finish_put id r s) = next_req s /\
  loading (finish_put id r s) = loading s.
Proof. by destruct r. Qed.

Lemma finish_post_fields (r : reply Employee) (s : State) :
  pending (finish_post r s) = pending s /\ next_req (finish_post r s) = next_req s /\
  loading (finish_post r s) = loading s.
Proof. by destruct r. Qed.

Lemma finish_load_eq (r : reply (option (list Employee))) (s : State) :
  pending (finish_load r s) = pending s /\ next_req (finish_load r s) = next_req s /\
  loading (finish_load r s) = false.
Proof. by destruct r. Qed.

Lemma handle_timer (ev : event) (s : State) :
  timer (handle ev s) = timer s.
Proof.
  destruct ev as [| | | | | | | | |n r|n r|n r|]; simpl;
    try (destruct (settle n s) as [[[] s']|] eqn:E; try done;
         apply settle_spec in E as (i & _ & ->); by destruct r);
    repeat (case_match; simpl); try done;
    unfold handleDelete, handleSubmit; repeat case_match; done.
Qed.

Ltac core_same H :=
  match type of H with
  | core_ok ?s0 => apply (core_ok_ext s0); [reflexivity | reflexivity | reflexivity | exact H]
  end.

Lemma handle_core (ev : event) (s : State) : core_ok s -> core_ok (handle ev s).
Proof.
  intros Hc.
  destruct ev as [v|v|v| |e|id c|f v| | |n r|n r|n r|]; simpl;
    repeat match goal with |- core_ok (if ?b then _ else _) => destruct b end;
    try (core_same Hc); try (by apply issue_core);
    try (unfold handleDelete; destruct c; [by apply issue_core | core_same Hc]);
    try (unfold handleSubmit; destruct (editingEmployee s); by apply issue_core).
  - destruct (settle n s) as [[[] s']|] eqn:E; try core_same Hc.
    pose proof (settle_core n s _ s' false Hc E ltac:(done)) as H'.
    destruct (finish_load_eq r s') as (Hp & Hn & Hl).
    apply (core_ok_ext (set_loading false s')); [exact Hp | exact Hn | exact Hl | exact H'].
  - destruct (settle n s) as [[[] s']|] eqn:E; try core_same Hc;
      pose proof (settle_core n s _ s' true Hc E ltac:(done)) as H'.
    + destruct (finish_put_fields id r s') as (Hp & Hn & Hl).
      eapply core_ok_ext; [exact Hp | exact Hn | exact Hl | exact H'].
    + destruct (finish_post_fields r s') as (Hp & Hn & Hl).
      eapply core_ok_ext; [exact Hp | exact Hn | exact Hl | exact H'].
  - destruct (settle n s) as [[[] s']|] eqn:E; try core_same Hc.
    pose proof (settle_core n s _ s' true Hc E ltac:(done)) as H'.
    destruct (finish_delete_fields id r s') as (Hp & Hn & Hl).
    apply (core_ok_ext s'); [exact Hp | exact Hn | exact Hl | exact H'].
Qed.

Lemma loadEmployees_core (s : State) : core_ok s -> core_ok (loadEmployees s).
Proof.
  intros Hc. unfold loadEmployees. destruct (issue_core (RLoad (load_url s)) s Hc) as [Hb Hd _].
  split; [exact Hb | exact Hd |]. intros _. exists (next_req s), (load_url s).
  simpl. apply elem_of_app. right. by left.
Qed.

(** The effects restore the timer's invariant whenever the step kept
    the search text or changed it. *)
Lemma run_effects_inv (old s : State) :
  core_ok s -> (search old = search s -> timer_ok s) -> inv (run_effects old s).
Proof.
  intros Hc Ht. unfold run_effects.
  assert (inv (if search old === search s then s
               else set_timer (Some (now s + 300, search s))%Z s)) as [Hc1 Ht1].
  { case_bool_decide as E.
    - split; [done | by apply Ht].
    - split; [core_same Hc|]. intros due v [= _ <-]. done. }
  cbv zeta. destruct ((debouncedSearch old === debouncedSearch s) &&
                      (department old === department s) && (status old === status s)).
  - by split.
  - split; [by apply loadEmployees_core | intros due v Hv; exact (Ht1 due v Hv)].
Qed.

Lemma step_inv (ev : event) (s : State) : inv s -> inv (step ev s).
Proof.
  intros [Hc Ht]. apply run_effects_inv; [by apply handle_core|].
  intros Hs due v Hv. rewrite handle_timer in Hv. rewrite <- Hs. by apply (Ht due v).
Qed.

Lemma tick_inv (t : Z) (s : State) : inv s -> inv (tick t s).
Proof.
  intros Hi. unfold tick.
  assert (inv (fire_timer t s)) as [Hc Ht].
  { unfold fire_timer. destruct (timer s) as [[due v]|] eqn:E; [|done].
    case_match; [|done]. destruct Hi as [Hc _]. apply run_effects_inv; [core_same Hc|].
    intros _ ? ? Hv. done. }
  split; [core_same Hc|]. intros due v Hv. by apply (Ht due v).
Qed.

Lemma mount_inv (t0 : Z) : inv (mount t0).
Proof.
  split; [split|].
  - repeat constructor; simpl; lia.
  - simpl. apply NoDup_singleton.
  - intros _. exists 0%nat, (load_url (set_timer (Some (t0 + 300, ""))%Z (initial t0))).
    by left.
  - intros due v [= _ <-]. done.
Qed.

Lemma run_inv (s : State) (evs : list (Z * event)) : inv s -> inv (run s evs).
Proof.
  revert s. induction evs as [|[t ev] evs IH]; intros s Hi; [done|].
  apply IH, step_inv, tick_inv, Hi.
Qed.

(** C2. In every reachable state the requests in flight have distinct
    numbers below the counter, [loading] is set only while a load is in
    flight, and a pending debounce timer holds the current search text,
    so the text it commits is the last one typed. *)
Theorem reachable_inv (s : State) : reachable s -> inv s.
Proof.
  induction 1 as [t0|s t ev _ IH]; [apply mount_inv | by apply step_inv, tick_inv].
Qed.

Lemma reachable_inv_witness :
  reachable (step (TypeSearch "jo") (tick 10 (mount 0))) /\
  inv (step (TypeSearch "jo") (tick 10 (mount 0))).
Proof.
  assert (H : reachable (step (TypeSearch "jo") (tick 10 (mount 0))))
    by (apply reach_step, reach_mount).
  split; [exact H | apply reachable_inv; exact H].
Defined.

(** The request issued last settles by its number, leaving the others. *)
Lemma settle_issue (r : Request) (s : State) :
  core_ok s -> settle (next_req s) (issue r s) = Some (r, set_next_req (S (next_req s)) s).
Proof.
  intros [Hb _ _]. unfold settle, issue. simpl.
  rewrite list_find_app_r.
  - simpl. rewrite decide_True by done. simpl. rewrite ?Nat.add_0_l, delete_snoc.
    by destruct s.
  - apply list_find_None. eapply Forall_impl; [|exact Hb]. intros [m r'] H; simpl in *. lia.
Qed.

(** Effects do nothing when the step kept the search text and filters. *)
Lemma run_effects_same (old s : State) :
  search s = search old -> debouncedSearch s = debouncedSearch old ->
  department s = department old -> status s = status old ->
  run_effects old s = s.
Proof.
  intros H1 H2 H3 H4. unfold run_effects. rewrite H1, H2, H3, H4.
  by rewrite !bool_decide_eq_true_2.
Qed.

Lemma tick_no_timer (t : Z) (s : State) : timer s = None -> tick t s = set_now t s.
Proof. intros H. unfold tick, fire_timer. by rewrite H. Qed.

Lemma filtered_remove_by (s : State) (id : string) :
  List.filter (row_visible (debouncedSearch s) (department s) (status s))
    (remove_by emp_id id (employees s)) = remove_by emp_id id (filtered s).
Proof.
  unfold filtered, remove_by. induction (employees s) as [|e l IH]; [done|].
  simpl. rewrite !filter_cons. case_decide; simpl;
    destruct (row_visible _ _ _ e); simpl; rewrite ?filter_cons; try case_decide; by rewrite ?IH.
Qed.

Lemma settle_last (n : nat) (r : Request) (x : State) (l : list (nat * Request)) :
  pending x = l ++ [(n, r)] -> Forall (fun nr => nr.1 <> n) l ->
  settle n x = Some (r, set_pending l x).
Proof.
  intros Hp Hl. unfold settle. rewrite Hp, list_find_last by done. simpl.
  by rewrite delete_snoc.
Qed.

(** C22. Deleting a shown employee after confirmation issues exactly one
    request, and its success removes from the snapshot and from the
    rendered table exactly the rows with that identifier; the other
    requests in flight, the modal and the form are untouched. *)
Theorem delete_flow (s : State) (id : string) (t1 t2 : Z) (u : unit) :
  inv s -> loading s = false -> timer s = None ->
  existsb (fun e => emp_id e === id) (filtered s) = true ->
  let s' := run s [(t1, ClickDelete id true); (t2, DeleteReply (next_req s) (OkJson u))] in
  employees s' = remove_by emp_id id (employees s) /\
  filtered s' = remove_by emp_id id (filtered s) /\
  pending s' = pending s /\ showModal s' = showModal s /\ formData s' = formData s.
Proof.
  intros [[Hb _ _] _] Hl Ht Hv. cbv zeta. cbn [run].
  rewrite (tick_no_timer t1 s Ht).
  assert (E1 : step (ClickDelete id true) (set_now t1 s) = issue (RDelete id) (set_now t1 s)).
  { unfold step, handle. change (loading (set_now t1 s)) with (loading s).
    change (filtered (set_now t1 s)) with (filtered s). rewrite Hl, Hv. simpl.
    by apply run_effects_same. }
  rewrite E1, (tick_no_timer t2 (issue (RDelete id) (set_now t1 s)) Ht).
  unfold step, handle. rewrite (settle_last (next_req s) (RDelete id) _ (pending s)).
  2: reflexivity.
  2: { eapply Forall_impl; [|exact Hb]. simpl. lia. }
  rewrite (run_effects_same (set_now t2 (issue (RDelete id) (set_now t1 s)))) by reflexivity.
  simpl. repeat split; try reflexivity. exact (filtered_remove_by s id).
Qed.
(** ** Loads that overlap

    The search timer can fire while a load is in flight (the spinner
    hides the inputs, not the timer), so two loads can be pending.
    Each reply is applied as it arrives, whatever its number. *)

(** A pending request settles by its number. *)
Lemma settle_elem (n : nat) (r : Request) (s : State) :
  core_ok s -> (n, r) ∈ pending s ->
  exists i, pending s !! i = Some (n, r) /\
            settle n s = Some (r, set_pending (delete i (pending s)) s).
Proof.
  intros [_ Hd _] Hin. unfold settle.
  destruct (list_find_elem_of (fun nr => nr.1 = n) (pending s) (n, r) Hin eq_refl)
    as [[i [m r']] Hf].
  rewrite Hf. apply list_find_Some in Hf as (Hi & Hm & _). simpl in Hm. subst m.
  apply list_elem_of_lookup in Hin as [j Hj].
  assert (i = j) as <-.
  { eapply (NoDup_lookup (fst <$> pending s)); [exact Hd | |];
      rewrite list_lookup_fmap; [rewrite Hi | rewrite Hj]; reflexivity. }
  rewrite Hi in Hj. injection Hj as ->. by exists i.
Qed.

(** A successful load reply stores its rows and clears [loading]. *)
Lemma step_load_ok (n : nat) (u : string) (d : list Employee) (s s' : State) :
  settle n s = Some (RLoad u, s') ->
  step (LoadReply n (OkJson (Some d))) s = set_loading false (set_employees d s').
Proof.
  intros H. pose proof (settle_spec _ _ _ _ H) as (i & _ & ->).
  unfold step, handle. rewrite H. simpl. by apply run_effects_same.
Qed.

Lemma load_reply_run (s : State) (n : nat) (u : string) (d : list Employee) (t : Z) :
  inv s -> timer s = None -> (n, RLoad u) ∈ pending s ->
  exists i, pending s !! i = Some (n, RLoad u) /\
    run s [(t, LoadReply n (OkJson (Some d)))] =
      set_loading false (set_employees d (set_pending (delete i (pending s)) (set_now t s))).
Proof.
  intros [Hc _] Ht Hin. cbn [run]. rewrite tick_no_timer by done.
  destruct (settle_elem n (RLoad u) (set_now t s)) as (i & Hl & Hs); [core_same Hc | exact Hin |].
  exists i. split; [exact Hl|]. exact (step_load_ok n u d _ _ Hs).
Qed.

(** C15. Replies are not matched against the latest load: when two loads
    are in flight and the newer one answers first, the older answer
    overwrites the snapshot, while the filters on screen (and the URL a
    fresh load would use) are still those of the newer request. *)
Theorem stale_load_overwrites (s : State) (n1 n2 : nat) (u1 u2 : string)
    (d1 d2 : list Employee) (t1 t2 : Z) :
  inv s -> timer s = None -> (n1, RLoad u1) ∈ pending s -> (n2, RLoad u2) ∈ pending s ->
  n1 <> n2 ->
  let s' := run s [(t1, LoadReply n2 (OkJson (Some d2))); (t2, LoadReply n1 (OkJson (Some d1)))] in
  employees s' = d1 /\ loading s' = false /\ load_url s' = load_url s.
Proof.
  intros Hi Ht H1 H2 Hne. cbv zeta.
  change (run s [?a; ?b]) with (run (run s [a]) [b]).
  pose proof (run_inv s [(t1, LoadReply n2 (OkJson (Some d2)))] Hi) as Hi'.
  destruct (load_reply_run s n2 u2 d2 t1 Hi Ht H2) as (i & Hl & E). rewrite E in Hi' |- *.
  destruct (load_reply_run _ n1 u1 d1 t2 Hi' Ht) as (j & _ & ->); [|done].
  simpl. eapply elem_of_delete_other; [exact Hl | exact H1 | congruence].
Qed.

(** C17. [loading] is one flag for all loads: the first reply clears it
    while another load is still in flight, so the table and the inputs
    come back before the rows for the current filters have arrived. *)
Theorem loading_cleared_early (s : State) (n1 n2 : nat) (u1 u2 : string)
    (d2 : list Employee) (t1 : Z) :
  inv s -> timer s = None -> (n1, RLoad u1) ∈ pending s -> (n2, RLoad u2) ∈ pending s ->
  n1 <> n2 ->
  let s' := run s [(t1, LoadReply n2 (OkJson (Some d2)))] in
  loading s' = false /\ (n1, RLoad u1) ∈ pending s'.
Proof.
  intros Hi Ht H1 H2 Hne. cbv zeta.
  destruct (load_reply_run s n2 u2 d2 t1 Hi Ht H2) as (i & Hl & ->).
  split; [done|]. simpl. eapply elem_of_delete_other; [exact Hl | exact H1 | congruence].
Qed.

(** ** The debounce *)

Lemma run_app (s : State) (evs1 evs2 : list (Z * event)) :
  run s (evs1 ++ evs2) = run (run s evs1) evs2.
Proof. revert s. induction evs1 as [|[t ev] evs1 IH]; intros s; [done|]. apply IH. Qed.

(** Keystrokes [(time, text)] in the search box. *)
Definition typing (ks : list (Z * string)) : list (Z * event) :=
  map (fun k => (k.1, TypeSearch k.2)) ks.

(** Each keystroke changes the text and comes before the pending timer
    is due, i.e. less than 300 ms after the previous one. *)
Fixpoint quick (tm : option (Z * string)) (prev : string) (ks : list (Z * string)) : Prop :=
  match ks with
  | [] => True
  | (t, v) :: ks' =>
      (forall due w, tm = Some (due, w) -> (t < due)%Z) /\ v <> prev /\
      quick (Some ((t + 300)%Z, v)) v ks'
  end.

Lemma tick_not_due (t : Z) (s : State) :
  (forall due w, timer s = Some (due, w) -> (t < due)%Z) -> tick t s = set_now t s.
Proof.
  intros Ht. unfold tick, fire_timer. destruct (timer s) as [[due w]|] eqn:E; [|done].
  pose proof (Ht due w eq_refl). case_match eqn:Hc; [|done].
  rewrite ?Z.leb_le, ?Z.ltb_lt in Hc. lia.
Qed.

(** One keystroke restarts the timer with the new text. *)
Lemma step_type (s : State) (t : Z) (v : string) :
  loading s = false -> (forall due w, timer s = Some (due, w) -> (t < due)%Z) -> v <> search s ->
  step (TypeSearch v) (tick t s) = set_timer (Some ((t + 300)%Z, v)) (set_search v (set_now t s)).
Proof.
  intros Hl Ht Hv. rewrite tick_not_due by done. unfold step, handle.
  change (loading (set_now t s)) with (loading s). rewrite Hl. unfold run_effects. simpl.
  rewrite (bool_decide_eq_false_2 (search s = v)) by congruence.
  by rewrite !bool_decide_eq_true_2.
Qed.

Lemma run_typing (s : State) (ks : list (Z * string)) :
  loading s = false -> quick (timer s) (search s) ks ->
  run s (typing ks) =
    match list.last ks with
    | Some (t, v) => set_timer (Some ((t + 300)%Z, v)) (set_search v (set_now t s))
    | None => s
    end.
Proof.
  revert s. induction ks as [|[t v] ks IH]; intros s Hl Hq; [done|].
  destruct Hq as (Ht & Hv & Hq). cbn [typing map run fst snd].
  rewrite step_type by done. rewrite IH by done. rewrite list.last_cons.
  destruct (list.last ks) as [[t' v']|] eqn:E; [by destruct s|].
  apply last_None in E as ->. done.
Qed.

(** A due timer commits its text. *)
Lemma tick_due (t : Z) (s : State) (due : Z) (v : string) :
  timer s = Some (due, v) -> (due <= t)%Z ->
  tick t s = set_now t (run_effects s (set_debouncedSearch v (set_timer None s))).
Proof. intros E H. unfold tick, fire_timer. rewrite E. by rewrite (proj2 (Z.leb_le _ _) H). Qed.

(** A step that changed only the committed search text loads. *)
Lemma run_effects_load (old s : State) :
  search s = search old -> debouncedSearch s <> debouncedSearch old ->
  run_effects old s = loadEmployees s.
Proof.
  intros H1 H2. unfold run_effects. rewrite H1, (bool_decide_eq_true_2 (search old = search old)) by done.
  by rewrite (bool_decide_eq_false_2 (debouncedSearch old = debouncedSearch s)) by congruence.
Qed.

(** C16. The debounce: a burst of keystrokes, each less than 300 ms after
    the previous one, issues no request; 300 ms after the last one the
    timer commits the last text and exactly one load is issued, for
    that text and the current filters, and the spinner is shown. *)
Theorem debounce_single_load (s : State) (ks : list (Z * string)) (tl t : Z) (vl : string) :
  loading s = false -> quick (timer s) (search s) ks -> list.last ks = Some (tl, vl) ->
  vl <> debouncedSearch s -> (tl + 300 <= t)%Z ->
  let s' := run s (typing ks ++ [(t, Idle)]) in
  search s' = vl /\ debouncedSearch s' = vl /\ department s' = department s /\
  status s' = status s /\ loading s' = true /\ timer s' = None /\
  pending s' = pending s ++ [(next_req s, RLoad (load_url s'))] /\
  next_req s' = S (next_req s).
Proof.
  intros Hl Hq Hlast Hv Ht. cbv zeta. rewrite run_app, run_typing, Hlast by done.
  cbn [run]. rewrite (tick_due t _ (tl + 300)%Z vl) by done.
  rewrite (run_effects_load (set_timer _ _)) by (simpl; congruence).
  unfold step. rewrite run_effects_same by reflexivity. repeat split.
Qed.

(** ** Saving

    The modal stays open and usable while a save is in flight, and the
    reply of a save closes whatever modal is open when it arrives. *)

(** An event that touches neither the search text nor the filters runs
    no effect. *)
Lemma run_quiet (t : Z) (ev : event) (s : State) (evs : list (Z * event)) :
  timer s = None ->
  search (handle ev (set_now t s)) = search s ->
  debouncedSearch (handle ev (set_now t s)) = debouncedSearch s ->
  department (handle ev (set_now t s)) = department s ->
  status (handle ev (set_now t s)) = status s ->
  run s ((t, ev) :: evs) = run (handle ev (set_now t s)) evs.
Proof.
  intros Ht H1 H2 H3 H4. cbn [run]. rewrite tick_no_timer by done.
  unfold step. by rewrite run_effects_same.
Qed.

Lemma submit_post (t : Z) (s : State) :
  loading s = false -> showModal s = true -> form_valid (formData s) = true ->
  editingEmployee s = None ->
  handle Submit (set_now t s) = issue (RPost (formData s)) (set_now t s).
Proof. intros Hl Hm Hf He. unfold handle, handleSubmit. simpl. by rewrite Hl, Hm, Hf, He. Qed.

Lemma submit_put (t : Z) (s : State) (e : Employee) :
  loading s = false -> showModal s = true -> form_valid (formData s) = true ->
  editingEmployee s = Some e ->
  handle Submit (set_now t s) = issue (RPut (emp_id e) (formData s)) (set_now t s).
Proof. intros Hl Hm Hf He. unfold handle, handleSubmit. simpl. by rewrite Hl, Hm, Hf, He. Qed.

(** C20. Nothing guards a second submission: while a creation is in
    flight the modal is still open, and submitting again sends a second
    [POST] of the same form, which creates the employee twice. *)
Theorem double_submit (s : State) (t1 t2 : Z) :
  loading s = false -> timer s = None -> showModal s = true -> editingEmployee s = None ->
  form_valid (formData s) = true ->
  let s' := run s [(t1, Submit); (t2, Submit)] in
  pending s' = pending s ++ [(next_req s, RPost (formData s)); (S (next_req s), RPost (formData s))] /\
  showModal s' = true.
Proof.
  intros Hl Ht Hm He Hf. cbv zeta.
  rewrite run_quiet; [| exact Ht | rewrite submit_post by done; reflexivity ..].
  rewrite submit_post by done.
  rewrite run_quiet; [| exact Ht | rewrite submit_post by done; reflexivity ..].
  rewrite submit_post by done. simpl. by rewrite <- app_assoc.
Qed.

Lemma handle_cancel (t : Z) (s : State) :
  loading s = false -> showModal s = true ->
  handle ClickCancel (set_now t s) = set_showModal false (set_now t s).
Proof. intros Hl Hm. unfold handle. simpl. by rewrite Hl, Hm. Qed.

Lemma handle_add (t : Z) (s : State) :
  loading s = false -> handle ClickAdd (set_now t s) = handleCreate (set_now t s).
Proof. intros Hl. unfold handle. simpl. by rewrite Hl. Qed.

(** The last request issued is not among the earlier ones. *)
Lemma below_not_last (s : State) :
  core_ok s -> Forall (fun nr => nr.1 <> next_req s) (pending s).
Proof. intros [Hb _ _]. eapply Forall_impl; [|exact Hb]. simpl. lia. Qed.

(** C21. A save reply closes whatever modal is open when it arrives: the
    user submits an edit, cancels, opens "Add Employee", and the edit's
    success then closes the new, empty form and forgets that a creation
    was under way, besides applying the edit. *)
Theorem stale_save_closes_modal (s : State) (e u : Employee) (t1 t2 t3 t4 : Z) :
  inv s -> loading s = false -> timer s = None -> showModal s = true ->
  editingEmployee s = Some e -> form_valid (formData s) = true ->
  let s' := run s [(t1, Submit); (t2, ClickCancel); (t3, ClickAdd);
                   (t4, SaveReply (next_req s) (OkJson u))] in
  showModal s' = false /\ editingEmployee s' = None /\ formData s' = blank_form /\
  employees s' = replace_by emp_id (emp_id e) u (employees s) /\ pending s' = pending s.
Proof.
  intros [Hc _] Hl Ht Hm He Hf. cbv zeta.
  rewrite run_quiet; [| exact Ht | rewrite (submit_put _ _ e) by done; reflexivity ..].
  rewrite (submit_put _ _ e) by done.
  rewrite run_quiet; [| exact Ht | rewrite handle_cancel by done; reflexivity ..].
  rewrite handle_cancel by done.
  rewrite run_quiet; [| exact Ht | rewrite handle_add by done; reflexivity ..].
  rewrite handle_add by done. cbn [run]. rewrite tick_no_timer by exact Ht. unfold step, handle.
  rewrite (settle_last (next_req s) (RPut (emp_id e) (formData s)) _ (pending s));
    [| reflexivity | exact (below_not_last s Hc)].
  rewrite run_effects_same by (cbn; reflexivity). simpl. by repeat split.
Qed.

Definition sample_employee : Employee :=
  mkEmployee "E1" "John Smith" "john@x.com" "Engineering" "Developer" "Active" None None.

(** A settled directory showing one employee, nothing in flight. *)
Definition settled_state : State :=
  mkState [sample_employee] "" "" "" "" false None false blank_form None [] 3 1000 [].

Lemma settled_state_inv : inv settled_state.
Proof. split; [split|]; [constructor | constructor | discriminate | by intros ? ? ?]. Qed.

Lemma delete_flow_witness :
  inv settled_state /\ loading settled_state = false /\ timer settled_state = None /\
  existsb (fun e => emp_id e === "E1") (filtered settled_state) = true /\
  (let s' := run settled_state [(1100%Z, ClickDelete "E1" true);
                                (1200%Z, DeleteReply (next_req settled_state) (OkJson tt))] in
   employees s' = remove_by emp_id "E1" (employees settled_state) /\
   filtered s' = remove_by emp_id "E1" (filtered settled_state) /\
   pending s' = pending settled_state /\ showModal s' = showModal settled_state /\
   formData s' = formData settled_state).
Proof.
  split; [exact settled_state_inv|]. split; [reflexivity|]. split; [reflexivity|].
  split; [vm_compute; reflexivity|].
  apply delete_flow; [exact settled_state_inv | reflexivity | reflexivity | vm_compute; reflexivity].
Defined.
(** The overlap is reachable: from a settled table, typing "jo" and
    choosing Sales within 300 ms starts a load for ("", Sales); the
    timer then commits "jo" and starts a load for ("jo", Sales). *)
Definition race_state : State :=
  run settled_state [(1100%Z, TypeSearch "jo"); (1200%Z, SelectDepartment "Sales"); (1450%Z, Idle)].

Definition race_url_old : string := load_url (set_department "Sales" (initial 0)).
Definition race_url_new : string :=
  load_url (set_debouncedSearch "jo" (set_department "Sales" (initial 0))).

Lemma race_state_inv : inv race_state.
Proof. apply run_inv, settled_state_inv. Qed.

Lemma race_state_pending : pending race_state = [(3%nat, RLoad race_url_old); (4%nat, RLoad race_url_new)].
Proof. vm_compute. reflexivity. Qed.

Lemma stale_load_overwrites_witness :
  inv race_state /\ timer race_state = None /\
  (3%nat, RLoad race_url_old) ∈ pending race_state /\
  (4%nat, RLoad race_url_new) ∈ pending race_state /\ 3%nat <> 4%nat /\
  (let s' := run race_state [(1600%Z, LoadReply 4 (OkJson (Some [sample_employee])));
                             (1700%Z, LoadReply 3 (OkJson (Some [])))] in
   employees s' = [] /\ loading s' = false /\ load_url s' = load_url race_state).
Proof.
  pose proof race_state_inv as Hi.
  assert (Ht : timer race_state = None) by (vm_compute; reflexivity).
  assert (H1 : (3%nat, RLoad race_url_old) ∈ pending race_state)
    by (rewrite race_state_pending; left).
  assert (H2 : (4%nat, RLoad race_url_new) ∈ pending race_state)
    by (rewrite race_state_pending; right; left).
  do 4 (split; [assumption|]). split; [lia|].
  apply stale_load_overwrites with race_url_old race_url_new; [exact Hi | exact Ht | exact H1 | exact H2 | lia].
Defined.

Lemma loading_cleared_early_witness :
  inv race_state /\ timer race_state = None /\
  (3%nat, RLoad race_url_old) ∈ pending race_state /\
  (4%nat, RLoad race_url_new) ∈ pending race_state /\ 3%nat <> 4%nat /\
  (let s' := run race_state [(1600%Z, LoadReply 4 (OkJson (Some [sample_employee])))] in
   loading s' = false /\ (3%nat, RLoad race_url_old) ∈ pending s').
Proof.
  pose proof race_state_inv as Hi.
  assert (Ht : timer race_state = None) by (vm_compute; reflexivity).
  assert (H1 : (3%nat, RLoad race_url_old) ∈ pending race_state)
    by (rewrite race_state_pending; left).
  assert (H2 : (4%nat, RLoad race_url_new) ∈ pending race_state)
    by (rewrite race_state_pending; right; left).
  do 4 (split; [assumption|]). split; [lia|].
  apply loading_cleared_early with race_url_new; [exact Hi | exact Ht | exact H1 | exact H2 | lia].
Defined.
Lemma debounce_single_load_witness :
  loading settled_state = false /\
  quick (timer settled_state) (search settled_state) [(1100%Z, "j"); (1200%Z, "jo")] /\
  list.last [(1100%Z, "j"); (1200%Z, "jo")] = Some (1200%Z, "jo") /\
  "jo" <> debouncedSearch settled_state /\ (1200 + 300 <= 1500)%Z /\
  (let s' := run settled_state (typing [(1100%Z, "j"); (1200%Z, "jo")] ++ [(1500%Z, Idle)]) in
   search s' = "jo" /\ debouncedSearch s' = "jo" /\ department s' = department settled_state /\
   status s' = status settled_state /\ loading s' = true /\ timer s' = None /\
   pending s' = pending settled_state ++ [(next_req settled_state, RLoad (load_url s'))] /\
   next_req s' = S (next_req settled_state)).
Proof.
  assert (Hq : quick (timer settled_state) (search settled_state) [(1100%Z, "j"); (1200%Z, "jo")]).
  { cbn. repeat split; try discriminate; intros ? ? [= <- _]; lia. }
  split; [reflexivity|]. split; [exact Hq|]. split; [reflexivity|].
  split; [discriminate|]. split; [lia|].
  apply (debounce_single_load settled_state _ 1200%Z 1500%Z "jo"); [reflexivity | exact Hq | reflexivity | discriminate | lia].
Defined.
(** The "Add Employee" modal open on a filled form, and the edit modal
    open on the sample employee. *)
Definition add_state : State :=
  mkState [sample_employee] "" "" "" "" true None false
          (mkForm "Ann Lee" "ann@x.com" "Sales" "Lead" "Active") None [] 3 1000 [].

Definition edit_state : State :=
  mkState [sample_employee] "" "" "" "" true (Some sample_employee) false
          (mkForm "John Smith" "john@x.com" "Engineering" "Manager" "Active") None [] 3 1000 [].

Lemma double_submit_witness :
  loading add_state = false /\ timer add_state = None /\ showModal add_state = true /\
  editingEmployee add_state = None /\ form_valid (formData add_state) = true /\
  (let s' := run add_state [(1100%Z, Submit); (1150%Z, Submit)] in
   pending s' = pending add_state ++ [(next_req add_state, RPost (formData add_state));
                                      (S (next_req add_state), RPost (formData add_state))] /\
   showModal s' = true).
Proof.
  assert (Hf : form_valid (formData add_state) = true) by (vm_compute; reflexivity).
  do 4 (split; [reflexivity|]). split; [exact Hf|].
  apply double_submit; [reflexivity | reflexivity | reflexivity | reflexivity | exact Hf].
Defined.

Lemma edit_state_inv : inv edit_state.
Proof. split; [split|]; [constructor | constructor | discriminate | by intros ? ? ?]. Qed.

Lemma stale_save_closes_modal_witness :
  inv edit_state /\ loading edit_state = false /\ timer edit_state = None /\
  showModal edit_state = true /\ editingEmployee edit_state = Some sample_employee /\
  form_valid (formData edit_state) = true /\
  (let s' := run edit_state [(1100%Z, Submit); (1200%Z, ClickCancel); (1300%Z, ClickAdd);
                             (1400%Z, SaveReply (next_req edit_state) (OkJson sample_employee))] in
   showModal s' = false /\ editingEmployee s' = None /\ formData s' = blank_form /\
   employees s' = replace_by emp_id (emp_id sample_employee) sample_employee (employees edit_state) /\
   pending s' = pending edit_state).
Proof.
  assert (Hf : form_valid (formData edit_state) = true) by (vm_compute; reflexivity).
  split; [exact edit_state_inv|]. do 4 (split; [reflexivity|]). split; [exact Hf|].
  apply stale_save_closes_modal;
    [exact edit_state_inv | reflexivity | reflexivity | reflexivity | reflexivity | exact Hf].
Defined.
End DirectoryFacts.
