(* ===== verification/LeaveRequests.v ===== *)
(** * The leave requests page: a read-only list view controller

    [src/src/app/Dashboard/leave-requests/page.tsx].  The React state of
    lines 18-22 and the runtime beside it (the debounce timer, the loads
    in flight, the clock and the console) form [State].  The effects are
    those of the employee directory with one filter:
    - lines 24-30: a change of [search] restarts a 300 ms timer that
      commits the captured text to [debouncedSearch];
    - lines 32-34: a change of [debouncedSearch] or [filter] calls
      [loadLeaves] (lines 36-57).
    Unlike the directory, the page keeps its inputs while loading (only
    the table becomes a message, lines 107-113), so the user can change
    the filter while a load is in flight.  The rendered rows are
    [filtered] (line 59): the snapshot re-filtered by status only. *)

From stdpp Require Import base list strings decidable.
From Stdlib Require Import Ascii String ZArith Lia.
From S2P Require Import Prelude JsString UrlParams Schema.

Module LeavePage.

Record State := mkState {
  leaves : list Leave;
  search : string;
  debouncedSearch : string;
  filter : string;
  loading : bool;
  (* the runtime *)
  timer : option (Z * string);
  pending : list (nat * string);          (** load number, URL *)
  next_req : nat;
  now : Z;
  console : list string
}.

Definition set_leaves (v : list Leave) (s : State) : State :=
  mkState v (search s) (debouncedSearch s) (filter s) (loading s) (timer s) (pending s) (next_req s) (now s) (console s).
Definition set_search (v : string) (s : State) : State :=
  mkState (leaves s) v (debouncedSearch s) (filter s) (loading s) (timer s) (pending s) (next_req s) (now s) (console s).
Definition set_debouncedSearch (v : string) (s : State) : State :=
  mkState (leaves s) (search s) v (filter s) (loading s) (timer s) (pending s) (next_req s) (now s) (console s).
Definition set_filter (v : string) (s : State) : State :=
  mkState (leaves s) (search s) (debouncedSearch s) v (loading s) (timer s) (pending s) (next_req s) (now s) (console s).
Definition set_loading (v : bool) (s : State) : State :=
  mkState (leaves s) (search s) (debouncedSearch s) (filter s) v (timer s) (pending s) (next_req s) (now s) (console s).
Definition set_timer (v : option (Z * string)) (s : State) : State :=
  mkState (leaves s) (search s) (debouncedSearch s) (filter s) (loading s) v (pending s) (next_req s) (now s) (console s).
Definition set_pending (v : list (nat * string)) (s : State) : State :=
  mkState (leaves s) (search s) (debouncedSearch s) (filter s) (loading s) (timer s) v (next_req s) (now s) (console s).
Definition set_next_req (v : nat) (s : State) : State :=
  mkState (leaves s) (search s) (debouncedSearch s) (filter s) (loading s) (timer s) (pending s) v (now s) (console s).
Definition set_now (v : Z) (s : State) : State :=
  mkState (leaves s) (search s) (debouncedSearch s) (filter s) (loading s) (timer s) (pending s) (next_req s) v (console s).
Definition set_console (v : list string) (s : State) : State :=
  mkState (leaves s) (search s) (debouncedSearch s) (filter s) (loading s) (timer s) (pending s) (next_req s) (now s) v.

(** ** [loadLeaves] (lines 36-57) *)

(** Lines 40-43: the object given to [URLSearchParams]. *)
Definition load_params (s : State) : list (string * string) :=
  [("search", debouncedSearch s); ("status", filter s)].

(** Line 45. *)
Definition load_url (s : State) : string :=
  String.append "/api/leaves?" (FormUrlEncoded.serialize (load_params s)).

(** Lines 38-45, up to the [await]. *)
Definition loadLeaves (s : State) : State :=
  set_next_req (S (next_req s))
    (set_pending (pending s ++ [(next_req s, load_url s)]) (set_loading true s)).

(** The load numbered [n] settles. *)
Definition settle (n : nat) (s : State) : option (string * State) :=
  match list_find (fun nr => nr.1 = n) (pending s) with
  | Some (i, (_, u)) => Some (u, set_pending (delete i (pending s)) s)
  | None => None
  end.

(** Lines 46-56, when the load settles; [finally] clears [loading]. *)
Definition finish_load (r : reply (option (list Leave))) (s : State) : State :=
  set_loading false
    match r with
    | OkJson data => set_leaves (default [] data) s
    | NotOk => set_console ("Failed to load leaves" :: console s) s
    | BadJson | NetworkError => set_console ("Error loading leaves:" :: console s) s
    end.

(** The effects after a step from [old] to [s] (lines 24-34). *)
Definition run_effects (old s : State) : State :=
  let s1 := if search old === search s then s
            else set_timer (Some (now s + 300, search s))%Z s in
  if (debouncedSearch old === debouncedSearch s) && (filter old === filter s)
  then s1 else loadLeaves s1.

(** The timer's callback (line 26), when due at time [t]. *)
Definition fire_timer (t : Z) (s : State) : State :=
  match timer s with
  | Some (due, v) =>
      if (due <=? t)%Z then run_effects s (set_debouncedSearch v (set_timer None s)) else s
  | None => s
  end.

(** ** Rendering (lines 59-72) *)

(** Line 59: [filter ? leaves.filter((l) => l.status === filter) : leaves]. *)
Definition filtered (s : State) : list Leave :=
  if filter s === "" then leaves s
  else List.filter (fun l => leave_status l === filter s) (leaves s).

(** Lines 61-72. *)
Definition getStatusColor (status : string) : string :=
  if status === "Approved" then "bg-green-100 text-green-800 dark:bg-green-900 dark:text-green-200"
  else if status === "Pending" then "bg-yellow-100 text-yellow-800 dark:bg-yellow-900 dark:text-yellow-200"
  else if status === "Rejected" then "bg-red-100 text-red-800 dark:bg-red-900 dark:text-red-200"
  else "bg-gray-100 text-gray-800 dark:bg-gray-900 dark:text-gray-200".

(** ** Events *)

Inductive event :=
| TypeSearch (v : string)                       (** line 90 *)
| SelectStatus (v : string)                     (** line 96 *)
| LoadReply (n : nat) (r : reply (option (list Leave)))
| Idle.

(** The inputs are rendered whatever [loading] is. *)
Definition handle (ev : event) (s : State) : State :=
  match ev with
  | TypeSearch v => set_search v s
  | SelectStatus v => set_filter v s
  | LoadReply n r => match settle n s with Some (_, s') => finish_load r s' | None => s end
  | Idle => s
  end.

Definition step (ev : event) (s : State) : State := run_effects s (handle ev s).

Definition tick (t : Z) (s : State) : State := set_now t (fire_timer t s).

Fixpoint run (s : State) (evs : list (Z * event)) : State :=
  match evs with
  | [] => s
  | (t, ev) :: evs' => run (step ev (tick t s)) evs'
  end.

(** The first render (lines 18-22) and its effects. *)
Definition initial (t0 : Z) : State := mkState [] "" "" "" false None [] 0 t0 [].

Definition mount (t0 : Z) : State :=
  loadLeaves (set_timer (Some (t0 + 300, ""))%Z (initial t0)).
End LeavePage.

Module LeavePageFacts.
Import LeavePage.

Lemma leave_tick_no_timer (t : Z) (s : State) : timer s = None -> tick t s = set_now t s.
Proof. intros H. unfold tick, fire_timer. by rewrite H. Qed.

(** A step that changed only the status filter loads. *)
Lemma run_effects_filter (old s : State) :
  search s = search old -> debouncedSearch s = debouncedSearch old -> filter s <> filter old ->
  run_effects old s = loadLeaves s.
Proof.
  intros H1 H2 H3. unfold run_effects. rewrite H1, H2.
  rewrite (bool_decide_eq_true_2 (search old = search old)) by done.
  rewrite (bool_decide_eq_true_2 (debouncedSearch old = debouncedSearch old)) by done.
  by rewrite (bool_decide_eq_false_2 (filter old = filter s)) by congruence.
Qed.

(** A step that changed no dependency runs no effect. *)
Lemma leave_run_effects_same (old s : State) :
  search s = search old -> debouncedSearch s = debouncedSearch old -> filter s = filter old ->
  run_effects old s = s.
Proof.
  intros H1 H2 H3. unfold run_effects. rewrite H1, H2, H3. by rewrite !bool_decide_eq_true_2.
Qed.

(** The request issued last settles by its number. *)
Lemma leave_settle_last (n : nat) (u : string) (x : State) (l : list (nat * string)) :
  pending x = l ++ [(n, u)] -> Forall (fun nr => nr.1 <> n) l ->
  settle n x = Some (u, set_pending l x).
Proof.
  intros Hp Hl. unfold settle. rewrite Hp, list_find_last by done. simpl.
  by rewrite delete_snoc.
Qed.

Lemma leave_settle_spec (n : nat) (s : State) (u : string) (s' : State) :
  settle n s = Some (u, s') ->
  exists i, pending s !! i = Some (n, u) /\ s' = set_pending (delete i (pending s)) s.
Proof.
  unfold settle. destruct (list_find _ _) as [[i [m u']]|] eqn:Hf; [|done].
  intros [= <- <-]. apply list_find_Some in Hf as (Hi & Hm & _). simpl in Hm. subst.
  by exists i.
Qed.

(** A successful load reply stores its rows and clears [loading]. *)
Lemma leave_step_load_ok (n : nat) (u : string) (d : list Leave) (s s' : State) :
  settle n s = Some (u, s') ->
  step (LoadReply n (OkJson (Some d))) s = set_loading false (set_leaves d s').
Proof.
  intros H. pose proof (leave_settle_spec _ _ _ _ H) as (i & _ & ->).
  unfold step, handle. rewrite H. by apply leave_run_effects_same.
Qed.

Lemma select_status_step (t : Z) (a : string) (s : State) :
  timer s = None -> filter s <> a ->
  step (SelectStatus a) (tick t s) = loadLeaves (set_filter a (set_now t s)).
Proof.
  intros Ht Ha. rewrite leave_tick_no_timer by done. unfold step, handle.
  apply run_effects_filter; [done | done | simpl; congruence].
Qed.

(** C31. The status select stays usable during a load, and replies are
    applied in arrival order: choosing [a] and then [b] while the first
    load is in flight, if the load for [b] answers first, the rows for
    [a] replace them.  As the endpoint answers only rows of status [a]
    to the first load, the table, which keeps the rows of status [b],
    is then empty, whatever the table holds for [b]. *)
Theorem leaves_status_race (s : State) (a b : string) (da db : list Leave) (t1 t2 t3 t4 : Z) :
  timer s = None -> Forall (fun nr => (nr.1 < next_req s)%nat) (pending s) ->
  filter s <> a -> a <> b -> b <> "" -> Forall (fun l => leave_status l = a) da ->
  let s' := run s [(t1, SelectStatus a); (t2, SelectStatus b);
                   (t3, LoadReply (S (next_req s)) (OkJson (Some db)));
                   (t4, LoadReply (next_req s) (OkJson (Some da)))] in
  leaves s' = da /\ filter s' = b /\ loading s' = false /\ pending s' = pending s /\
  filtered s' = [].
Proof.
  intros Ht Hb Hfa Hab Hbe Hda. cbv zeta. cbn [run].
  rewrite (select_status_step t1 a s) by done.
  rewrite (select_status_step t2 b) by (done || simpl; congruence).
  rewrite (leave_tick_no_timer t3) by exact Ht.
  erewrite (leave_step_load_ok (S (next_req s)) _ db);
    [| apply (leave_settle_last _ _ _ (pending s ++ [(next_req s, load_url (set_filter a (set_now t1 s)))]));
       [ reflexivity
       | apply Forall_app; split; [eapply Forall_impl; [|exact Hb]; simpl; lia | repeat constructor; simpl; lia]]].
  rewrite (leave_tick_no_timer t4) by exact Ht.
  erewrite (leave_step_load_ok (next_req s) _ da);
    [| apply (leave_settle_last _ _ _ (pending s)); [reflexivity | eapply Forall_impl; [|exact Hb]; simpl; lia]].
  cbn. repeat split.
  unfold filtered. cbn. rewrite bool_decide_eq_false_2 by done.
  induction Hda as [|l da Hl _ IH]; [done|]. simpl. rewrite Hl, bool_decide_eq_false_2 by done.
  exact IH.
Qed.
Definition settled_leaves : State := mkState [] "" "" "" false None [] 5 1000 [].

Definition pending_leave : Leave :=
  mkLeave "L1" "E1" "John Smith" "Vacation" "2024-03-01" "2024-03-05" "Pending" None None.
Definition approved_leave : Leave :=
  mkLeave "L2" "E2" "Ann Lee" "Sick" "2024-03-02" "2024-03-03" "Approved" None None.

Lemma leaves_status_race_witness :
  timer settled_leaves = None /\
  Forall (fun nr => (nr.1 < next_req settled_leaves)%nat) (pending settled_leaves) /\
  filter settled_leaves <> "Pending" /\ "Pending" <> "Approved" /\ "Approved" <> "" /\
  Forall (fun l => leave_status l = "Pending") [pending_leave] /\
  (let s' := run settled_leaves
               [(1100%Z, SelectStatus "Pending"); (1150%Z, SelectStatus "Approved");
                (1300%Z, LoadReply 6 (OkJson (Some [approved_leave])));
                (1400%Z, LoadReply 5 (OkJson (Some [pending_leave])))] in
   leaves s' = [pending_leave] /\ filter s' = "Approved" /\ loading s' = false /\
   pending s' = pending settled_leaves /\ filtered s' = []).
Proof.
  assert (Hd : Forall (fun l => leave_status l = "Pending") [pending_leave]) by (repeat constructor).
  split; [reflexivity|]. split; [constructor|]. do 3 (split; [discriminate|]). split; [exact Hd|].
  exact (leaves_status_race settled_leaves "Pending" "Approved" [pending_leave] [approved_leave]
           1100 1150 1300 1400 eq_refl (Forall_nil _) ltac:(discriminate) ltac:(discriminate)
           ltac:(discriminate) Hd).
Defined.
End LeavePageFacts.
