(* ===== verification/ProfilePage.v ===== *)
(** * The profile page

    [src/src/app/Dashboard/profile/page.tsx].  The React state of lines
    7-11 and the auth calls in flight form [State].  The mount effect
    (lines 13-29) asks the auth provider for the user and fills both the
    edited and the original profile; [handleChange] (lines 31-33) edits
    the name (the e-mail input is read-only, lines 101-106, so it sends
    no change); [handleSave] (lines 35-59) sends the edited name captured
    when the button was clicked and, after the reply, records the
    outcome; [handleCancel] (lines 61-65) restores the original.  The
    buttons exist only in one branch of [hasChanges] (lines 122-146) and
    Save and Cancel are disabled while [isSaving]. *)

From stdpp Require Import base list strings decidable.
From Stdlib Require Import Ascii String ZArith Lia.
From S2P Require Import Prelude JsString.

Module Profile.

Record profile := mkProfile { p_email : string; p_name : string }.

(** What [auth.getUser()] returns of a user: its e-mail and the [name]
    of its metadata, each possibly absent. *)
Record user := mkUser { u_email : option string; u_name : option string }.

(** The auth calls in flight; an update carries the profile its
    [handleSave] closure captured. *)
Inductive Request :=
| RGetUser
| RUpdate (saved : profile).

(** How [auth.updateUser] settles: no error, an error object, or a
    rejected promise. *)
Inductive update_reply :=
| UOk
| UErr (msg : string)
| UThrow.

Record State := mkState {
  current : profile;                     (** [profile] *)
  original : profile;                    (** [originalProfile] *)
  isEditing : bool;
  isSaving : bool;
  saveMessage : string;
  pending : list (nat * Request);
  next_req : nat
}.

Definition issue (r : Request) (s : State) : State :=
  mkState (current s) (original s) (isEditing s) (isSaving s) (saveMessage s)
          (pending s ++ [(next_req s, r)]) (S (next_req s)).

Definition settle (n : nat) (s : State) : option (Request * State) :=
  match list_find (fun nr => nr.1 = n) (pending s) with
  | Some (i, (_, r)) =>
      Some (r, mkState (current s) (original s) (isEditing s) (isSaving s) (saveMessage s)
                       (delete i (pending s)) (next_req s))
  | None => None
  end.

(** ** Handlers *)

(** Lines 19-26: [user.email ?? ''] and [user_metadata?.name ?? '']. *)
Definition finish_getUser (u : option user) (s : State) : State :=
  match u with
  | Some u =>
      let p := mkProfile (default "" (u_email u)) (default "" (u_name u)) in
      mkState p p (isEditing s) (isSaving s) (saveMessage s) (pending s) (next_req s)
  | None => s
  end.

(** Lines 31-33 for the only editable input, [name]. *)
Definition handleChange (v : string) (s : State) : State :=
  mkState (mkProfile (p_email (current s)) v) (original s) (isEditing s) (isSaving s)
          (saveMessage s) (pending s) (next_req s).

(** Lines 35-45, up to the [await]. *)
Definition handleSave (s : State) : State :=
  issue (RUpdate (current s))
        (mkState (current s) (original s) (isEditing s) true "" (pending s) (next_req s)).

(** Lines 47-58, when the update settles; [finally] clears [isSaving]. *)
Definition finish_save (saved : profile) (r : update_reply) (s : State) : State :=
  match r with
  | UErr m =>
      mkState (current s) (original s) (isEditing s) false
              (String.append "Error saving profile: " m) (pending s) (next_req s)
  | UOk =>
      mkState (current s) saved false false "Profile saved successfully!" (pending s) (next_req s)
  | UThrow =>
      mkState (current s) (original s) (isEditing s) false
              "Error saving profile. Please try again." (pending s) (next_req s)
  end.

(** Lines 61-65. *)
Definition handleCancel (s : State) : State :=
  mkState (original s) (original s) false (isSaving s) "" (pending s) (next_req s).

(** ** Rendering *)

(** Line 67. *)
Definition hasChanges (s : State) : bool := negb (p_name (current s) === p_name (original s)).

(** Lines 68-70: [name ? name.charAt(0).toUpperCase() : 'U']. *)
Definition getInitials (name : string) : string :=
  if name === "" then "U" else toUpperCase (charAt0 name).

(** Line 112: the message is styled as an error when it contains
    [Error]. *)
Definition message_is_error (s : State) : bool := includes (saveMessage s) "Error".

(** ** Events *)

Inductive event :=
| UserReply (n : nat) (u : option user)
| TypeName (v : string)                    (** line 94 *)
| ClickSave                                (** line 125 *)
| ClickCancel                              (** line 132 *)
| ClickEdit                                (** line 141 *)
| SaveReply (n : nat) (r : update_reply).

(** The buttons a render offers: Save and Cancel when the name changed
    and no save runs, Edit otherwise. *)
Definition handle (ev : event) (s : State) : State :=
  match ev with
  | UserReply n u =>
      match settle n s with Some (RGetUser, s') => finish_getUser u s' | _ => s end
  | TypeName v => handleChange v s
  | ClickSave => if hasChanges s && negb (isSaving s) then handleSave s else s
  | ClickCancel => if hasChanges s && negb (isSaving s) then handleCancel s else s
  | ClickEdit =>
      if hasChanges s then s
      else mkState (current s) (original s) true (isSaving s) (saveMessage s) (pending s) (next_req s)
  | SaveReply n r =>
      match settle n s with Some (RUpdate p, s') => finish_save p r s' | _ => s end
  end.

Fixpoint run (s : State) (evs : list event) : State :=
  match evs with [] => s | ev :: evs' => run (handle ev s) evs' end.

(** The first render (lines 7-11) and the mount effect's call. *)
Definition initial : State :=
  mkState (mkProfile "" "") (mkProfile "" "") false false "" [] 0.

Definition mount : State := issue RGetUser initial.
End Profile.

Module ProfileFacts.
Import Profile.

Inductive reachable : State -> Prop :=
| reach_mount : reachable mount
| reach_step (s : State) (ev : event) : reachable s -> reachable (handle ev s).

Definition is_update (r : Request) : bool :=
  match r with RUpdate _ => true | RGetUser => false end.

(** The number of updates in flight. *)
Definition updates (s : State) : nat :=
  List.length (List.filter (fun nr => is_update nr.2) (pending s)).

(** Request numbers stay below the counter, and [isSaving] says exactly
    whether the one update in flight exists. *)
Definition pinv_below_of (s : State) : Prop :=
  Forall (fun nr => (nr.1 < next_req s)%nat) (pending s).

Record pinv (s : State) : Prop := {
  pinv_below : pinv_below_of s;
  pinv_updates : updates s = if isSaving s then 1%nat else 0%nat
}.

Lemma profile_settle_spec (n : nat) (s : State) (r : Request) (s' : State) :
  settle n s = Some (r, s') ->
  exists i, pending s !! i = Some (n, r) /\
    s' = mkState (current s) (original s) (isEditing s) (isSaving s) (saveMessage s)
                 (delete i (pending s)) (next_req s).
Proof.
  unfold settle. destruct (list_find _ _) as [[i [m r']]|] eqn:Hf; [|done].
  intros [= <- <-]. apply list_find_Some in Hf as (Hi & Hm & _). simpl in Hm. subst.
  by exists i.
Qed.

(** Settling request [n] of kind [r] removes one update if [r] is one,
    and keeps the numbers below the counter. *)
Lemma settle_updates (n : nat) (s : State) (r : Request) (s' : State) :
  settle n s = Some (r, s') -> pinv_below_of s ->
  (updates s' + (if is_update r then 1 else 0) = updates s)%nat /\ pinv_below_of s' /\
  isSaving s' = isSaving s.
Proof.
  intros Hs Hb. destruct (profile_settle_spec _ _ _ _ Hs) as (i & Hi & ->). split; [|split; [|done]].
  - exact (filter_length_delete (fun nr => is_update nr.2) _ _ _ Hi).
  - by apply Forall_delete.
Qed.

Lemma pinv_same (s s' : State) :
  pending s' = pending s -> next_req s' = next_req s -> isSaving s' = isSaving s ->
  pinv s -> pinv s'.
Proof.
  intros Hp Hn Hs [Hb Hu]. split; unfold pinv_below_of, updates in *; rewrite ?Hp, ?Hn, ?Hs; done.
Qed.

Ltac pinv_same H :=
  match type of H with pinv ?s0 => apply (pinv_same s0); [reflexivity | reflexivity | reflexivity | exact H] end.

Lemma handle_pinv (ev : event) (s : State) : pinv s -> pinv (handle ev s).
Proof.
  intros Hi. pose proof Hi as [Hb Hu].
  destruct ev as [n u|v| | | |n r]; simpl;
    repeat match goal with |- pinv (if ?b then _ else _) => destruct b eqn:? end;
    try (pinv_same Hi).
  - destruct (settle n s) as [[[|p] s']|] eqn:E; try (pinv_same Hi).
    destruct (settle_updates _ _ _ _ E Hb) as (Hc & Hb' & Hsv). simpl in Hc.
    assert (Hi' : pinv s') by (split; [exact Hb' | rewrite Hsv, <- Hu; lia]).
    destruct u; [pinv_same Hi' | exact Hi'].
  - match goal with H : hasChanges s && negb (isSaving s) = true |- _ =>
      apply andb_prop in H as [_ Hns]; apply negb_true_iff in Hns end.
    split; simpl.
    + apply Forall_app. split; [|repeat constructor; simpl; lia].
      eapply Forall_impl; [|exact Hb]. simpl. lia.
    + unfold updates in *. simpl. rewrite Hns in Hu. rewrite filter_app, length_app, Hu. done.
  - destruct (settle n s) as [[[|p] s']|] eqn:E; try (pinv_same Hi).
    destruct (settle_updates _ _ _ _ E Hb) as (Hc & Hb' & Hsv). simpl in Hc.
    assert (isSaving s = true) as Hsave by (destruct (isSaving s); lia).
    rewrite Hsave in Hu. destruct r; split; try exact Hb'; unfold updates in *; simpl; lia.
Qed.

(** C27. Unlike the directory's form, the profile's save cannot be sent
    twice: in every reachable state exactly one [updateUser] call is in
    flight while [isSaving] holds and none otherwise, and request
    numbers stay below the counter. *)
Theorem profile_single_save (s : State) : reachable s -> pinv s.
Proof.
  induction 1 as [|s ev _ IH]; [| by apply handle_pinv].
  split; [repeat constructor; simpl; lia | reflexivity].
Qed.

Lemma profile_single_save_witness :
  reachable (run mount [TypeName "Ann"; ClickSave]) /\ pinv (run mount [TypeName "Ann"; ClickSave]).
Proof.
  assert (H : reachable (run mount [TypeName "Ann"; ClickSave])) by (do 2 apply reach_step; apply reach_mount).
  split; [exact H | exact (profile_single_save _ H)].
Defined.
(** The update issued last settles by its number. *)
Lemma profile_settle_last (n : nat) (r : Request) (x : State) (l : list (nat * Request)) :
  pending x = l ++ [(n, r)] -> Forall (fun nr => nr.1 <> n) l ->
  settle n x = Some (r, mkState (current x) (original x) (isEditing x) (isSaving x)
                                (saveMessage x) l (next_req x)).
Proof.
  intros Hp Hl. unfold settle. rewrite Hp, list_find_last by done. simpl.
  by rewrite delete_snoc.
Qed.

(** C32. A successful save commits the name captured when Save was
    clicked: the original becomes that profile, the success message is
    shown and saving ends; a name typed while the save was in flight
    stays in the input (and counts as a change again). *)
Theorem save_commits_clicked_name (s : State) (w : string) :
  pinv s -> hasChanges s = true -> isSaving s = false ->
  let s' := run s [ClickSave; TypeName w; SaveReply (next_req s) UOk] in
  original s' = current s /\ p_name (current s') = w /\ isSaving s' = false /\
  saveMessage s' = "Profile saved successfully!" /\ pending s' = pending s.
Proof.
  intros [Hb _] Hc Hs. cbv zeta. cbn [run].
  replace (handle ClickSave s) with (handleSave s) by (simpl; by rewrite Hc, Hs).
  cbn [handle].
  rewrite (profile_settle_last (next_req s) (RUpdate (current s)) _ (pending s)); [| reflexivity |].
  - cbn. by repeat split.
  - eapply Forall_impl; [|exact Hb]. simpl. lia.
Qed.

(** C33. The user record the mount effect asked for overwrites whatever
    was typed before it arrived: the typed name is lost and the page
    shows no change to save. *)
Theorem late_user_overwrites_edit (v : string) (u : user) :
  let s := run mount [TypeName v; UserReply 0 (Some u)] in
  current s = mkProfile (default "" (u_email u)) (default "" (u_name u)) /\ hasChanges s = false.
Proof.
  cbv zeta. split; [reflexivity|]. unfold hasChanges. simpl. by rewrite bool_decide_eq_true_2.
Qed.

(** C34. The message after a save is styled as an error exactly when the
    save failed, whatever message the auth provider gave. *)
Theorem save_message_reports_failure (s s' : State) (n : nat) (p : profile) (r : update_reply) :
  settle n s = Some (RUpdate p, s') ->
  message_is_error (handle (SaveReply n r) s) = match r with UOk => false | _ => true end.
Proof.
  intros E. simpl. rewrite E. destruct r as [|m|]; [reflexivity| |reflexivity].
  unfold message_is_error. simpl saveMessage. by apply includes_app_l.
Qed.

Lemma save_commits_clicked_name_witness :
  pinv (run mount [UserReply 0 (Some (mkUser (Some "a@x.com") (Some "Ann"))); TypeName "Anna"]) /\
  hasChanges (run mount [UserReply 0 (Some (mkUser (Some "a@x.com") (Some "Ann"))); TypeName "Anna"]) = true /\
  isSaving (run mount [UserReply 0 (Some (mkUser (Some "a@x.com") (Some "Ann"))); TypeName "Anna"]) = false /\
  (let s0 := run mount [UserReply 0 (Some (mkUser (Some "a@x.com") (Some "Ann"))); TypeName "Anna"] in
   let s' := run s0 [ClickSave; TypeName "Annabel"; SaveReply (next_req s0) UOk] in
   original s' = current s0 /\ p_name (current s') = "Annabel" /\ isSaving s' = false /\
   saveMessage s' = "Profile saved successfully!" /\ pending s' = pending s0).
Proof.
  set (s0 := run mount [UserReply 0 (Some (mkUser (Some "a@x.com") (Some "Ann"))); TypeName "Anna"]).
  assert (Hi : pinv s0) by (split; [repeat constructor | reflexivity]).
  split; [exact Hi|]. split; [reflexivity|]. split; [reflexivity|].
  exact (save_commits_clicked_name s0 "Annabel" Hi eq_refl eq_refl).
Defined.

Lemma save_message_reports_failure_witness :
  settle 1 (run mount [TypeName "Ann"; ClickSave]) =
    Some (RUpdate (mkProfile "" "Ann"),
          mkState (mkProfile "" "Ann") (mkProfile "" "") false true "" [(0%nat, RGetUser)] 2) /\
  message_is_error (handle (SaveReply 1 (UErr "timeout")) (run mount [TypeName "Ann"; ClickSave])) = true.
Proof.
  assert (E : settle 1 (run mount [TypeName "Ann"; ClickSave]) =
    Some (RUpdate (mkProfile "" "Ann"),
          mkState (mkProfile "" "Ann") (mkProfile "" "") false true "" [(0%nat, RGetUser)] 2))
    by reflexivity.
  split; [exact E|]. exact (save_message_reports_failure _ _ 1 _ (UErr "timeout") E).
Defined.
End ProfileFacts.
