(* ===== verification/LoginPage.v ===== *)
(** * The login page ([/])

    [src/src/app/page.tsx].  The React state of lines 11-15, the auth
    call in flight and the router's target form [State].  The inputs are
    uncontrolled: each change stores its text (lines 56 and 66).
    Submitting the form (line 49) is blocked by the browser unless both
    inputs are filled and the e-mail is valid ([required],
    [type="email"]), and the button is disabled while [loading] (line
    73).  [handleLogin] (lines 17-41) signs up or signs in according to
    the mode when it was called; after the reply it shows the provider's
    error, the confirmation text, or navigates to [/Dashboard].  The
    toggle (lines 82-85) flips the mode and clears the message. *)

From stdpp Require Import base list strings decidable.
From Stdlib Require Import Ascii String ZArith Lia.
From S2P Require Import Prelude JsString UrlParams Schema SessionGate EmployeeDirectory.

Module Login.

(** The auth call in flight, with the mode its [handleLogin] saw. *)
Inductive Request :=
| RSignUp (email password : string)
| RSignIn (email password : string).

(** How an auth call settles: no error, or an error with its message. *)
Inductive auth_reply :=
| AuthOk
| AuthErr (msg : string).

Record State := mkState {
  email : string;
  password : string;
  error : string;
  isSignup : bool;
  loading : bool;
  pending : list (nat * Request);
  next_req : nat;
  route : option string                    (** the last [router.push] target *)
}.

Definition set_error (v : string) (s : State) : State :=
  mkState (email s) (password s) v (isSignup s) (loading s) (pending s) (next_req s) (route s).
Definition set_loading (v : bool) (s : State) : State :=
  mkState (email s) (password s) (error s) (isSignup s) v (pending s) (next_req s) (route s).

(** The confirmation text of line 29. *)
Definition confirm_text : string := "Check your email for confirmation link!".

(** Lines 18-25 and 31-32, up to the [await]. *)
Definition handleLogin (s : State) : State :=
  let r := if isSignup s then RSignUp (email s) (password s) else RSignIn (email s) (password s) in
  mkState (email s) (password s) "" (isSignup s) true (pending s ++ [(next_req s, r)])
          (S (next_req s)) (route s).

(** Lines 26-40, when the call settles. *)
Definition finish_login (r : Request) (a : auth_reply) (s : State) : State :=
  set_loading false
    match r, a with
    | _, AuthErr m => set_error m s
    | RSignUp _ _, AuthOk => set_error confirm_text s
    | RSignIn _ _, AuthOk =>
        mkState (email s) (password s) (error s) (isSignup s) (loading s) (pending s)
                (next_req s) (Some "/Dashboard")
    end.

Definition settle (n : nat) (s : State) : option (Request * State) :=
  match list_find (fun nr => nr.1 = n) (pending s) with
  | Some (i, (_, r)) =>
      Some (r, mkState (email s) (password s) (error s) (isSignup s) (loading s)
                       (delete i (pending s)) (next_req s) (route s))
  | None => None
  end.

(** What the browser's constraint validation requires before it fires
    [onSubmit]: both inputs filled, the e-mail valid. *)
Definition can_submit (s : State) : bool :=
  negb (loading s) && Directory.valid_email (email s) && negb (password s === "").

(** Line 70: the message paragraph is rendered when [error] is
    non-empty, always in the destructive (error) style. *)
Definition error_shown (s : State) : bool := negb (error s === "").

Inductive event :=
| TypeEmail (v : string)                   (** line 56 *)
| TypePassword (v : string)                (** line 66 *)
| Submit                                   (** line 49 *)
| Toggle                                   (** lines 82-85 *)
| AuthReply (n : nat) (a : auth_reply).

Definition handle (ev : event) (s : State) : State :=
  match ev with
  | TypeEmail v =>
      mkState v (password s) (error s) (isSignup s) (loading s) (pending s) (next_req s) (route s)
  | TypePassword v =>
      mkState (email s) v (error s) (isSignup s) (loading s) (pending s) (next_req s) (route s)
  | Submit => if can_submit s then handleLogin s else s
  | Toggle =>
      mkState (email s) (password s) "" (negb (isSignup s)) (loading s) (pending s)
              (next_req s) (route s)
  | AuthReply n a =>
      match settle n s with Some (r, s') => finish_login r a s' | None => s end
  end.

Fixpoint run (s : State) (evs : list event) : State :=
  match evs with [] => s | ev :: evs' => run (handle ev s) evs' end.

Definition initial : State := mkState "" "" "" false false [] 0 None.
End Login.

Module LoginFacts.
Import Login Middleware.

Lemma login_settle_last (n : nat) (r : Request) (x : State) (l : list (nat * Request)) :
  pending x = l ++ [(n, r)] -> Forall (fun nr => nr.1 <> n) l ->
  settle n x = Some (r, mkState (email x) (password x) (error x) (isSignup x) (loading x) l
                                (next_req x) (route x)).
Proof.
  intros Hp Hl. unfold settle. rewrite Hp, list_find_last by done. simpl.
  by rewrite delete_snoc.
Qed.

Lemma submit_login (s : State) : can_submit s = true -> handle Submit s = handleLogin s.
Proof. intros H. simpl. by rewrite H. Qed.

(** C35. Signing in: submitting a valid form in sign-in mode clears the
    message, sets [loading] and sends exactly the typed e-mail and
    password to [signInWithPassword]; when the provider accepts them the
    page navigates to [/Dashboard], and when it refuses them with a
    message the page shows that message and stays; either way [loading]
    ends and the request is settled. *)
Theorem signin_reaches_dashboard (s : State) (a : auth_reply) :
  can_submit s = true -> isSignup s = false ->
  Forall (fun nr => (nr.1 < next_req s)%nat) (pending s) ->
  let s1 := handle Submit s in
  pending s1 = pending s ++ [(next_req s, RSignIn (email s) (password s))] /\
  loading s1 = true /\ error s1 = "" /\
  let s2 := handle (AuthReply (next_req s) a) s1 in
  route s2 = (match a with AuthOk => Some "/Dashboard" | AuthErr _ => route s end) /\
  error s2 = (match a with AuthOk => "" | AuthErr m => m end) /\
  loading s2 = false /\ pending s2 = pending s.
Proof.
  intros Hc Hm Hb. cbv zeta. rewrite (submit_login s Hc). unfold handleLogin. rewrite Hm.
  do 3 (split; [reflexivity|]).
  cbn [handle].
  rewrite (login_settle_last (next_req s) (RSignIn (email s) (password s)) _ (pending s));
    [| reflexivity |].
  - destruct a; cbn; by repeat split.
  - eapply Forall_impl; [|exact Hb]. simpl. lia.
Qed.

(** C36. A successful sign-up is reported through the error paragraph:
    the confirmation text is the [error] state, rendered in the error
    style, and no navigation happens. *)
Theorem signup_success_shown_as_error (s : State) :
  can_submit s = true -> isSignup s = true ->
  Forall (fun nr => (nr.1 < next_req s)%nat) (pending s) ->
  let s' := run s [Submit; AuthReply (next_req s) AuthOk] in
  error s' = confirm_text /\ error_shown s' = true /\ route s' = route s /\ loading s' = false.
Proof.
  intros Hc Hm Hb. cbv zeta. cbn [run]. rewrite (submit_login s Hc).
  cbn [handle]. unfold handleLogin. rewrite Hm.
  rewrite (login_settle_last (next_req s) (RSignUp (email s) (password s)) _ (pending s)); [| reflexivity |].
  - cbn. by repeat split.
  - eapply Forall_impl; [|exact Hb]. simpl. lia.
Qed.

Definition filled : State := mkState "ann@x.com" "secret" "" false false [] 0 None.

Lemma signin_reaches_dashboard_witness :
  can_submit filled = true /\ isSignup filled = false /\
  Forall (fun nr => (nr.1 < next_req filled)%nat) (pending filled) /\
  (let s1 := handle Submit filled in
   pending s1 = pending filled ++ [(next_req filled, RSignIn (email filled) (password filled))] /\
   loading s1 = true /\ error s1 = "" /\
   let s2 := handle (AuthReply (next_req filled) AuthOk) s1 in
   route s2 = Some "/Dashboard" /\ error s2 = "" /\
   loading s2 = false /\ pending s2 = pending filled).
Proof.
  assert (Hc : can_submit filled = true) by (vm_compute; reflexivity).
  split; [exact Hc|]. split; [reflexivity|]. split; [constructor|].
  exact (signin_reaches_dashboard filled AuthOk Hc eq_refl (Forall_nil _)).
Defined.

Lemma signup_success_shown_as_error_witness :
  can_submit (handle Toggle filled) = true /\ isSignup (handle Toggle filled) = true /\
  Forall (fun nr => (nr.1 < next_req (handle Toggle filled))%nat) (pending (handle Toggle filled)) /\
  (let s' := run (handle Toggle filled) [Submit; AuthReply (next_req (handle Toggle filled)) AuthOk] in
   error s' = confirm_text /\ error_shown s' = true /\ route s' = route (handle Toggle filled) /\
   loading s' = false).
Proof.
  assert (Hc : can_submit (handle Toggle filled) = true) by (vm_compute; reflexivity).
  split; [exact Hc|]. split; [reflexivity|]. split; [constructor|].
  exact (signup_success_shown_as_error (handle Toggle filled) Hc eq_refl (Forall_nil _)).
Defined.
End LoginFacts.
