(* ===== verification/DashboardLayout.v ===== *)
(** * The dashboard layout and the theme context

    [src/src/app/Dashboard/layout.tsx] wraps every dashboard page: a
    theme toggle (lines 14-28), four navigation links (lines 30-55) and
    the sign-out form posting to [/api/auth/signout] (lines 56-60).  The
    theme comes from [useTheme()] of [app/contexts/ThemeContext], which
    is not among the repository's sources: [theme] and [toggleTheme] are
    modelled from the spec (a light/dark value with a default, flipped
    by the toggle). *)

From stdpp Require Import base list strings decidable.
From Stdlib Require Import Ascii String ZArith Lia.
From S2P Require Import Prelude JsString SessionGate.

Module Layout.

(** The context's value (spec, section 9). *)
Inductive theme := Light | Dark.

Definition default_theme : theme := Light.

Definition toggleTheme (t : theme) : theme :=
  match t with Light => Dark | Dark => Light end.

Definition theme_name (t : theme) : string :=
  match t with Light => "light" | Dark => "dark" end.

(** Line 17: [`Switch to ${theme === 'light' ? 'dark' : 'light'} mode`]. *)
Definition toggle_title (t : theme) : string :=
  String.append "Switch to "
    (String.append (match t with Light => "dark" | Dark => "light" end) " mode").

(** Lines 19-27: the moon icon in light mode, the sun in dark mode. *)
Inductive icon := Moon | Sun.
Definition toggle_icon (t : theme) : icon := match t with Light => Moon | Dark => Sun end.

(** Lines 31-54: the [href]s of the navigation. *)
Definition nav_links : list string :=
  ["/Dashboard"; "/Dashboard/employee-directory"; "/Dashboard/leave-requests"; "/Dashboard/profile"].

(** Line 56: the sign-out form's action and method. *)
Definition signout_action : string * string := ("/api/auth/signout", "post").
End Layout.
