(* ===== verification/LoadContract.v ===== *)
(** * The load request: the directory page against [GET /api/employees]

    [loadEmployees] (employee-directory/page.tsx lines 45-66) sends its
    committed search, department and status as a query string; the
    endpoint (employees/route.ts lines 6-11) reads them back and answers
    one page of rows, which the page stores and filters again on its
    own (lines 69-79).  This file composes the two models: what the
    endpoint reads from the page's URL, when the page's filter and the
    endpoint's query are the same test, how the page's filter treats
    the rows the endpoint chose, and the size of the snapshot.  Module
    [LeaveLoadContract] does the same for the leave requests page and
    [GET /api/leaves]. *)

From stdpp Require Import base list strings decidable.
From Stdlib Require Import Ascii String ZArith Lia.
From S2P Require Import Prelude JsString JsNumber UrlParams Schema DataService EmployeesApi LeavesApi EmployeeDirectory LeaveRequests.

Module LoadContract.
Import Postgrest EmployeesRoute EmployeesSpec EmployeesRouteFacts Directory DirectoryFacts.

(** ** What the endpoint reads *)

(** The pairs GET reads from [new URL(request.url).searchParams]
    (employees/route.ts line 6) when the request is the page's
    [fetch(`/api/employees?${params}`)] (page.tsx line 55). *)
Definition load_query (s : State) : list (string * string) :=
  FormUrlEncoded.url_search (load_url s).

(** The row tests of the query GET builds for that request: the
    conditions of lines 24-36 compiled by the data service. *)
Definition load_conditions (s : State) : option (list (Employee -> bool)) :=
  mapM compile (q_filters (build_query (read_params (load_query s)))).

(** The query of the load URL is the serialized parameter object. *)
Lemma load_url_search (s : State) : load_query s = load_params s.
Proof.
  unfold load_query, load_url.
  change "/api/employees?" with (String.append "/api/employees" "?").
  rewrite <- append_assoc_str. by apply FormUrlEncoded.url_search_build.
Qed.

(** The three pairs the page sends, read by lines 7-11. *)
Lemma read_params_filters (q d st : string) :
  read_params [("search", q); ("department", d); ("status", st)] =
    mk_params (Int 1) (Int 20) q d st.
Proof.
  set (kvs := [("search", q); ("department", d); ("status", st)]).
  assert (FormUrlEncoded.get kvs "page" = None /\ FormUrlEncoded.get kvs "limit" = None /\
          FormUrlEncoded.get kvs "search" = Some q /\ FormUrlEncoded.get kvs "department" = Some d /\
          FormUrlEncoded.get kvs "status" = Some st) as (H1 & H2 & H3 & H4 & H5)
    by (repeat split).
  unfold read_params. by rewrite H1, H2, H3, H4, H5, !or_default_self.
Qed.

(** C4. The filters the page sends are the filters the endpoint reads:
    the committed search text, the department and the status come back
    byte for byte, whatever they contain, and page and limit take their
    defaults 1 and 20. *)
Theorem endpoint_reads_load_params (s : State) :
  read_params (load_query s) =
    mk_params (Int 1) (Int 20) (debouncedSearch s) (department s) (status s).
Proof. rewrite load_url_search. apply read_params_filters. Qed.

(** ** The page's filter on the endpoint's rows *)

(** Every row of a 200 answer to the load URL is one the contract
    selects, when the search holds no PostgREST syntax. *)
Lemma load_rows_match (t : list Employee) (s : State) (env : envelope) :
  safe_search (debouncedSearch s) = true ->
  GET true t (load_query s) = Ok200 env ->
  Forall (fun r => spec_match (debouncedSearch s) (department s) (status s) r = true)
    (env_employees env).
Proof.
  intros Hs Hg. destruct (GET_ok_rows _ _ _ _ Hg) as (ps & Hc & ->).
  rewrite load_url_search in Hc. unfold load_params in Hc. rewrite read_params_filters in Hc.
  destruct (build_query_filters (mk_params (Int 1) (Int 20) (debouncedSearch s) (department s)
                                           (status s)) Hs) as (ps' & Hc' & Ha).
  rewrite Hc in Hc'. injection Hc' as <-.
  apply Forall_forall. intros r Hr%list_elem_of_In%elem_of_window.
  rewrite (order_by_perm "created_at" false (matching ps t)) in Hr.
  unfold matching in Hr. apply list_elem_of_In, filter_In in Hr as [_ Hr].
  specialize (Ha r). cbn [p_search p_department p_status] in Ha. by rewrite <- Ha.
Qed.

(** C14. Rows the endpoint answers for the page's own load are all shown:
    when the reply to the load of the current filters arrives, it
    becomes the snapshot and the page's filter hides none of its rows,
    provided the search holds no PostgREST syntax ([,], [(], [)], [%],
    [_], [*], [\]). *)
Theorem loaded_rows_all_shown (t : list Employee) (s s' : State) (n : nat) (env : envelope) :
  safe_search (debouncedSearch s) = true ->
  settle n s = Some (RLoad (load_url s), s') ->
  GET true t (load_query s) = Ok200 env ->
  let s2 := step (LoadReply n (OkJson (Some (env_employees env)))) s in
  employees s2 = env_employees env /\ filtered s2 = employees s2.
Proof.
  intros Hs Hn Hg. cbv zeta. rewrite (step_load_ok n _ _ s s' Hn).
  destruct (settle_spec _ _ _ _ Hn) as (i & _ & ->). split; [reflexivity|].
  unfold filtered. cbn [employees debouncedSearch department status set_loading set_employees set_pending].
  apply filter_bool_id. eapply Forall_impl; [|exact (load_rows_match t s env Hs Hg)].
  intros r. unfold spec_match, row_visible. intros [[Hq Hd]%andb_prop Hst]%andb_prop.
  rewrite Hd, Hst, !andb_true_r. unfold matchesQuery.
  apply orb_prop in Hq as [Hq | Hq].
  - apply bool_decide_eq_true_1 in Hq as ->. apply includes_empty.
  - unfold field_match in Hq. apply existsb_exists in Hq as (f & Hf & Hin).
    eapply includes_trans; [|exact Hin]. by apply includes_toLowerCase, join_includes.
Qed.

(** C18. The page never asks for another page: its load sends no [page]
    or [limit], so whatever the table holds the snapshot has at most 20
    rows, and the page's search, filters and table never show the rest
    ([hasMore] and [totalPages] of the answer are not read). *)
Theorem snapshot_at_most_20 (t : list Employee) (s : State) (env : envelope) :
  GET true t (load_query s) = Ok200 env ->
  (List.length (env_employees env) <= 20)%nat.
Proof.
  intros Hg. destruct (GET_ok_rows _ _ _ _ Hg) as (ps & _ & ->).
  rewrite load_url_search. unfold load_params. rewrite read_params_filters.
  rewrite (build_query_window_Int _ 1 20) by done. rewrite length_take.
  etransitivity; [apply Nat.le_min_l | vm_compute; lia].
Qed.

(** ** The two filters compared *)

(** For a search without a space, the page's test on the joined text is
    the spec's per-field test: such a text cannot straddle the spaces
    [join(" ")] puts between the fields. *)
Lemma matchesQuery_field_match (q : string) (e : Employee) :
  no_byte " " q = true -> matchesQuery q e = (q === "") || field_match q e.
Proof.
  intros Hq. unfold matchesQuery, field_match.
  case_bool_decide as Hem; [subst; exact (includes_empty _)|].
  rewrite toLowerCase_join_space, includes_join_sep; [reflexivity | discriminate |].
  by rewrite no_byte_space_lower.
Qed.

(** C38. The page's filter (lines 69-79) and the endpoint's query for the
    page's own load (employees/route.ts lines 24-36) are the same test
    on every row, for any department and status, when the committed
    search holds no PostgREST syntax and no space. *)
Theorem page_filter_equiv_endpoint (s : State) :
  safe_search (debouncedSearch s) = true -> no_byte " " (debouncedSearch s) = true ->
  exists ps, load_conditions s = Some ps /\
    accepts ps (row_visible (debouncedSearch s) (department s) (status s)).
Proof.
  intros Hs Hsp. unfold load_conditions. rewrite load_url_search. unfold load_params.
  rewrite read_params_filters.
  destruct (build_query_filters (mk_params (Int 1) (Int 20) (debouncedSearch s) (department s)
                                           (status s)) Hs) as (ps & Hc & Ha).
  exists ps. split; [exact Hc|]. intros e. rewrite (Ha e).
  unfold spec_match, row_visible. cbn [p_search p_department p_status].
  by rewrite matchesQuery_field_match.
Qed.

(** With a space the two differ: the page matches across the boundary of
    two fields, which no column's [ilike] does. *)
Example space_search_spans_fields :
  let e := mkEmployee "E1" "Ann Lee" "ann@x.com" "Sales" "Lead" "Active" None None in
  matchesQuery "lee ann" e = true /\ field_match "lee ann" e = false.
Proof. split; reflexivity. Qed.

(** C19. The endpoint's [ilike] reads [_] in the search as "any one
    character", the page's [includes] reads it as itself: for every
    search [x_y] (no other PostgREST syntax, no space) and every employee
    whose name contains [x], some character, then [y], the endpoint's
    query for the page's load accepts the employee, yet when no field
    holds [x_y] literally the page's filter hides it. *)
Theorem wildcard_search_hides_rows (s : State) (x y : string) (c : ascii) (e : Employee) :
  debouncedSearch s = String.append x (String "_" y) ->
  safe_search x = true -> safe_search y = true ->
  no_byte " " x = true -> no_byte " " y = true ->
  department s = "" -> status s = "" ->
  includes (toLowerCase (emp_name e)) (toLowerCase (String.append x (String c y))) = true ->
  field_match (debouncedSearch s) e = false ->
  exists ps, load_conditions s = Some ps /\ forallb (fun p => p e) ps = true /\
    row_visible (debouncedSearch s) (department s) (status s) e = false.
Proof.
  intros Hq Hx Hy Hsx Hsy Hd Hst Hin Hf.
  pose proof Hx as [[[Hpx _]%andb_prop _]%andb_prop _]%andb_prop.
  pose proof Hy as [[[Hpy _]%andb_prop _]%andb_prop _]%andb_prop.
  assert (Hne : String.append x (String "_" y) <> "") by (destruct x; discriminate).
  destruct (search_or_compiles search_columns (String.append x (String "_" y)))
    as (ps & Hc & Ha); [done | repeat constructor; done |
    | ].
  { apply spliceable_safe in Hx, Hy. unfold spliceable in *.
    rewrite !no_byte_append. simpl. rewrite !andb_true_iff in *. tauto. }
  exists ps. split; [|split].
  - unfold load_conditions. rewrite load_url_search. unfold load_params.
    rewrite read_params_filters, Hd, Hst, Hq. cbn [build_query q_filters p_search p_department p_status].
    rewrite (bool_decide_eq_true_2 ("" = "")), !app_nil_r by done. exact Hc.
  - rewrite (Ha e), bool_decide_eq_false_2 by exact Hne. simpl.
    by rewrite (Like.ilike_wildcard x y (emp_name e) c).
  - unfold row_visible. rewrite Hd, Hst, Hq, matchesQuery_field_match.
    + rewrite <- Hq, Hf, Hq, bool_decide_eq_false_2 by exact Hne. reflexivity.
    + rewrite no_byte_append. simpl. by rewrite Hsx, Hsy.
Qed.

(** A load from a settled page, answered from the sample table. *)
Definition loading_state : State := loadEmployees settled_state.

Lemma loaded_rows_all_shown_witness :
  safe_search (debouncedSearch loading_state) = true /\
  settle 3 loading_state = Some (RLoad (load_url loading_state), set_pending [] loading_state) /\
  exists env,
    GET true sample_table (load_query loading_state) = Ok200 env /\
    (let s2 := step (LoadReply 3 (OkJson (Some (env_employees env)))) loading_state in
     employees s2 = env_employees env /\ filtered s2 = employees s2).
Proof.
  assert (Hs : safe_search (debouncedSearch loading_state) = true) by reflexivity.
  assert (Hn : settle 3 loading_state = Some (RLoad (load_url loading_state), set_pending [] loading_state))
    by (vm_compute; reflexivity).
  split; [exact Hs|]. split; [exact Hn|].
  destruct (GET true sample_table (load_query loading_state)) as [env|m] eqn:Hg;
    [| vm_compute in Hg; discriminate].
  exists env. split; [reflexivity|].
  exact (loaded_rows_all_shown sample_table loading_state _ 3 env Hs Hn Hg).
Defined.

Lemma snapshot_at_most_20_witness :
  exists env,
    GET true sample_table (load_query loading_state) = Ok200 env /\
    (List.length (env_employees env) <= 20)%nat.
Proof.
  destruct (GET true sample_table (load_query loading_state)) as [env|m] eqn:Hg;
    [| vm_compute in Hg; discriminate].
  exists env. split; [reflexivity|]. exact (snapshot_at_most_20 sample_table loading_state env Hg).
Defined.

Lemma page_filter_equiv_endpoint_witness :
  let s := set_debouncedSearch "sales" settled_state in
  safe_search (debouncedSearch s) = true /\ no_byte " " (debouncedSearch s) = true /\
  exists ps, load_conditions s = Some ps /\
    accepts ps (row_visible (debouncedSearch s) (department s) (status s)).
Proof.
  split; [reflexivity|]. split; [reflexivity|].
  apply page_filter_equiv_endpoint; reflexivity.
Defined.

Definition abc : Employee := mkEmployee "E9" "abc" "abc@x.com" "Sales" "Lead" "Active" None None.

Lemma wildcard_search_hides_rows_witness :
  let s := set_debouncedSearch "a_c" settled_state in
  debouncedSearch s = String.append "a" (String "_" "c") /\
  safe_search "a" = true /\ safe_search "c" = true /\
  no_byte " " "a" = true /\ no_byte " " "c" = true /\
  department s = "" /\ status s = "" /\
  includes (toLowerCase (emp_name abc)) (toLowerCase (String.append "a" (String "b" "c"))) = true /\
  field_match (debouncedSearch s) abc = false /\
  exists ps, load_conditions s = Some ps /\ forallb (fun p => p abc) ps = true /\
    row_visible (debouncedSearch s) (department s) (status s) abc = false.
Proof.
  do 9 (split; [reflexivity|]).
  exact (wildcard_search_hides_rows (set_debouncedSearch "a_c" settled_state) "a" "c" "b" abc
           eq_refl eq_refl eq_refl eq_refl eq_refl eq_refl eq_refl eq_refl eq_refl).
Defined.

End LoadContract.

(** ** The leave requests page against [GET /api/leaves] *)

Module LeaveLoadContract.
Import Postgrest LeavesRoute LeavesRouteFacts LeavePage LeavePageFacts.

(** The same for [fetch(`/api/leaves?${params}`)] (leave-requests
    page.tsx line 45) read by leaves/route.ts line 6. *)
Definition leaves_load_query (s : State) : list (string * string) :=
  FormUrlEncoded.url_search (load_url s).

Lemma leaves_load_url_search (s : State) : leaves_load_query s = load_params s.
Proof.
  unfold leaves_load_query, load_url.
  change "/api/leaves?" with (String.append "/api/leaves" "?").
  rewrite <- append_assoc_str. by apply FormUrlEncoded.url_search_build.
Qed.

Lemma leaves_read_load_params (s : State) :
  LeavesRoute.read_params (leaves_load_query s) =
    LeavesRoute.mk_params (Int 1) (Int 20) (debouncedSearch s) (filter s).
Proof.
  rewrite leaves_load_url_search. unfold load_params.
  set (kvs := [("search", debouncedSearch s); ("status", filter s)]).
  assert (FormUrlEncoded.get kvs "page" = None /\ FormUrlEncoded.get kvs "limit" = None /\
          FormUrlEncoded.get kvs "search" = Some (debouncedSearch s) /\
          FormUrlEncoded.get kvs "status" = Some (filter s)) as (H1 & H2 & H3 & H4)
    by (repeat split).
  unfold LeavesRoute.read_params. by rewrite H1, H2, H3, H4, !or_default_self.
Qed.

(** C30. The reply to the leave page's load of its current filters is
    shown whole: it becomes the snapshot and the page's status filter
    hides none of its rows, whatever the search holds. *)
Theorem leaves_loaded_rows_all_shown (t : list Leave) (s s' : State) (n : nat)
    (env : LeavesRoute.envelope) :
  settle n s = Some (load_url s, s') ->
  LeavesRoute.GET true t (leaves_load_query s) = LeavesRoute.Ok200 env ->
  let s2 := step (LoadReply n (OkJson (Some (env_leaves env)))) s in
  leaves s2 = env_leaves env /\ filtered s2 = leaves s2.
Proof.
  intros Hn Hg. cbv zeta. rewrite (leave_step_load_ok n _ _ s s' Hn).
  destruct (leave_settle_spec _ _ _ _ Hn) as (i & _ & ->). split; [reflexivity|].
  unfold filtered. cbn [leaves filter set_loading set_leaves set_pending].
  case_bool_decide as Hf; [done|].
  apply filter_bool_id. eapply Forall_impl; [|apply (leaves_GET_status_sound _ _ _ _ Hg)].
  - intros l Hl. apply bool_decide_eq_true_2. rewrite Hl, leaves_read_load_params. done.
  - rewrite leaves_read_load_params. done.
Qed.

Lemma leaves_loaded_rows_all_shown_witness :
  settle 5 (loadLeaves (set_filter "Pending" settled_leaves)) =
    Some (load_url (loadLeaves (set_filter "Pending" settled_leaves)),
          set_pending [] (loadLeaves (set_filter "Pending" settled_leaves))) /\
  exists env,
    LeavesRoute.GET true sample_leaves
      (leaves_load_query (loadLeaves (set_filter "Pending" settled_leaves))) =
      LeavesRoute.Ok200 env /\
    (let s2 := step (LoadReply 5 (OkJson (Some (env_leaves env))))
                    (loadLeaves (set_filter "Pending" settled_leaves)) in
     leaves s2 = env_leaves env /\ filtered s2 = leaves s2).
Proof.
  set (s := loadLeaves (set_filter "Pending" settled_leaves)).
  assert (Hn : settle 5 s = Some (load_url s, set_pending [] s)) by (vm_compute; reflexivity).
  split; [exact Hn|].
  destruct (LeavesRoute.GET true sample_leaves (leaves_load_query s))
    as [env|m] eqn:Hg; [| vm_compute in Hg; discriminate].
  exists env. split; [reflexivity|].
  exact (leaves_loaded_rows_all_shown sample_leaves s _ 5 env Hn Hg).
Defined.
End LeaveLoadContract.
