(* ===== verification/Backend.v ===== *)
(** * The directory page against the whole back end

    The employee directory sends four kinds of request (page.tsx lines
    55, 133, 153 and 170).  The application's API routes are the files
    under [src/src/app/api]: [employees/route.ts] exports [GET] and
    [POST] for the path [/api/employees] only, [leaves/route.ts] serves
    [/api/leaves] and [auth/signout/route.ts] serves
    [/api/auth/signout]; there is no route file for
    [/api/employees/[id]].  The middleware's matcher does not select
    [/api] paths (SessionGate), so a request reaches the route of its
    path directly, or, when no route file matches, Next.js answers 404.

    [answer] is what the back end does with one request of the page: it
    may change the table and yields the reply event the page receives.
    The data service assigns identifiers and timestamps from a counter. *)

From stdpp Require Import base list strings decidable pretty.
From Stdlib Require Import Ascii String ZArith Lia.
From S2P Require Import Prelude JsString JsNumber UrlParams Schema DataService EmployeesApi EmployeeDirectory.

Module Backend.
Import Postgrest EmployeesRoute Directory.

(** The state of the hosted side: the [employees] table, the counter
    the data service draws identifiers and timestamps from, and whether
    the two environment variables are set. *)
Record world := mkWorld {
  w_employees : list Employee;
  w_counter : nat;
  w_env : bool
}.

Definition fresh_id (w : world) : string := String.append "emp-" (pretty (N.of_nat (w_counter w))).
Definition fresh_ts (w : world) : string := pretty (N.of_nat (w_counter w)).

(** The API route files of [src/src/app/api], by the path they serve. *)
Inductive api_route := EmployeesRouteFile | LeavesRouteFile | SignoutRouteFile.

Definition route_of_path (path : string) : option api_route :=
  if path === "/api/employees" then Some EmployeesRouteFile
  else if path === "/api/leaves" then Some LeavesRouteFile
  else if path === "/api/auth/signout" then Some SignoutRouteFile
  else None.

(** Lines 158 and 175: [JSON.stringify(formData)], as the route's
    [request.json()] reads it back. *)
Definition form_json (d : FormData) : json_object :=
  [("name", f_name d); ("email", f_email d); ("department", f_department d);
   ("role", f_role d); ("status", f_status d)].

(** The path of each request of the page: a load's URL up to its query. *)
Definition request_path (r : Request) : string :=
  match r with
  | RLoad u => match break_at "?" u with Some (path, _) => path | None => u end
  | RDelete id | RPut id _ => String.append "/api/employees/" id
  | RPost _ => "/api/employees"
  end.

(** The back end's answer to the page's request number [n]. *)
Definition answer (w : world) (n : nat) (r : Request) : world * event :=
  match route_of_path (request_path r), r with
  | Some EmployeesRouteFile, RLoad u =>
      (w, LoadReply n
            match GET (w_env w) (w_employees w) (FormUrlEncoded.url_search u) with
            | Ok200 e => OkJson (Some (env_employees e))
            | Err500 _ => NotOk
            end)
  | Some EmployeesRouteFile, RPost d =>
      match POST (w_env w) (w_employees w) (Some (form_json d)) (fresh_id w) (fresh_ts w) with
      | (Created e, t') => (mkWorld t' (S (w_counter w)) (w_env w), SaveReply n (OkJson e))
      | (PostErr500 _, t') => (mkWorld t' (w_counter w) (w_env w), SaveReply n NotOk)
      end
  | _, RDelete _ => (w, DeleteReply n NotOk)
  | _, _ => (w, SaveReply n NotOk)
  end.
End Backend.

Module BackendFacts.
Import Postgrest EmployeesRoute Directory DirectoryFacts Backend.

(** No route file serves [/api/employees/<id>]. *)
Lemma no_route_for_id (id : string) :
  route_of_path (String.append "/api/employees/" id) = None.
Proof. reflexivity. Qed.

(** C24. Editing never persists: the [PUT] the page sends has no route, the
    404 leaves the table as it was, and the page, taking the non-ok
    answer as done, closes the modal and keeps its old row: the edit is
    silently dropped. *)
Theorem edit_never_persists (w : world) (s : State) (e : Employee) (t1 t2 : Z) :
  inv s -> loading s = false -> timer s = None -> showModal s = true ->
  editingEmployee s = Some e -> form_valid (formData s) = true ->
  answer w (next_req s) (RPut (emp_id e) (formData s)) = (w, SaveReply (next_req s) NotOk) /\
  (let s' := run s [(t1, Submit); (t2, SaveReply (next_req s) NotOk)] in
   employees s' = employees s /\ showModal s' = false /\ editingEmployee s' = None /\
   pending s' = pending s).
Proof.
  intros [Hc _] Hl Ht Hm He Hf. split; [unfold answer; change (request_path _) with (String.append "/api/employees/" (emp_id e)); by rewrite no_route_for_id|].
  cbv zeta.
  rewrite run_quiet; [| exact Ht | rewrite (submit_put _ _ e) by done; reflexivity ..].
  rewrite (submit_put _ _ e) by done. cbn [run]. rewrite tick_no_timer by exact Ht.
  unfold step, handle.
  rewrite (settle_last (next_req s) (RPut (emp_id e) (formData s)) _ (pending s));
    [| reflexivity | exact (below_not_last s Hc)].
  rewrite run_effects_same by (cbn; reflexivity). simpl. by repeat split.
Qed.

(** C25. Deleting never happens: the [DELETE] has no route, the table
    keeps the employee, and the page keeps its row and logs the failure. *)
Theorem delete_never_happens (w : world) (s : State) (id : string) (t1 t2 : Z) :
  inv s -> loading s = false -> timer s = None ->
  existsb (fun e => emp_id e === id) (filtered s) = true ->
  answer w (next_req s) (RDelete id) = (w, DeleteReply (next_req s) NotOk) /\
  (let s' := run s [(t1, ClickDelete id true); (t2, DeleteReply (next_req s) NotOk)] in
   employees s' = employees s /\ pending s' = pending s /\
   console s' = "Failed to delete employee" :: console s).
Proof.
  intros [Hc _] Hl Ht Hv. split; [unfold answer; change (request_path _) with (String.append "/api/employees/" id); by rewrite no_route_for_id|].
  cbv zeta.
  assert (E : handle (ClickDelete id true) (set_now t1 s) = issue (RDelete id) (set_now t1 s)).
  { unfold handle. change (loading (set_now t1 s)) with (loading s).
    change (filtered (set_now t1 s)) with (filtered s). by rewrite Hl, Hv. }
  rewrite run_quiet; [| exact Ht | rewrite E; reflexivity ..]. rewrite E.
  cbn [run]. rewrite tick_no_timer by exact Ht. unfold step, handle.
  rewrite (settle_last (next_req s) (RDelete id) _ (pending s));
    [| reflexivity | exact (below_not_last s Hc)].
  rewrite run_effects_same by (cbn; reflexivity). simpl. by repeat split.
Qed.

(** C23. Creating round-trips (spec, section 8): submitting a valid new
    form sends it as JSON, the back end stores a row whose fields are
    the form's with a fresh identifier and timestamps, and the page puts
    that very row first in its snapshot and closes the modal. *)
Theorem create_roundtrip (w : world) (s : State) (t1 t2 : Z) :
  w_env w = true -> inv s -> loading s = false -> timer s = None -> showModal s = true ->
  editingEmployee s = None -> form_valid (formData s) = true ->
  exists e,
    answer w (next_req s) (RPost (formData s)) =
      (mkWorld (e :: w_employees w) (S (w_counter w)) true, SaveReply (next_req s) (OkJson e)) /\
    emp_id e = fresh_id w /\ emp_name e = f_name (formData s) /\ emp_email e = f_email (formData s) /\
    emp_department e = f_department (formData s) /\ emp_role e = f_role (formData s) /\
    emp_status e = f_status (formData s) /\
    (let s' := run s [(t1, Submit); (t2, SaveReply (next_req s) (OkJson e))] in
     employees s' = e :: employees s /\ showModal s' = false /\ pending s' = pending s).
Proof.
  intros Hw [Hc _] Hl Ht Hm He Hf.
  set (e := build_row (R:=Employee) (json_get (form_json (formData s))) (fresh_id w) (fresh_ts w)).
  exists e. split.
  { unfold answer, POST. cbn [request_path route_of_path]. rewrite Hw. simpl negb. cbv iota.
    rewrite insert_accepts by (repeat constructor; eexists; reflexivity). reflexivity. }
  do 6 (split; [reflexivity|]). cbv zeta.
  rewrite run_quiet; [| exact Ht | rewrite submit_post by done; reflexivity ..].
  rewrite submit_post by done. cbn [run]. rewrite tick_no_timer by exact Ht.
  unfold step, handle.
  rewrite (settle_last (next_req s) (RPost (formData s)) _ (pending s));
    [| reflexivity | exact (below_not_last s Hc)].
  rewrite run_effects_same by (cbn; reflexivity). simpl. by repeat split.
Qed.
Definition sample_world : world := mkWorld EmployeesRouteFacts.sample_table 7 true.

Lemma add_state_inv : inv add_state.
Proof. split; [split|]; [constructor | constructor | discriminate | by intros ? ? ?]. Qed.

Lemma edit_never_persists_witness :
  inv edit_state /\ loading edit_state = false /\ timer edit_state = None /\
  showModal edit_state = true /\ editingEmployee edit_state = Some sample_employee /\
  form_valid (formData edit_state) = true /\
  answer sample_world (next_req edit_state) (RPut (emp_id sample_employee) (formData edit_state)) =
    (sample_world, SaveReply (next_req edit_state) NotOk) /\
  (let s' := run edit_state [(1100%Z, Submit); (1200%Z, SaveReply (next_req edit_state) NotOk)] in
   employees s' = employees edit_state /\ showModal s' = false /\ editingEmployee s' = None /\
   pending s' = pending edit_state).
Proof.
  assert (Hf : form_valid (formData edit_state) = true) by (vm_compute; reflexivity).
  split; [exact edit_state_inv|]. do 4 (split; [reflexivity|]). split; [exact Hf|].
  exact (edit_never_persists sample_world edit_state sample_employee 1100 1200
           edit_state_inv eq_refl eq_refl eq_refl eq_refl Hf).
Defined.

Lemma delete_never_happens_witness :
  inv settled_state /\ loading settled_state = false /\ timer settled_state = None /\
  existsb (fun e => emp_id e === "E1") (filtered settled_state) = true /\
  answer sample_world (next_req settled_state) (RDelete "E1") =
    (sample_world, DeleteReply (next_req settled_state) NotOk) /\
  (let s' := run settled_state [(1100%Z, ClickDelete "E1" true);
                                (1200%Z, DeleteReply (next_req settled_state) NotOk)] in
   employees s' = employees settled_state /\ pending s' = pending settled_state /\
   console s' = "Failed to delete employee" :: console settled_state).
Proof.
  assert (Hv : existsb (fun e => emp_id e === "E1") (filtered settled_state) = true)
    by (vm_compute; reflexivity).
  split; [exact settled_state_inv|]. do 2 (split; [reflexivity|]). split; [exact Hv|].
  exact (delete_never_happens sample_world settled_state "E1" 1100 1200
           settled_state_inv eq_refl eq_refl Hv).
Defined.

Lemma create_roundtrip_witness :
  w_env sample_world = true /\ inv add_state /\ loading add_state = false /\
  timer add_state = None /\ showModal add_state = true /\ editingEmployee add_state = None /\
  form_valid (formData add_state) = true /\
  exists e,
    answer sample_world (next_req add_state) (RPost (formData add_state)) =
      (mkWorld (e :: w_employees sample_world) (S (w_counter sample_world)) true,
       SaveReply (next_req add_state) (OkJson e)) /\
    emp_id e = fresh_id sample_world /\ emp_name e = f_name (formData add_state) /\
    emp_email e = f_email (formData add_state) /\
    emp_department e = f_department (formData add_state) /\
    emp_role e = f_role (formData add_state) /\ emp_status e = f_status (formData add_state) /\
    (let s' := run add_state [(1100%Z, Submit); (1200%Z, SaveReply (next_req add_state) (OkJson e))] in
     employees s' = e :: employees add_state /\ showModal s' = false /\
     pending s' = pending add_state).
Proof.
  assert (Hf : form_valid (formData add_state) = true) by (vm_compute; reflexivity).
  split; [reflexivity|]. split; [exact add_state_inv|]. do 4 (split; [reflexivity|]).
  split; [exact Hf|].
  exact (create_roundtrip sample_world add_state 1100 1200 eq_refl add_state_inv
           eq_refl eq_refl eq_refl eq_refl Hf).
Defined.
End BackendFacts.
